(** * Simple System Monitor: the sampling engine of [extension.js]

    A shallow embedding of the counter readers ([getCurrentNetSpeed],
    [getCurrentCPUUsage], [getMemoryInfo]), the formatters
    ([formatNetSpeed], [formatUsage]) and the life cycle of [SSMExtension]
    ([enable], [disable], [_setupTimer], [_refresh]), followed by the
    properties of the specification that concern them.

    Conventions of the embedding:
    - a JavaScript Number is a [number]: NaN, the two infinities, or a finite
      binary64 value kept as the rational it denotes.  Every arithmetic
      operation computes the exact rational result and rounds it to
      binary64 ([fl], round to nearest, ties to even).  The sign of zero is
      not kept: the program never divides by a zero it computed with a
      negative sign, and prints both zeros alike;
    - a JavaScript string is a [string]; its characters are read as the code
      points 0 to 255;
    - a statement that can throw runs in the monad [M], which threads the
      mutable state through normal and abrupt completion alike. *)

From Stdlib Require Import ZArith QArith Qround Qabs Lia List Bool Ascii String.
From Stdlib Require Import DecimalString.
Import ListNotations.

Local Open Scope string_scope.
Local Open Scope Z_scope.

(** ** Numbers *)

Inductive number : Type :=
| NaN
| PosInf
| NegInf
| Fin (q : Q).

(** [ilog2 a b] is the integer part of the binary logarithm of [a / b]. *)
Definition ilog2 (a b : positive) : Z :=
  let e0 := Z.log2 (Zpos a) - Z.log2 (Zpos b) in
  let above := if 0 <=? e0 then Zpos b * 2 ^ e0 <=? Zpos a
               else Zpos b <=? Zpos a * 2 ^ (- e0) in
  if above then e0 else e0 - 1.

(** Rounding of the positive rational [a / b] to a 53-bit significand [m]
    scaled by [2 ^ u], the exponent [u] being at least that of the
    subnormal numbers; ties go to the even significand. *)
Definition round_mag (a b : positive) : Z * Z :=
  let u := Z.max (ilog2 a b - 52) (-1074) in
  let N := if 0 <=? u then Zpos a else Zpos a * 2 ^ (- u) in
  let D := if 0 <=? u then Zpos b * 2 ^ u else Zpos b in
  let m := N / D in
  let r := N mod D in
  let m' := match 2 * r ?= D with
            | Lt => m
            | Gt => m + 1
            | Eq => if Z.even m then m else m + 1
            end in
  (m', u).

Definition dyadic (m u : Z) : Q :=
  if 0 <=? u then inject_Z (m * 2 ^ u)
  else Qred (Qmake m (Z.to_pos (2 ^ (- u)))).

Definition overflows (m u : Z) : bool :=
  (0 <=? u) && (2 ^ 1024 <=? m * 2 ^ u).

(** [fl q] is the binary64 value nearest to [q]. *)
Definition fl (q : Q) : number :=
  match Qnum q with
  | Z0 => Fin 0
  | Zpos a =>
      let '(m, u) := round_mag a (Qden q) in
      if overflows m u then PosInf else Fin (dyadic m u)
  | Zneg a =>
      let '(m, u) := round_mag a (Qden q) in
      if overflows m u then NegInf else Fin (Qopp (dyadic m u))
  end.

Definition of_Z (z : Z) : number := fl (inject_Z z).

Definition neg (x : number) : number :=
  match x with
  | NaN => NaN
  | PosInf => NegInf
  | NegInf => PosInf
  | Fin q => Fin (Qopp q)
  end.

(** [x + y] *)
Definition add (x y : number) : number :=
  match x, y with
  | NaN, _ | _, NaN => NaN
  | PosInf, NegInf | NegInf, PosInf => NaN
  | PosInf, _ | _, PosInf => PosInf
  | NegInf, _ | _, NegInf => NegInf
  | Fin a, Fin b => fl (a + b)
  end.

(** [x - y] *)
Definition sub (x y : number) : number := add x (neg y).

Definition Qneg_b (q : Q) : bool := Qnum q <? 0.
Definition Qzero_b (q : Q) : bool := Qnum q =? 0.

(** [x * y] *)
Definition mul (x y : number) : number :=
  match x, y with
  | NaN, _ | _, NaN => NaN
  | Fin a, Fin b => fl (a * b)
  | Fin a, PosInf | PosInf, Fin a =>
      if Qzero_b a then NaN else if Qneg_b a then NegInf else PosInf
  | Fin a, NegInf | NegInf, Fin a =>
      if Qzero_b a then NaN else if Qneg_b a then PosInf else NegInf
  | PosInf, PosInf | NegInf, NegInf => PosInf
  | PosInf, NegInf | NegInf, PosInf => NegInf
  end.

(** [x / y] *)
Definition div (x y : number) : number :=
  match x, y with
  | NaN, _ | _, NaN => NaN
  | Fin a, Fin b =>
      if Qzero_b b
      then if Qzero_b a then NaN else if Qneg_b a then NegInf else PosInf
      else fl (a / b)
  | Fin _, _ => Fin 0
  | PosInf, Fin b => if Qneg_b b then NegInf else PosInf
  | NegInf, Fin b => if Qneg_b b then PosInf else NegInf
  | _, _ => NaN
  end.

(** The order of two numbers, [None] when one of them is NaN. *)
Definition compare (x y : number) : option comparison :=
  match x, y with
  | NaN, _ | _, NaN => None
  | NegInf, NegInf | PosInf, PosInf => Some Eq
  | NegInf, _ | _, PosInf => Some Lt
  | PosInf, _ | _, NegInf => Some Gt
  | Fin a, Fin b => Some (a ?= b)%Q
  end.

(** [x < y], [x > y], [x >= y], [x === y] and [x !== y] *)
Definition lt (x y : number) : bool :=
  match compare x y with Some Lt => true | _ => false end.
Definition gt (x y : number) : bool :=
  match compare x y with Some Gt => true | _ => false end.
Definition ge (x y : number) : bool :=
  match compare x y with Some Gt | Some Eq => true | _ => false end.
Definition strict_eq (x y : number) : bool :=
  match compare x y with Some Eq => true | _ => false end.
Definition strict_neq (x y : number) : bool := negb (strict_eq x y).

(** [isNaN(x)] *)
Definition isNaN (x : number) : bool :=
  match x with NaN => true | _ => false end.

(** [Math.round(x)]: the nearest integer, a tie going up. *)
Definition Math_round (x : number) : number :=
  match x with
  | Fin q => Fin (inject_Z (Qfloor (q + (1 # 2))))
  | _ => x
  end.

Declare Scope number_scope.
Delimit Scope number_scope with num.
Bind Scope number_scope with number.
Notation "0" := (Fin 0) : number_scope.
Infix "+" := add : number_scope.
Infix "-" := sub : number_scope.
Infix "*" := mul : number_scope.
Infix "/" := div : number_scope.
Infix "<" := lt : number_scope.
Infix ">" := gt : number_scope.
Infix ">=" := ge : number_scope.
Infix "===" := strict_eq (at level 70, no associativity) : number_scope.
Infix "!==" := strict_neq (at level 70, no associativity) : number_scope.

(** ** Strings *)

Definition code (c : ascii) : N := N_of_ascii c.

Definition is_digit (c : ascii) : bool :=
  ((48 <=? code c) && (code c <=? 57))%N.

(** The class [\w]: letters, digits and the underscore. *)
Definition is_word (c : ascii) : bool :=
  (is_digit c
   || ((65 <=? code c) && (code c <=? 90))
   || (code c =? 95)
   || ((97 <=? code c) && (code c <=? 122)))%N.

(** White space and line terminators, as [trim] and [parseInt] strip them. *)
Definition is_space (c : ascii) : bool :=
  (((9 <=? code c) && (code c <=? 13)) || (code c =? 32) || (code c =? 160))%N.

Fixpoint trimStart (s : string) : string :=
  match s with
  | String c r => if is_space c then trimStart r else s
  | EmptyString => EmptyString
  end.

Fixpoint trimEnd (s : string) : string :=
  match s with
  | String c r =>
      match trimEnd r with
      | EmptyString => if is_space c then EmptyString else String c EmptyString
      | r' => String c r'
      end
  | EmptyString => EmptyString
  end.

(** [s.trim()] *)
Definition trim (s : string) : string := trimEnd (trimStart s).

(** The pieces of [s] between the occurrences of [sep]: the first one, and
    the others in order. *)
Fixpoint pieces (sep : ascii) (s : string) : string * list string :=
  match s with
  | String c r =>
      let '(h, t) := pieces sep r in
      if Ascii.eqb c sep then (EmptyString, h :: t) else (String c h, t)
  | EmptyString => (EmptyString, [])
  end.

Definition newline : ascii := ascii_of_N 10.

(** [s.split('\n')] *)
Definition split_lines (s : string) : list string :=
  let '(h, t) := pieces newline s in h :: t.

(** The pieces of [s] between the maximal runs of characters outside [\w]:
    a character outside [\w] ends the piece before it, and starts a new
    piece unless the run goes on. *)
Fixpoint nonword_pieces (s : string) : string * list string :=
  match s with
  | String c r =>
      let '(h, t) := nonword_pieces r in
      if is_word c then (String c h, t)
      else match r with
           | String c' _ => if is_word c' then (EmptyString, h :: t) else (h, t)
           | EmptyString => (EmptyString, h :: t)
           end
  | EmptyString => (EmptyString, [])
  end.

(** [s.split(/\W+/)] *)
Definition split_nonword (s : string) : list string :=
  let '(h, t) := nonword_pieces s in h :: t.

(** [line.trim().split(/\W+/)] *)
Definition fields_of (line : string) : list string := split_nonword (trim line).

(** [a[i]], where a missing element reads as [undefined], which
    [Number.parseInt] converts to the string ["undefined"]. *)
Definition field (a : list string) (i : nat) : string := nth i a "undefined".

Fixpoint spaces (n : nat) : string :=
  match n with
  | O => EmptyString
  | S k => String " " (spaces k)
  end.

(** [s.padStart(n)] *)
Definition padStart (s : string) (n : nat) : string :=
  spaces (n - String.length s) ++ s.

(** [items.join(sep)] *)
Fixpoint join (sep : string) (items : list string) : string :=
  match items with
  | [] => EmptyString
  | [x] => x
  | x :: rest => x ++ sep ++ join sep rest
  end.

(** *** [Number.parseInt] *)

Definition digit_value (radix : Z) (c : ascii) : option Z :=
  let n := Z.of_N (code c) in
  let v := if is_digit c then Some (n - 48)
           else if ((97 <=? n) && (n <=? 122))%Z then Some (n - 87)
           else if ((65 <=? n) && (n <=? 90))%Z then Some (n - 55)
           else None in
  match v with
  | Some d => if (d <? radix)%Z then Some d else None
  | None => None
  end.

(** The value of the longest prefix of [s] made of digits of the radix,
    continuing from [acc]; [seen] tells whether a digit was read. *)
Fixpoint read_digits (radix : Z) (s : string) (acc : Z) (seen : bool)
  : option Z :=
  match s with
  | String c r =>
      match digit_value radix c with
      | Some d => read_digits radix r (acc * radix + d) true
      | None => if seen then Some acc else None
      end
  | EmptyString => if seen then Some acc else None
  end.

Definition strip_sign (s : string) : bool * string :=
  match s with
  | String "-" r => (true, r)
  | String "+" r => (false, r)
  | _ => (false, s)
  end.

Definition strip_hex_prefix (s : string) : Z * string :=
  match s with
  | String "0" (String "x" r) | String "0" (String "X" r) => (16, r)
  | _ => (10, s)
  end.

(** [Number.parseInt(s)], without a radix argument. *)
Definition parseInt (s : string) : number :=
  let '(negative, s1) := strip_sign (trimStart s) in
  let '(radix, s2) := strip_hex_prefix s1 in
  match read_digits radix s2 0 false with
  | Some v => of_Z (if negative then - v else v)
  | None => NaN
  end.

(** *** Printing numbers *)

Definition digits (z : Z) : string := NilZero.string_of_uint (N.to_uint (Z.to_N z)).

Fixpoint strip_zeros_rev (s : list ascii) : list ascii :=
  match s with
  | "0"%char :: r => strip_zeros_rev r
  | _ => s
  end.

Definition strip_trailing_zeros (s : string) : string :=
  string_of_list_ascii (rev (strip_zeros_rev (rev (list_ascii_of_string s)))).

(** The candidates with [k] digits for the shortest decimal that reads back
    as the integer [x] of [n] digits: [s * 10 ^ (n - k)] for [s] just below
    and just above [x / 10 ^ (n - k)]. *)
Definition shortest_at (x : Z) (n k : nat) : option Z :=
  let p := 10 ^ Z.of_nat (n - k) in
  let lo := x / p in
  let hi := lo + 1 in
  let ok s := strict_eq (of_Z (s * p)) (Fin (inject_Z x)) in
  match ok lo, ok hi with
  | true, true =>
      match x - lo * p ?= hi * p - x with
      | Lt => Some lo
      | Gt => Some hi
      | Eq => Some (if Z.even lo then lo else hi)
      end
  | true, false => Some lo
  | false, true => Some hi
  | false, false => None
  end.

Fixpoint shortest_from (x : Z) (n k fuel : nat) : Z * nat :=
  match fuel with
  | O => (x, n)
  | S f =>
      match shortest_at x n k with
      | Some s => (s, k)
      | None => shortest_from x n (S k) f
      end
  end.

(** The exponent notation of an integer [x] of more than 21 digits. *)
Definition exponent_notation (x : Z) : string :=
  let n := String.length (digits x) in
  let '(s, k) := shortest_from x n 1 (n - 1) in
  let ds := digits s in
  let e := (String.length ds - 1 + (n - k))%nat in
  match strip_trailing_zeros ds with
  | String d EmptyString => String d "e+" ++ digits (Z.of_nat e)
  | String d r => String d ("." ++ r) ++ "e+" ++ digits (Z.of_nat e)
  | EmptyString => EmptyString
  end.

(** The plain notation of an integer [x] of at most 21 digits: the digits
    of the shortest decimal that reads back as [x], then zeros up to the
    number of digits of [x]. *)
Definition plain_notation (x : Z) : string :=
  let n := String.length (digits x) in
  let '(s, k) := shortest_from x n 1 (n - 1) in
  digits (s * 10 ^ Z.of_nat (n - k)).

(** [x.toString()] for a non-negative integer [x]. *)
Definition nat_toString (x : Z) : string :=
  if x <? 10 ^ 21 then plain_notation x else exponent_notation x.

(** [x.toString()], for the values [Math.round] returns and for those
    [toFixed] passes on: NaN, the infinities and the integers. *)
Definition toString (x : number) : string :=
  match x with
  | NaN => "NaN"
  | PosInf => "Infinity"
  | NegInf => "-Infinity"
  | Fin q =>
      let z := Qfloor q in
      if z <? 0 then "-" ++ nat_toString (- z) else nat_toString z
  end.

Fixpoint zeros (n : nat) : string :=
  match n with
  | O => EmptyString
  | S k => String "0" (zeros k)
  end.

(** [x.toFixed(f)] *)
Definition toFixed (x : number) (f : nat) : string :=
  match x with
  | Fin q =>
      let s := if Qneg_b q then "-" else "" in
      let a := Qabs q in
      if Qle_bool (inject_Z (10 ^ 21)) a then s ++ toString (Fin a)
      else
        let n := Qfloor (a * inject_Z (10 ^ Z.of_nat f) + (1 # 2)) in
        let m := digits n in
        let m := zeros (S f - String.length m) ++ m in
        let k := String.length m in
        s ++ match f with
             | O => m
             | _ => substring 0 (k - f) m ++ "." ++ substring (k - f) f m
             end
  | _ => toString x
  end.

(** ** Statements that can throw *)

Inductive error : Type :=
| IOError       (* [load_contents] failed *)
| DecodeError   (* [ByteArray.toString] met bytes that are not text *)
| TypeError.    (* a property of [null] was read *)

Inductive completion (A : Type) : Type :=
| Normal (a : A)
| Throw (e : error).
Arguments Normal {A} a.
Arguments Throw {A} e.

(** A computation over a mutable state [S]: the state reached is kept
    whether the computation completes normally or throws. *)
Definition M (S A : Type) : Type := S -> completion A * S.

Definition ret {S A} (a : A) : M S A := fun s => (Normal a, s).

Definition bind {S A B} (c : M S A) (k : A -> M S B) : M S B :=
  fun s =>
    match c s with
    | (Normal a, s') => k a s'
    | (Throw e, s') => (Throw e, s')
    end.

Definition throw {S A} (e : error) : M S A := fun s => (Throw e, s).

Definition get {S} : M S S := fun s => (Normal s, s).

Definition modify {S} (f : S -> S) : M S unit := fun s => (Normal tt, f s).

(** [try { body } catch (e) { handler(e) }] *)
Definition try_catch {S} (body : M S unit) (handler : error -> M S unit)
  : M S unit :=
  fun s =>
    match body s with
    | (Normal tt, s') => (Normal tt, s')
    | (Throw e, s') => handler e s'
    end.

(** [if (c) body] *)
Definition when {S} (c : bool) (body : M S unit) : M S unit :=
  if c then body else ret tt.

Notation "x <- c ;; k" := (bind c (fun x => k))
  (at level 61, c at next level, right associativity).
Notation "c ;; k" := (bind c (fun _ => k))
  (at level 61, right associativity).

(** ** The counter sources *)

(** What [load_contents] returns: bytes that [ByteArray.toString] decodes
    to a text, or bytes it rejects. *)
Inductive bytes : Type :=
| Encoded (text : string)
| Malformed.

Inductive file : Type :=
| Missing
| Contents (b : bytes).

(** The three tables read at one instant: [/proc/net/dev], [/proc/stat]
    and [/proc/meminfo]. *)
Record proc : Type := {
  net_dev : file;
  stat : file;
  meminfo : file
}.

Definition load_contents {S} (f : file) : M S bytes :=
  match f with
  | Contents b => ret b
  | Missing => throw IOError
  end.

Definition ByteArray_toString {S} (b : bytes) : M S string :=
  match b with
  | Encoded text => ret text
  | Malformed => throw DecodeError
  end.

(** ** The module state *)

Record globals : Type := {
  lastTotalNetDownBytes : number;
  lastTotalNetUpBytes : number;
  lastCPUUsed : number;
  lastCPUTotal : number
}.

(** The module variables and what [console.error] has printed. *)
Record machine : Type := {
  vars : globals;
  console : list error
}.

Definition set_lastTotalNetDownBytes (v : number) (g : globals) : globals :=
  {| lastTotalNetDownBytes := v;
     lastTotalNetUpBytes := lastTotalNetUpBytes g;
     lastCPUUsed := lastCPUUsed g;
     lastCPUTotal := lastCPUTotal g |}.

Definition set_lastTotalNetUpBytes (v : number) (g : globals) : globals :=
  {| lastTotalNetDownBytes := lastTotalNetDownBytes g;
     lastTotalNetUpBytes := v;
     lastCPUUsed := lastCPUUsed g;
     lastCPUTotal := lastCPUTotal g |}.

Definition set_lastCPUUsed (v : number) (g : globals) : globals :=
  {| lastTotalNetDownBytes := lastTotalNetDownBytes g;
     lastTotalNetUpBytes := lastTotalNetUpBytes g;
     lastCPUUsed := v;
     lastCPUTotal := lastCPUTotal g |}.

Definition set_lastCPUTotal (v : number) (g : globals) : globals :=
  {| lastTotalNetDownBytes := lastTotalNetDownBytes g;
     lastTotalNetUpBytes := lastTotalNetUpBytes g;
     lastCPUUsed := lastCPUUsed g;
     lastCPUTotal := v |}.

(** A function body runs over the machine and the local variable [L] it
    declares before its [try] block and returns after it. *)
Definition frame (L : Type) : Type := machine * L.

Definition read_vars {L} : M (frame L) globals :=
  fun s => (Normal (vars (fst s)), s).

Definition assign {L} (set : globals -> globals) : M (frame L) unit :=
  modify (fun s => ({| vars := set (vars (fst s)); console := console (fst s) |},
                    snd s)).

Definition update_local {L} (f : L -> L) : M (frame L) unit :=
  modify (fun s => (fst s, f (snd s))).

Definition console_error {L} (e : error) : M (frame L) unit :=
  modify (fun s => ({| vars := vars (fst s); console := console (fst s) ++ [e] |},
                    snd s)).

(** [let x = init; try { body } catch (e) { console.error(e); } return x;] *)
Definition guarded {L} (init : L) (body : M (frame L) unit) : M machine L :=
  fun m =>
    match try_catch body console_error (m, init) with
    | (Normal tt, (m', x)) => (Normal x, m')
    | (Throw e, (m', _)) => (Throw e, m')
    end.

(** ** The readers *)

Local Open Scope number_scope.

Definition netSpeedUnits : list string :=
  ["B"; "K"; "M"; "G"; "T"; "P"; "E"; "Z"; "Y"].

Record netSpeed : Type := { down : number; up : number }.

Definition set_down (v : number) (n : netSpeed) : netSpeed :=
  {| down := v; up := up n |}.
Definition set_up (v : number) (n : netSpeed) : netSpeed :=
  {| down := down n; up := v |}.

(** [s] continues [p]: what follows the prefix, if [p] is one. *)
Fixpoint after_prefix (p s : string) : option string :=
  match p, s with
  | EmptyString, _ => Some s
  | String a p', String b s' => if Ascii.eqb a b then after_prefix p' s' else None
  | String _ _, EmptyString => None
  end.

Definition starts_with_digit (s : string) : bool :=
  match s with
  | String c _ => is_digit c
  | EmptyString => false
  end.

Definition virtual_prefixes : list string :=
  ["ifb"; "lxdbr"; "virbr"; "br"; "vnet"; "tun"; "tap"].

(** [iface.match(/^(ifb|lxdbr|virbr|br|vnet|tun|tap)[0-9]+/)], as a truth
    value: some alternative is a prefix of [iface] and a digit follows. *)
Definition matches_virtual (iface : string) : bool :=
  existsb (fun p => match after_prefix p iface with
                    | Some rest => starts_with_digit rest
                    | None => false
                    end) virtual_prefixes.

(** One turn of the loop over the lines of [/proc/net/dev], on the pair
    [(totalDownBytes, totalUpBytes)]. *)
Definition net_line (totals : number * number) (line : string)
  : number * number :=
  let fields := fields_of line in
  if (List.length fields <=? 2)%nat then totals
  else
    let iface := field fields 0 in
    let down := parseInt (field fields 1) in
    let up := parseInt (field fields 9) in
    if String.eqb iface "lo" || matches_virtual iface || isNaN down || isNaN up
    then totals
    else (fst totals + down, snd totals + up).

Definition net_totals (contentLines : list string) : number * number :=
  fold_left net_line contentLines (0, 0).

Definition getCurrentNetSpeed_try (refreshInterval : number) (fs : proc)
  : M (frame netSpeed) unit :=
  content <- load_contents (net_dev fs) ;;
  contentStr <- ByteArray_toString content ;;
  let contentLines := split_lines contentStr in
  let '(totalDownBytes, totalUpBytes) := net_totals contentLines in
  g <- read_vars ;;
  when (lastTotalNetDownBytes g !== 0)
    (update_local
       (set_down ((totalDownBytes - lastTotalNetDownBytes g) / refreshInterval))) ;;
  g <- read_vars ;;
  when (lastTotalNetUpBytes g !== 0)
    (update_local
       (set_up ((totalUpBytes - lastTotalNetUpBytes g) / refreshInterval))) ;;
  assign (set_lastTotalNetDownBytes totalDownBytes) ;;
  assign (set_lastTotalNetUpBytes totalUpBytes).

Definition getCurrentNetSpeed (refreshInterval : number) (fs : proc)
  : M machine netSpeed :=
  guarded {| down := 0; up := 0 |} (getCurrentNetSpeed_try refreshInterval fs).

Definition getCurrentCPUUsage_try (fs : proc) : M (frame number) unit :=
  content <- load_contents (stat fs) ;;
  contentStr <- ByteArray_toString content ;;
  let firstLine := hd "undefined" (split_lines contentStr) in
  let fields := fields_of firstLine in
  when (String.eqb (field fields 0) "cpu" && (5 <=? List.length fields)%nat)
    (let user := parseInt (field fields 1) in
     let nice := parseInt (field fields 2) in
     let sys := parseInt (field fields 3) in
     let idle := parseInt (field fields 4) in
     let used := user + nice + sys in
     let total := used + idle in
     g <- read_vars ;;
     when (total - lastCPUTotal g !== 0)
       (update_local
          (fun _ => (used - lastCPUUsed g) / (total - lastCPUTotal g))) ;;
     assign (set_lastCPUTotal total) ;;
     assign (set_lastCPUUsed used)).

Definition getCurrentCPUUsage (fs : proc) : M machine number :=
  guarded 0 (getCurrentCPUUsage_try fs).

Record memInfo : Type := {
  total : number;
  avail : number;
  swTotal : number;
  swFree : number
}.

(** One turn of the loop over the lines of [/proc/meminfo]. *)
Definition mem_line (mem : memInfo) (line : string) : memInfo :=
  let f := fields_of line in
  if (List.length f <? 2)%nat then mem
  else
    let v := parseInt (field f 1) in
    if String.eqb (field f 0) "MemTotal" then
      {| total := v; avail := avail mem;
         swTotal := swTotal mem; swFree := swFree mem |}
    else if String.eqb (field f 0) "MemAvailable" then
      {| total := total mem; avail := v;
         swTotal := swTotal mem; swFree := swFree mem |}
    else if String.eqb (field f 0) "SwapTotal" then
      {| total := total mem; avail := avail mem;
         swTotal := v; swFree := swFree mem |}
    else if String.eqb (field f 0) "SwapFree" then
      {| total := total mem; avail := avail mem;
         swTotal := swTotal mem; swFree := v |}
    else mem.

Definition getMemoryInfo_try (fs : proc) : M (frame memInfo) unit :=
  content <- load_contents (meminfo fs) ;;
  contentStr <- ByteArray_toString content ;;
  let lines := split_lines contentStr in
  update_local (fun mem => fold_left mem_line lines mem).

Definition getMemoryInfo (fs : proc) : M machine memInfo :=
  guarded {| total := 0; avail := 0; swTotal := 0; swFree := 0 |}
          (getMemoryInfo_try fs).

(** ** The formatters *)

(** The loop of [formatNetSpeed]; [steps] is [netSpeedUnits.length - 1 - ui],
    the number of units left above [ui], so that [ui < netSpeedUnits.length
    - 1] holds exactly when [steps] is not zero. *)
Fixpoint scale (steps : nat) (amount : number) (ui : nat) : number * nat :=
  match steps with
  | O => (amount, ui)
  | S k =>
      if amount >= of_Z 1000 then scale k (amount / of_Z 1000) (S ui)
      else (amount, ui)
  end.

Definition formatNetSpeed (amount : number) (full : bool) : string :=
  let '(amount, ui) := scale (List.length netSpeedUnits - 1) amount 0 in
  let d := if (amount >= of_Z 100) || (amount < fl (1 # 100)) then 0%nat
           else if amount >= of_Z 10 then 1%nat else 2%nat in
  padStart (toFixed amount d) 4 ++ " " ++ nth ui netSpeedUnits "undefined"
  ++ (if full then "/s" else "").

Definition formatUsage (val : number) (extra perc : bool) : string :=
  padStart (toString (Math_round (val * of_Z 100))) (if extra then 3 else 2)
  ++ (if perc then "%" else "").

(** ** The extension *)

(** The values behind [Settings.Prefs]: what each [get()] of [_refresh] and
    [_setupTimer] returns.  [settings.js] is not part of the sources at
    hand; the flags are read as truth values, the texts as strings and the
    interval as a number. *)
Record settings : Type := {
  REFRESH_INTERVAL : number;
  IS_CPU_USAGE_ENABLE : bool;
  IS_MEMORY_USAGE_ENABLE : bool;
  IS_SWAP_USAGE_ENABLE : bool;
  IS_DOWNLOAD_SPEED_ENABLE : bool;
  IS_UPLOAD_SPEED_ENABLE : bool;
  CPU_USAGE_TEXT : string;
  MEMORY_USAGE_TEXT : string;
  SWAP_USAGE_TEXT : string;
  DOWNLOAD_SPEED_TEXT : string;
  UPLOAD_SPEED_TEXT : string;
  ITEM_SEPARATOR : string;
  SHOW_EXTRA_SPACES : bool;
  SHOW_PERCENT_SIGN : bool;
  SHOW_FULL_NET_SPEED_UNIT : bool
}.

Definition set_REFRESH_INTERVAL (v : number) (p : settings) : settings :=
  {| REFRESH_INTERVAL := v;
     IS_CPU_USAGE_ENABLE := IS_CPU_USAGE_ENABLE p;
     IS_MEMORY_USAGE_ENABLE := IS_MEMORY_USAGE_ENABLE p;
     IS_SWAP_USAGE_ENABLE := IS_SWAP_USAGE_ENABLE p;
     IS_DOWNLOAD_SPEED_ENABLE := IS_DOWNLOAD_SPEED_ENABLE p;
     IS_UPLOAD_SPEED_ENABLE := IS_UPLOAD_SPEED_ENABLE p;
     CPU_USAGE_TEXT := CPU_USAGE_TEXT p;
     MEMORY_USAGE_TEXT := MEMORY_USAGE_TEXT p;
     SWAP_USAGE_TEXT := SWAP_USAGE_TEXT p;
     DOWNLOAD_SPEED_TEXT := DOWNLOAD_SPEED_TEXT p;
     UPLOAD_SPEED_TEXT := UPLOAD_SPEED_TEXT p;
     ITEM_SEPARATOR := ITEM_SEPARATOR p;
     SHOW_EXTRA_SPACES := SHOW_EXTRA_SPACES p;
     SHOW_PERCENT_SIGN := SHOW_PERCENT_SIGN p;
     SHOW_FULL_NET_SPEED_UNIT := SHOW_FULL_NET_SPEED_UNIT p |}.

(** The fields of [this]: [_prefs] tells whether the [Prefs] object is set
    or [null], [_indicator] holds the text of the label of the indicator,
    [_timeout] the identifier of the timer.  [_refresh_interval] is
    [undefined] until [_setupTimer] runs; it is only ever used as a divisor,
    where [undefined] counts as NaN. *)
Record extension : Type := {
  _prefs : bool;
  _indicator : option string;
  _timeout : option positive;
  _refresh_interval : number
}.

(** The machine, the extension object, the timers registered with the GLib
    main loop, each with its period, and the stored settings. *)
Record system : Type := {
  mach : machine;
  this : extension;
  sources : list (positive * number);
  next_source : positive;
  gsettings : settings
}.

Definition set_mach (m : machine) (s : system) : system :=
  {| mach := m; this := this s; sources := sources s;
     next_source := next_source s; gsettings := gsettings s |}.

Definition set_this (e : extension) (s : system) : system :=
  {| mach := mach s; this := e; sources := sources s;
     next_source := next_source s; gsettings := gsettings s |}.

Definition set_gsettings (p : settings) (s : system) : system :=
  {| mach := mach s; this := this s; sources := sources s;
     next_source := next_source s; gsettings := p |}.

Definition set_prefs (b : bool) (s : system) : system :=
  set_this {| _prefs := b; _indicator := _indicator (this s);
              _timeout := _timeout (this s);
              _refresh_interval := _refresh_interval (this s) |} s.

Definition set_indicator (i : option string) (s : system) : system :=
  set_this {| _prefs := _prefs (this s); _indicator := i;
              _timeout := _timeout (this s);
              _refresh_interval := _refresh_interval (this s) |} s.

Definition set_timeout (t : option positive) (s : system) : system :=
  set_this {| _prefs := _prefs (this s); _indicator := _indicator (this s);
              _timeout := t;
              _refresh_interval := _refresh_interval (this s) |} s.

Definition set_refresh_interval (v : number) (s : system) : system :=
  set_this {| _prefs := _prefs (this s); _indicator := _indicator (this s);
              _timeout := _timeout (this s);
              _refresh_interval := v |} s.

Definition zero_globals : globals :=
  {| lastTotalNetDownBytes := 0; lastTotalNetUpBytes := 0;
     lastCPUUsed := 0; lastCPUTotal := 0 |}.

Definition reset_globals (s : system) : system :=
  set_mach {| vars := zero_globals; console := console (mach s) |} s.

(** A call of one of the readers. *)
Definition on_machine {A} (c : M machine A) : M system A :=
  fun s => let '(r, m) := c (mach s) in (r, set_mach m s).

(** [this._prefs], whose properties cannot be read when it is [null]. *)
Definition prefs : M system settings :=
  fun s => if _prefs (this s) then (Normal (gsettings s), s)
           else (Throw TypeError, s).

(** [GLib.source_remove(id)] *)
Definition source_remove (id : positive) : M system unit :=
  modify (fun s =>
    {| mach := mach s; this := this s;
       sources := filter (fun t => negb (Pos.eqb (fst t) id)) (sources s);
       next_source := next_source s; gsettings := gsettings s |}).

(** [GLib.timeout_add_seconds(GLib.PRIORITY_DEFAULT_IDLE, interval, ...)],
    the callback being [_refresh]. *)
Definition timeout_add_seconds (interval : number) : M system positive :=
  fun s =>
    (Normal (next_source s),
     {| mach := mach s; this := this s;
        sources := sources s ++ [(next_source s, interval)];
        next_source := Pos.succ (next_source s); gsettings := gsettings s |}).

Definition _setupTimer : M system unit :=
  s <- get ;;
  match _timeout (this s) with
  | Some id => source_remove id
  | None => ret tt
  end ;;
  p <- prefs ;;
  modify (set_refresh_interval (REFRESH_INTERVAL p)) ;;
  id <- timeout_add_seconds (REFRESH_INTERVAL p) ;;
  modify (set_timeout (Some id)).

(** [enable()], on the state modelled: the insertion in the panel, the
    connection of the callbacks and the styles of the label are left out. *)
Definition enable : M system unit :=
  modify reset_globals ;;
  modify (set_prefs true) ;;
  modify (set_indicator (Some "Initializing...")) ;;
  _setupTimer.

Definition disable : M system unit :=
  s <- get ;;
  match _timeout (this s) with
  | Some id => source_remove id
  | None => ret tt
  end ;;
  modify (set_timeout None) ;;
  modify (set_indicator None) ;;
  modify (set_prefs false).

(** The callback connected to the changes of [REFRESH_INTERVAL], run once
    the setting has taken the value [v]. *)
Definition REFRESH_INTERVAL_changed (v : number) : M system unit :=
  modify (fun s => set_gsettings (set_REFRESH_INTERVAL v (gsettings s)) s) ;;
  _setupTimer.

Definition SOURCE_CONTINUE : bool := true.
Definition SOURCE_REMOVE : bool := false.

(** The fragment pushed for the memory usage, if any. *)
Definition memory_item (p : settings) (mem : memInfo) : list string :=
  if IS_MEMORY_USAGE_ENABLE p && (total mem > 0)
  then [MEMORY_USAGE_TEXT p ++ " "
        ++ formatUsage ((total mem - avail mem) / total mem)
                       (SHOW_EXTRA_SPACES p) (SHOW_PERCENT_SIGN p)]
  else [].

(** The fragment pushed for the swap usage, if any. *)
Definition swap_item (p : settings) (mem : memInfo) : list string :=
  if IS_SWAP_USAGE_ENABLE p && (swTotal mem > 0)
  then [SWAP_USAGE_TEXT p ++ " "
        ++ formatUsage ((swTotal mem - swFree mem) / swTotal mem)
                       (SHOW_EXTRA_SPACES p) (SHOW_PERCENT_SIGN p)]
  else [].

(** The fragment pushed for the CPU usage, if any; the counters are read
    only when the metric is enabled. *)
Definition cpu_item (p : settings) (fs : proc) : M system (list string) :=
  if IS_CPU_USAGE_ENABLE p
  then usage <- on_machine (getCurrentCPUUsage fs) ;;
       ret [CPU_USAGE_TEXT p ++ " "
            ++ formatUsage usage (SHOW_EXTRA_SPACES p) (SHOW_PERCENT_SIGN p)]
  else ret [].

(** The fragments pushed for the two network speeds. *)
Definition net_items (p : settings) (fs : proc) : M system (list string) :=
  if IS_DOWNLOAD_SPEED_ENABLE p || IS_UPLOAD_SPEED_ENABLE p
  then s <- get ;;
       net <- on_machine (getCurrentNetSpeed (_refresh_interval (this s)) fs) ;;
       let full := SHOW_FULL_NET_SPEED_UNIT p in
       ret (List.app
              (if IS_DOWNLOAD_SPEED_ENABLE p
               then [DOWNLOAD_SPEED_TEXT p ++ " " ++ formatNetSpeed (down net) full]
               else [])
              (if IS_UPLOAD_SPEED_ENABLE p
               then [UPLOAD_SPEED_TEXT p ++ " " ++ formatNetSpeed (up net) full]
               else []))
  else ret [].

Definition _refresh (fs : proc) : M system bool :=
  s <- get ;;
  match _indicator (this s) with
  | None => ret SOURCE_REMOVE
  | Some _ =>
      mem <- on_machine (getMemoryInfo fs) ;;
      p <- prefs ;;
      items <- cpu_item p fs ;;
      let items := (items ++ memory_item p mem)%list in
      let items := (items ++ swap_item p mem)%list in
      pushed <- net_items p fs ;;
      let items := (items ++ pushed)%list in
      modify (set_indicator (Some (join (ITEM_SEPARATOR p) items))) ;;
      ret SOURCE_CONTINUE
  end.

(** The main loop runs the callback of the timer [id], and drops the timer
    when the callback returns [SOURCE_REMOVE]. *)
Definition tick (fs : proc) (id : positive) : M system unit :=
  s <- get ;;
  if existsb (fun t => Pos.eqb (fst t) id) (sources s)
  then continue <- _refresh fs ;;
       when (negb continue) (source_remove id)
  else ret tt.

(** The state of a computation after it ran, and its completion. *)
Definition exec {S A} (c : M S A) (s : S) : S := snd (c s).
Definition eval {S A} (c : M S A) (s : S) : completion A := fst (c s).

(** ** The network table, as the specification words it *)

(** The name is [lo], or starts with one of the prefixes immediately
    followed by one or more digits. *)
Definition spec_excluded (iface : string) : Prop :=
  iface = "lo"
  \/ exists p ds rest,
       In p virtual_prefixes
       /\ ds <> EmptyString
       /\ (forall c, In c (list_ascii_of_string ds) -> is_digit c = true)
       /\ iface = p ++ ds ++ rest.

(** A field is fully numeric: one or more decimal digits, and nothing
    else. *)
Definition fully_numeric (s : string) : bool :=
  match s with
  | EmptyString => false
  | String _ _ => forallb is_digit (list_ascii_of_string s)
  end.

(** The integer that a string of decimal digits writes. *)
Definition decimal (s : string) : Z :=
  fold_left (fun acc c => (acc * 10 + (Z.of_N (code c) - 48))%Z)
            (list_ascii_of_string s) 0%Z.

(** A line counts: it has at least 3 tokens, its interface is not
    excluded, and its fields 1 and 9 are fully numeric. *)
Definition spec_counted (line : string) : Prop :=
  let fields := fields_of line in
  (3 <= List.length fields)%nat
  /\ ~ spec_excluded (field fields 0)
  /\ fully_numeric (field fields 1) = true
  /\ fully_numeric (field fields 9) = true.

(** The integer sum of field [i] over the lines that count. *)
Inductive spec_sum (i : nat) : list string -> Z -> Prop :=
| spec_sum_nil : spec_sum i [] 0%Z
| spec_sum_counted line rest z :
    spec_counted line -> spec_sum i rest z ->
    spec_sum i (line :: rest) (decimal (field (fields_of line) i) + z)%Z
| spec_sum_skipped line rest z :
    ~ spec_counted line -> spec_sum i rest z ->
    spec_sum i (line :: rest) z.

(** The counters of the lines that count fit the 64 bits of the data
    model. *)
Definition u64_table (lines : list string) : Prop :=
  forall line,
    In line lines -> spec_counted line ->
    (decimal (field (fields_of line) 1) < 2 ^ 64
     /\ decimal (field (fields_of line) 9) < 2 ^ 64)%Z.

(** A field is fully numeric or does not start with a digit: it is not a
    number followed by other characters. *)
Definition plain (s : string) : bool :=
  fully_numeric s || negb (starts_with_digit s).

(** No line of at least 3 tokens, whose interface is not excluded, has a
    field 1 or a field 9 made of a number followed by other characters. *)
Definition no_digit_prefix (lines : list string) : Prop :=
  forall line,
    In line lines ->
    (3 <= List.length (fields_of line))%nat ->
    ~ spec_excluded (field (fields_of line) 0) ->
    plain (field (fields_of line) 1) = true
    /\ plain (field (fields_of line) 9) = true.

(** The test that a line counts, and the sum over the lines that pass
    it, as functions: they compute [spec_counted] and [spec_sum]. *)
Definition spec_counted_b (line : string) : bool :=
  let fields := fields_of line in
  (3 <=? List.length fields)%nat
  && negb (String.eqb (field fields 0) "lo" || matches_virtual (field fields 0))
  && fully_numeric (field fields 1)
  && fully_numeric (field fields 9).

Definition spec_total (i : nat) (lines : list string) : Z :=
  fold_right Z.add 0%Z
    (map (fun l => decimal (field (fields_of l) i))
         (filter spec_counted_b lines)).

(** ** The network table, as the loop reads it *)

(** [!isNaN(Number.parseInt(s))]: [Number.parseInt] reads a number at the
    start of [s], whatever follows it. *)
Definition numeric (s : string) : bool := negb (isNaN (parseInt s)).

(** The lines that the loop of [getCurrentNetSpeed] adds up, the ones
    that pass its two tests: more than 2 tokens, and neither an excluded
    interface nor a field 1 or 9 that [Number.parseInt] does not read. *)
Definition counted (line : string) : bool :=
  let fields := fields_of line in
  (3 <=? List.length fields)%nat
  && negb (String.eqb (field fields 0) "lo" || matches_virtual (field fields 0))
  && numeric (field fields 1)
  && numeric (field fields 9).

(** The integer that [Number.parseInt] reads at the start of a field,
    before it is rounded to a Number. *)
Definition field_value (s : string) : Z :=
  let '(negative, s1) := strip_sign (trimStart s) in
  let '(radix, s2) := strip_hex_prefix s1 in
  match read_digits radix s2 0 false with
  | Some v => if negative then (- v)%Z else v
  | None => 0%Z
  end.

(** The integer sum of what [Number.parseInt] reads in field [i] of the
    lines the loop adds up. *)
Definition sum_field (i : nat) (lines : list string) : Z :=
  fold_right Z.add 0%Z
    (map (fun l => field_value (field (fields_of l) i)) (filter counted lines)).

(** The same sum, taken in the order of the lines with the addition of
    Numbers on the fields as [Number.parseInt] reads them. *)
Definition number_sum (i : nat) (lines : list string) : number :=
  fold_left add
    (map (fun l => parseInt (field (fields_of l) i)) (filter counted lines)) 0.

(** The integers that the Number type holds without rounding. *)
Definition safe (z : Z) : Prop := (Z.abs z <= 2 ^ 53)%Z.

(** The integers the loop adds up, and its running totals from [acc]
    on, are integers that a Number holds without rounding. *)
Fixpoint exact_from (i : nat) (acc : Z) (lines : list string) : Prop :=
  match lines with
  | [] => True
  | l :: rest =>
      if counted l
      then let v := field_value (field (fields_of l) i) in
           safe v /\ safe (acc + v) /\ exact_from i (acc + v)%Z rest
      else exact_from i acc rest
  end.

(** The loop over the table meets no rounding, for the bytes received
    and for the bytes sent. *)
Definition exact_table (content : string) : Prop :=
  exact_from 1 0%Z (split_lines content)
  /\ exact_from 9 0%Z (split_lines content).

(** ** Names for what the readers compute *)

(** The totals [(totalDownBytes, totalUpBytes)] of a network table. *)
Definition net_sample (contentStr : string) : number * number :=
  net_totals (split_lines contentStr).

(** The rate [getCurrentNetSpeed] leaves in [netSpeed] for one direction. *)
Definition rate (total last refreshInterval : number) : number :=
  if last !== 0 then (total - last) / refreshInterval else 0.

(** The pair [(used, total)] of a CPU table whose first line passes the
    test of [getCurrentCPUUsage]. *)
Definition cpu_sample (contentStr : string) : option (number * number) :=
  let fields := fields_of (hd "undefined" (split_lines contentStr)) in
  if String.eqb (field fields 0) "cpu" && (5 <=? List.length fields)%nat
  then
    let used := parseInt (field fields 1) + parseInt (field fields 2)
                + parseInt (field fields 3) in
    Some (used, used + parseInt (field fields 4))
  else None.

(** The usage [getCurrentCPUUsage] leaves in [usage]. *)
Definition usage_of (used total : number) (g : globals) : number :=
  if total - lastCPUTotal g !== 0
  then (used - lastCPUUsed g) / (total - lastCPUTotal g)
  else 0.

(** [Number.isFinite(x)] *)
Definition isFinite (x : number) : bool :=
  match x with Fin _ => true | _ => false end.

(** The error a source raises when it is read, if any. *)
Definition failure (f : file) : option error :=
  match f with
  | Missing => Some IOError
  | Contents Malformed => Some DecodeError
  | Contents (Encoded _) => None
  end.

Definition logged (e : error) (m : machine) : machine :=
  {| vars := vars m; console := console m ++ [e] |}.

Definition stored (g : globals) (m : machine) : machine :=
  {| vars := g; console := console m |}.

(** ** Sample tables *)

Definition nl : string := String newline EmptyString.

(** The text made of the given lines, each ended by a line feed. *)
Definition text_of (lines : list string) : string :=
  fold_right (fun l s => l ++ nl ++ s) EmptyString lines.

Definition net_header : list string :=
  ["Inter-|   Receive                                                |  Transmit";
   " face |bytes    packets errs drop fifo frame compressed multicast|bytes    packets errs drop fifo colls carrier compressed"].

Definition net_table_1 : string :=
  text_of (net_header ++
    ["    lo: 1000 10 0 0 0 0 0 0 1000 10 0 0 0 0 0 0";
     "  eth0: 5000 10 0 0 0 0 0 0 7000 10 0 0 0 0 0 0";
     "   br0: 5000 10 0 0 0 0 0 0 7000 10 0 0 0 0 0 0";
     " wlan0: 300 10 0 0 0 0 0 0 400 10 0 0 0 0 0 0"])%list.

(** Counters below those of [net_table_1], as after a restart. *)
Definition net_table_2 : string :=
  text_of (net_header ++
    ["  eth0: 500 10 0 0 0 0 0 0 700 10 0 0 0 0 0 0"])%list.

(** Counters above those of [net_table_1] for the received bytes only. *)
Definition net_table_3 : string :=
  text_of (net_header ++
    ["  eth0: 5800 10 0 0 0 0 0 0 7400 10 0 0 0 0 0 0"])%list.

Definition cpu_table_1 : string :=
  text_of ["cpu  100 0 100 200 0 0 0 0 0 0"; "cpu0 100 0 100 200 0 0 0 0 0 0"].

(** The same total as [cpu_table_1], more of it used. *)
Definition cpu_table_2 : string :=
  text_of ["cpu  300 0 0 100 0 0 0 0 0 0"; "cpu0 300 0 0 100 0 0 0 0 0 0"].

Definition mem_table_1 : string :=
  text_of ["MemTotal:       1000 kB"; "MemFree:         100 kB";
           "MemAvailable:    250 kB"; "SwapTotal:         0 kB";
           "SwapFree:          0 kB"].

Definition proc_of (net cpu mem : string) : proc :=
  {| net_dev := Contents (Encoded net);
     stat := Contents (Encoded cpu);
     meminfo := Contents (Encoded mem) |}.

Definition proc_1 : proc := proc_of net_table_1 cpu_table_1 mem_table_1.
Definition proc_2 : proc := proc_of net_table_2 cpu_table_2 mem_table_1.
Definition proc_3 : proc := proc_of net_table_3 cpu_table_2 mem_table_1.

(** The network table cannot be read; the other two can. *)
Definition proc_no_net : proc :=
  {| net_dev := Missing;
     stat := Contents (Encoded cpu_table_1);
     meminfo := Contents (Encoded mem_table_1) |}.

(** The machine as [enable] leaves it. *)
Definition machine_reset : machine := {| vars := zero_globals; console := [] |}.

(** The machine after a first sample of [proc_1]. *)
Definition machine_1 : machine :=
  exec (getCurrentCPUUsage proc_1)
       (exec (getCurrentNetSpeed (of_Z 2) proc_1) machine_reset).

Definition settings_1 : settings :=
  {| REFRESH_INTERVAL := Fin 2;
     IS_CPU_USAGE_ENABLE := true;
     IS_MEMORY_USAGE_ENABLE := true;
     IS_SWAP_USAGE_ENABLE := true;
     IS_DOWNLOAD_SPEED_ENABLE := true;
     IS_UPLOAD_SPEED_ENABLE := true;
     CPU_USAGE_TEXT := "C";
     MEMORY_USAGE_TEXT := "M";
     SWAP_USAGE_TEXT := "S";
     DOWNLOAD_SPEED_TEXT := "D";
     UPLOAD_SPEED_TEXT := "U";
     ITEM_SEPARATOR := " ";
     SHOW_EXTRA_SPACES := false;
     SHOW_PERCENT_SIGN := true;
     SHOW_FULL_NET_SPEED_UNIT := true |}.

(** The extension before [enable] is called. *)
Definition system_stopped : system :=
  {| mach := machine_reset;
     this := {| _prefs := false; _indicator := None; _timeout := None;
                _refresh_interval := NaN |};
     sources := [];
     next_source := 1%positive;
     gsettings := settings_1 |}.

(** The extension enabled, after its timer fired twice, on [proc_1] then on
    [proc_3]. *)
Definition system_running : system :=
  exec (tick proc_3 1%positive)
       (exec (tick proc_1 1%positive) (exec enable system_stopped)).

(** ** The memory table, line by line *)

(** The line assigns the key: it has at least 2 tokens, the first of which
    is the key. *)
Definition sets_key (key line : string) : bool :=
  (2 <=? List.length (fields_of line))%nat
  && String.eqb (field (fields_of line) 0) key.

(** The value of the last line of the table that assigns the key, and 0
    when no line does. *)
Definition last_value (key : string) (lines : list string) : number :=
  match find (sets_key key) (rev lines) with
  | Some line => parseInt (field (fields_of line) 1)
  | None => 0
  end.

(** The text holds no line feed. *)
Definition one_line (s : string) : bool :=
  forallb (fun c => negb (Ascii.eqb c newline)) (list_ascii_of_string s).

(** ** The callers of the extension *)

(** [_updateStyles()], on the state modelled: the call needs the indicator
    and the preferences, and throws when one of them is [null]; the style
    it gives to the label is left out. *)
Definition _updateStyles : M system unit :=
  s <- get ;;
  match _indicator (this s) with
  | None => throw TypeError
  | Some _ => prefs ;; ret tt
  end.

(** The callback connected to the changes of the keys other than
    [REFRESH_INTERVAL], run once the settings have taken the values [p]
    for those keys, with the tables as they are then. *)
Definition setting_changed (p : settings) (fs : proc) : M system unit :=
  modify (fun s =>
    set_gsettings (set_REFRESH_INTERVAL (REFRESH_INTERVAL (gsettings s)) p) s) ;;
  _updateStyles ;;
  _refresh fs ;;
  ret tt.

(** What the shell, the settings and the main loop call: [enable()],
    [disable()], the callback of a change of the refresh interval, the
    callback of a change of another key, and the callback of a timer,
    with the tables as they are when it fires. *)
Inductive event : Type :=
| Enable
| Disable
| IntervalChanged (v : number)
| SettingChanged (p : settings) (fs : proc)
| TimerFired (fs : proc) (id : positive).

Definition handler (e : event) : M system unit :=
  match e with
  | Enable => enable
  | Disable => disable
  | IntervalChanged v => REFRESH_INTERVAL_changed v
  | SettingChanged p fs => setting_changed p fs
  | TimerFired fs id => tick fs id
  end.

(** The events that run a callback of the extension. *)
Definition is_callback (e : event) : bool :=
  match e with
  | IntervalChanged _ | SettingChanged _ _ | TimerFired _ _ => true
  | _ => false
  end.

(** The events are handled one after the other; an exception that a
    handler raises ends that handler only. *)
Definition run (events : list event) (s : system) : system :=
  fold_left (fun s e => exec (handler e) s) events s.

(** The extension has at most one timer: when [_timeout] is set, it is the
    only timer registered, its period is [_refresh_interval], and the
    indicator and the preferences are there; when it is not set, no timer
    is registered and the preferences are gone. *)
Definition one_timer (s : system) : Prop :=
  match _timeout (this s) with
  | Some id =>
      sources s = [(id, _refresh_interval (this s))]
      /\ _prefs (this s) = true
      /\ _indicator (this s) <> None
  | None => sources s = [] /\ _prefs (this s) = false
  end.

(** The extension as [disable] leaves it. *)
Definition stopped (s : system) : Prop :=
  sources s = []
  /\ this s = {| _prefs := false; _indicator := None; _timeout := None;
                 _refresh_interval := _refresh_interval (this s) |}.

(** The machine after the reads of a tick: the memory table always, the
    CPU table when its metric is enabled, the network table when one of
    the two speeds is. *)
Definition machine_after_tick (fs : proc) (s : system) : machine :=
  let p := gsettings s in
  let m1 := exec (getMemoryInfo fs) (mach s) in
  let m2 := if IS_CPU_USAGE_ENABLE p then exec (getCurrentCPUUsage fs) m1
            else m1 in
  if IS_DOWNLOAD_SPEED_ENABLE p || IS_UPLOAD_SPEED_ENABLE p
  then exec (getCurrentNetSpeed (_refresh_interval (this s)) fs) m2
  else m2.

(** ** More samples *)

(** One interface that has received 2^53 + 1 bytes. *)
Definition net_table_big : string :=
  text_of (net_header ++
    ["  eth0: 9007199254740993 10 0 0 0 0 0 0 7000 10 0 0 0 0 0 0"])%list.

(** A bridge whose name has a hyphen, as the container engines name
    them, before an interface of the host. *)
Definition net_table_bridge : string :=
  text_of (net_header ++
    ["br-1a2b3c4d5e6f: 900 10 0 0 0 0 0 3 800 10 0 0 0 0 0 0";
     "  eth0: 5000 10 0 0 0 0 0 0 7000 10 0 0 0 0 0 0"])%list.

(** A memory table with a key given twice, a key without a value and a
    value that is not a number. *)
Definition mem_table_2 : string :=
  text_of ["MemTotal:       1000 kB"; "MemTotal:       2000 kB";
           "MemAvailable:"; "SwapTotal:       n/a"; "Cached: 5 kB"].

(** A CPU table whose idle field is not a number. *)
Definition cpu_table_3 : string :=
  text_of ["cpu  300 0 100 idle 0 0 0 0 0 0"].

(** A CPU table that grew by 100 used ticks out of 400 since
    [cpu_table_1]. *)
Definition cpu_table_4 : string :=
  text_of ["cpu  150 0 150 500 0 0 0 0 0 0"; "cpu0 150 0 150 500 0 0 0 0 0 0"].

Definition proc_4 : proc := proc_of net_table_3 cpu_table_4 mem_table_2.
Definition proc_bad_cpu : proc := proc_of net_table_1 cpu_table_3 mem_table_1.

(** The running extension with the CPU and the two speeds switched off. *)
Definition settings_memory_only : settings :=
  {| REFRESH_INTERVAL := Fin 2;
     IS_CPU_USAGE_ENABLE := false;
     IS_MEMORY_USAGE_ENABLE := true;
     IS_SWAP_USAGE_ENABLE := true;
     IS_DOWNLOAD_SPEED_ENABLE := false;
     IS_UPLOAD_SPEED_ENABLE := false;
     CPU_USAGE_TEXT := "C";
     MEMORY_USAGE_TEXT := "M";
     SWAP_USAGE_TEXT := "S";
     DOWNLOAD_SPEED_TEXT := "D";
     UPLOAD_SPEED_TEXT := "U";
     ITEM_SEPARATOR := " ";
     SHOW_EXTRA_SPACES := false;
     SHOW_PERCENT_SIGN := true;
     SHOW_FULL_NET_SPEED_UNIT := true |}.

Definition system_memory_only : system :=
  set_gsettings settings_memory_only system_running.

(** The running extension whose indicator is gone. *)
Definition system_no_indicator : system := set_indicator None system_running.

(** ** Tactics *)

(** Runs the steps of a reader. *)
Ltac run_monad :=
  cbv [guarded try_catch bind ret throw get modify when read_vars assign
       update_local console_error load_contents ByteArray_toString on_machine].

(** Runs the steps of a method of the extension. *)
Ltac run_system :=
  cbv [REFRESH_INTERVAL_changed _setupTimer enable disable prefs source_remove
       timeout_add_seconds bind ret throw get modify exec eval].

(** * Properties *)

Local Close Scope number_scope.

(** ** Values of the built-in functions *)

Example split_nonword_values :
  map split_nonword ["eth0: 12 34"; "a b"; " a"; "a "; ""; " "; "a,, b-c"]
  = [["eth0"; "12"; "34"]; ["a"; "b"]; [""; "a"]; ["a"; ""]; [""]; [""; ""];
     ["a"; "b"; "c"]].
Proof. reflexivity. Qed.

Example trim_values :
  map trim ["  a b  "; "a"; "   "; ""] = ["a b"; "a"; ""; ""].
Proof. reflexivity. Qed.

Example parseInt_values :
  map parseInt ["42"; "12ab"; "ab"; ""; "0x1f"; "0x"; "undefined";
                "9007199254740993"]
  = [Fin 42; Fin 12; NaN; NaN; Fin 31; NaN; NaN; Fin 9007199254740992].
Proof. vm_compute. reflexivity. Qed.

Example fl_values :
  [fl (1 # 3); fl (1 # 10); fl (inject_Z (2 ^ 1024)); fl (1 # 2)]
  = [Fin (6004799503160661 # 18014398509481984);
     Fin (3602879701896397 # 36028797018963968); PosInf; Fin (1 # 2)].
Proof. vm_compute. reflexivity. Qed.

Example toFixed_values :
  [toFixed (Fin 5) 2; toFixed (Fin (3 # 2)) 2; toFixed (Fin 999) 0;
   toFixed (Fin (1 # 8)) 2; toFixed (Fin (-1 # 1000)) 2; toFixed NaN 2;
   toFixed (Fin (1 # 200)) 0; toFixed (of_Z (10 ^ 21)) 2]
  = ["5.00"; "1.50"; "999"; "0.13"; "-0.00"; "NaN"; "0"; "1e+21"].
Proof. vm_compute. reflexivity. Qed.

Example toString_values :
  map toString [Fin 50; Fin (-7); of_Z (2 ^ 70); of_Z (10 ^ 23); PosInf]
  = ["50"; "-7"; "1.1805916207174113e+21"; "1e+23"; "Infinity"].
Proof. vm_compute. reflexivity. Qed.

Example formatUsage_values :
  [formatUsage (Fin (1 # 2)) false true; formatUsage (fl (73 # 1000)) true false]
  = ["50%"; "  7"].
Proof. vm_compute. reflexivity. Qed.

(** Above 2^53 the digits printed are those of the shortest decimal that
    reads back as the number, then zeros. *)
Example toString_large_values :
  map toString [of_Z (2 ^ 53); of_Z (2 ^ 60); of_Z (2 ^ 64); of_Z (10 ^ 20);
                of_Z (2 ^ 69)]
  = ["9007199254740992"; "1152921504606847000"; "18446744073709552000";
     "100000000000000000000"; "590295810358705700000"].
Proof. vm_compute. reflexivity. Qed.

(** ** Integers that a Number holds exactly *)

Lemma Qred_int (z : Z) : Qred (z # 1) = z # 1.
Proof.
  unfold Qred.
  generalize (Z.ggcd_gcd z 1) (Z.ggcd_correct_divisors z 1).
  destruct (Z.ggcd z 1) as [g [r1 r2]]; simpl.
  rewrite Z.gcd_1_r. intros -> [H1 H2].
  rewrite Z.mul_1_l in H1, H2. subst r1 r2. reflexivity.
Qed.

Lemma dyadic_scaled (a k : Z) :
  0 < k -> dyadic (a * 2 ^ k) (- k) = inject_Z a.
Proof.
  intros Hk. unfold dyadic.
  destruct (0 <=? - k) eqn:E; [apply Z.leb_le in E; lia|].
  rewrite Z.opp_involutive.
  unfold inject_Z. rewrite <- (Qred_int a). apply Qred_complete.
  unfold Qeq; simpl. rewrite Z2Pos.id by (apply Z.pow_pos_nonneg; lia). lia.
Qed.

Lemma ilog2_int (p : positive) : ilog2 p 1 = Z.log2 (Zpos p).
Proof.
  unfold ilog2. change (Z.log2 1) with 0. rewrite Z.sub_0_r.
  pose proof (Z.log2_nonneg (Zpos p)) as Hn.
  destruct (Z.log2_spec (Zpos p)) as [Hlo _]; [lia|].
  destruct (0 <=? Z.log2 (Zpos p)) eqn:E; [|apply Z.leb_gt in E; lia].
  rewrite Z.mul_1_l.
  destruct (2 ^ Z.log2 (Zpos p) <=? Zpos p) eqn:E'; [reflexivity|].
  apply Z.leb_gt in E'. lia.
Qed.

Lemma round_mag_int (p : positive) :
  Zpos p <= 2 ^ 53 ->
  exists m u, round_mag p 1 = (m, u)
              /\ overflows m u = false
              /\ dyadic m u = inject_Z (Zpos p).
Proof.
  intros Hp. unfold round_mag. rewrite ilog2_int.
  pose proof (Z.log2_nonneg (Zpos p)) as Hn.
  destruct (Z.log2_spec (Zpos p)) as [Hlo Hhi]; [lia|].
  assert (He : Z.log2 (Zpos p) <= 53).
  { rewrite <- (Z.log2_pow2 53) by lia. apply Z.log2_le_mono. exact Hp. }
  set (e := Z.log2 (Zpos p)) in *.
  rewrite Z.max_l by lia.
  destruct (0 <=? e - 52) eqn:E.
  - apply Z.leb_le in E.
    assert (Hu : e - 52 = 0 \/ e - 52 = 1) by lia.
    destruct Hu as [Hu | Hu]; rewrite Hu.
    + change (2 ^ 0) with 1. rewrite Z.mul_1_r.
      change (Z.pos 1) with 1. rewrite Z.div_1_r, Z.mod_1_r.
      change (2 * 0 ?= 1) with Lt.
      exists (Zpos p), 0. split; [reflexivity|]. split.
      * unfold overflows. change (2 ^ 0) with 1. rewrite Z.mul_1_r.
        simpl andb. apply Z.leb_gt.
        assert (2 ^ 53 < 2 ^ 1024) by (apply Z.pow_lt_mono_r; lia). lia.
      * unfold dyadic. simpl (0 <=? 0). change (2 ^ 0) with 1.
        rewrite Z.mul_1_r. reflexivity.
    + assert (Hp' : Zpos p = 2 ^ 53).
      { replace e with 53 in Hlo by lia. lia. }
      rewrite Hp'. exists (2 ^ 52), 1. split; [reflexivity|]. split.
      * reflexivity.
      * reflexivity.
  - apply Z.leb_gt in E.
    change (Z.pos 1) with 1. rewrite Z.div_1_r, Z.mod_1_r.
    change (2 * 0 ?= 1) with Lt.
    exists (Zpos p * 2 ^ (- (e - 52))), (e - 52).
    split; [reflexivity|]. split.
    + unfold overflows. destruct (0 <=? e - 52) eqn:E2; [|reflexivity].
      apply Z.leb_le in E2. lia.
    + replace (e - 52) with (- (52 - e)) at 2 by lia.
      replace (- (e - 52)) with (52 - e) by lia.
      apply dyadic_scaled. lia.
Qed.

Lemma fl_int (q : Q) :
  Qden q = 1%positive -> safe (Qnum q) -> fl q = Fin (inject_Z (Qnum q)).
Proof.
  destruct q as [n d]; simpl. intros -> Hs. unfold safe in Hs.
  unfold fl; simpl Qnum; simpl Qden. destruct n as [|p|p].
  - reflexivity.
  - destruct (round_mag_int p) as (m & u & -> & -> & ->); [lia|reflexivity].
  - destruct (round_mag_int p) as (m & u & -> & -> & ->); [lia|reflexivity].
Qed.

Lemma of_Z_safe (z : Z) : safe z -> of_Z z = Fin (inject_Z z).
Proof. intros Hs. unfold of_Z. now rewrite fl_int. Qed.

Lemma add_int (a b : Z) :
  safe (a + b) -> (Fin (inject_Z a) + Fin (inject_Z b))%num = Fin (inject_Z (a + b)).
Proof.
  intros Hs. unfold add, inject_Z, Qplus; simpl Qnum; simpl Qden.
  rewrite fl_int; simpl Qnum; simpl Qden.
  - rewrite !Z.mul_1_r. reflexivity.
  - reflexivity.
  - replace (a * 1 + b * 1) with (a + b) by lia. exact Hs.
Qed.

Lemma sub_int (a b : Z) :
  safe (a - b) -> (Fin (inject_Z a) - Fin (inject_Z b))%num = Fin (inject_Z (a - b)).
Proof.
  intros Hs. unfold sub, neg. change (- inject_Z b)%Q with (inject_Z (- b)).
  replace (a - b) with (a + - b) in * by lia. now apply add_int.
Qed.

(** ** What the readers return *)

Lemma failure_or_text (f : file) :
  (exists e, failure f = Some e) \/ (exists text, f = Contents (Encoded text)).
Proof.
  destruct f as [|[text|]]; simpl; eauto.
Qed.

Section Readers.

Variable fs : proc.
Variable m : machine.

Lemma getCurrentNetSpeed_failure refreshInterval e :
  failure (net_dev fs) = Some e ->
  getCurrentNetSpeed refreshInterval fs m
  = (Normal {| down := Fin 0; up := Fin 0 |}, logged e m).
Proof.
  unfold getCurrentNetSpeed, getCurrentNetSpeed_try.
  destruct (net_dev fs) as [|[text|]]; simpl; intros [= <-]; reflexivity.
Qed.

Lemma getCurrentNetSpeed_read refreshInterval text :
  net_dev fs = Contents (Encoded text) ->
  getCurrentNetSpeed refreshInterval fs m
  = (Normal {| down := rate (fst (net_sample text))
                            (lastTotalNetDownBytes (vars m)) refreshInterval;
               up := rate (snd (net_sample text))
                          (lastTotalNetUpBytes (vars m)) refreshInterval |},
     stored {| lastTotalNetDownBytes := fst (net_sample text);
               lastTotalNetUpBytes := snd (net_sample text);
               lastCPUUsed := lastCPUUsed (vars m);
               lastCPUTotal := lastCPUTotal (vars m) |} m).
Proof.
  intros Hf. unfold getCurrentNetSpeed, getCurrentNetSpeed_try.
  rewrite Hf. run_monad. unfold net_sample, rate.
  destruct (net_totals (split_lines text)) as [td tu].
  destruct m as [[ld lu cu ct] log]. cbn.
  destruct (strict_neq ld (Fin 0)); cbn;
    destruct (strict_neq lu (Fin 0)); reflexivity.
Qed.

Lemma getCurrentCPUUsage_failure e :
  failure (stat fs) = Some e ->
  getCurrentCPUUsage fs m = (Normal (Fin 0), logged e m).
Proof.
  unfold getCurrentCPUUsage, getCurrentCPUUsage_try.
  destruct (stat fs) as [|[text|]]; simpl; intros [= <-]; reflexivity.
Qed.

Lemma getCurrentCPUUsage_read text :
  stat fs = Contents (Encoded text) ->
  getCurrentCPUUsage fs m
  = match cpu_sample text with
    | Some (used, total) =>
        (Normal (usage_of used total (vars m)),
         stored {| lastTotalNetDownBytes := lastTotalNetDownBytes (vars m);
                   lastTotalNetUpBytes := lastTotalNetUpBytes (vars m);
                   lastCPUUsed := used;
                   lastCPUTotal := total |} m)
    | None => (Normal (Fin 0), m)
    end.
Proof.
  intros Hf. unfold getCurrentCPUUsage, getCurrentCPUUsage_try.
  rewrite Hf. run_monad. unfold cpu_sample, usage_of.
  destruct m as [[ld lu cu ct] log].
  destruct (String.eqb _ "cpu" && _)%bool; cbn; [|reflexivity].
  match goal with |- context [strict_neq ?x ?y] => destruct (strict_neq x y) end;
    reflexivity.
Qed.

Lemma getMemoryInfo_failure e :
  failure (meminfo fs) = Some e ->
  getMemoryInfo fs m
  = (Normal {| total := Fin 0; avail := Fin 0; swTotal := Fin 0; swFree := Fin 0 |},
     logged e m).
Proof.
  unfold getMemoryInfo, getMemoryInfo_try.
  destruct (meminfo fs) as [|[text|]]; simpl; intros [= <-]; reflexivity.
Qed.

Lemma getMemoryInfo_read text :
  meminfo fs = Contents (Encoded text) ->
  getMemoryInfo fs m
  = (Normal (fold_left mem_line (split_lines text)
               {| total := Fin 0; avail := Fin 0;
                  swTotal := Fin 0; swFree := Fin 0 |}),
     m).
Proof.
  intros Hf. unfold getMemoryInfo, getMemoryInfo_try.
  rewrite Hf. destruct m as [g log]. reflexivity.
Qed.

End Readers.

(** ** Signs and zeros *)

Lemma strict_eq_int (a b : Z) :
  strict_eq (Fin (inject_Z a)) (Fin (inject_Z b)) = (a =? b).
Proof.
  unfold strict_eq, compare, Qcompare; simpl. rewrite !Z.mul_1_r.
  destruct (Z.compare_spec a b) as [H | H | H].
  - symmetry. now apply Z.eqb_eq.
  - symmetry. apply Z.eqb_neq. lia.
  - symmetry. apply Z.eqb_neq. lia.
Qed.

Lemma strict_eq_zero (x : number) :
  strict_eq x (Fin 0) = true -> exists q, x = Fin q /\ Qzero_b q = true.
Proof.
  destruct x as [| | |q]; try discriminate.
  unfold strict_eq, compare, Qcompare; simpl. rewrite Z.mul_1_r.
  destruct (Z.compare_spec (Qnum q) 0) as [H | H | H]; try discriminate.
  intros _. exists q. split; [reflexivity|]. unfold Qzero_b. now apply Z.eqb_eq.
Qed.

(** Dividing by zero never gives a finite number. *)
Lemma div_zero (x y : number) :
  strict_eq y (Fin 0) = true -> isFinite (div x y) = false.
Proof.
  intros Hy. destruct (strict_eq_zero y Hy) as (q & -> & Hq).
  destruct x as [| | |a]; simpl.
  - reflexivity.
  - unfold Qzero_b, Qneg_b in *. apply Z.eqb_eq in Hq. rewrite Hq. reflexivity.
  - unfold Qzero_b, Qneg_b in *. apply Z.eqb_eq in Hq. rewrite Hq. reflexivity.
  - rewrite Hq. destruct (Qzero_b a); [reflexivity|].
    destruct (Qneg_b a); reflexivity.
Qed.

Lemma ilog2_lower (a b : positive) :
  (0 <= ilog2 a b -> Zpos b * 2 ^ ilog2 a b <= Zpos a)
  /\ (ilog2 a b < 0 -> Zpos b <= Zpos a * 2 ^ (- ilog2 a b)).
Proof.
  unfold ilog2.
  destruct (Z.log2_spec (Zpos a)) as [Ha _]; [lia|].
  destruct (Z.log2_spec (Zpos b)) as [_ Hb]; [lia|].
  pose proof (Z.log2_nonneg (Zpos a)) as Hla.
  pose proof (Z.log2_nonneg (Zpos b)) as Hlb.
  remember (Z.log2 (Zpos a)) as la eqn:Ela.
  remember (Z.log2 (Zpos b)) as lb eqn:Elb. clear Ela Elb.
  destruct (0 <=? la - lb) eqn:E.
  - apply Z.leb_le in E.
    destruct (Zpos b * 2 ^ (la - lb) <=? Zpos a) eqn:E'.
    + apply Z.leb_le in E'. split; [intros _; exact E' | lia].
    + split; [intros H | intros H].
      * apply Z.le_trans with (2 ^ Z.succ lb * 2 ^ (la - lb - 1)).
        -- apply Z.mul_le_mono_nonneg_r; [apply Z.pow_nonneg; lia | lia].
        -- rewrite <- Z.pow_add_r by lia.
           replace (Z.succ lb + (la - lb - 1)) with la by lia. exact Ha.
      * assert (la = lb) by lia. replace (- (la - lb - 1)) with 1 by lia.
        rewrite Z.pow_succ_r in Hb by lia. subst la. change (2 ^ 1) with 2. lia.
  - apply Z.leb_gt in E.
    destruct (Zpos b <=? Zpos a * 2 ^ (- (la - lb))) eqn:E'.
    + apply Z.leb_le in E'. split; [lia | intros _; exact E'].
    + split; [lia | intros _].
      apply Z.le_trans with (2 ^ la * 2 ^ (- (la - lb - 1))).
      * rewrite <- Z.pow_add_r by lia.
        replace (la + - (la - lb - 1)) with (Z.succ lb) by lia. lia.
      * apply Z.mul_le_mono_nonneg_r; [apply Z.pow_nonneg; lia | exact Ha].
Qed.

(** Above the smallest subnormal number, the significand is not rounded
    down to zero. *)
Lemma round_mag_pos (a b : positive) :
  Zpos b <= Zpos a * 2 ^ 1074 -> 0 < fst (round_mag a b).
Proof.
  intros Hab. unfold round_mag.
  destruct (ilog2_lower a b) as [H1 H2].
  set (e := ilog2 a b) in *. set (u := Z.max (e - 52) (-1074)).
  set (N := if 0 <=? u then Zpos a else Zpos a * 2 ^ (- u)).
  set (D := if 0 <=? u then Zpos b * 2 ^ u else Zpos b).
  assert (HND : 0 < D <= N).
  { subst N D. destruct (0 <=? u) eqn:E.
    - apply Z.leb_le in E. assert (Hu : u = e - 52) by lia.
      split; [apply Z.mul_pos_pos; [lia | apply Z.pow_pos_nonneg; lia]|].
      apply Z.le_trans with (Zpos b * 2 ^ e); [|apply H1; lia].
      apply Z.mul_le_mono_nonneg_l; [lia|].
      apply Z.pow_le_mono_r; lia.
    - apply Z.leb_gt in E. split; [lia|].
      destruct (Z.max_spec (e - 52) (-1074)) as [[_ Hu] | [_ Hu]];
        fold u in Hu; rewrite Hu.
      + exact Hab.
      + destruct (Z.le_gt_cases 0 e) as [He | He].
        * apply Z.le_trans with (Zpos b * 2 ^ e).
          -- assert (0 < 2 ^ e) by (apply Z.pow_pos_nonneg; lia). nia.
          -- apply Z.le_trans with (Zpos a); [apply H1; lia|].
             assert (0 < 2 ^ (- (e - 52))) by (apply Z.pow_pos_nonneg; lia). nia.
        * apply Z.le_trans with (Zpos a * 2 ^ (- e)); [apply H2; lia|].
          apply Z.mul_le_mono_nonneg_l; [lia|].
          apply Z.pow_le_mono_r; lia. }
  assert (Hm : 0 < N / D) by (apply Z.div_str_pos; lia).
  destruct (2 * (N mod D) ?= D); simpl; [destruct (Z.even (N / D))|..]; lia.
Qed.

Lemma dyadic_pos (m u : Z) : 0 < m -> (0 < dyadic m u)%Q.
Proof.
  intros Hm. unfold dyadic. destruct (0 <=? u) eqn:E.
  - apply Z.leb_le in E. unfold Qlt, inject_Z; simpl.
    assert (0 < 2 ^ u) by (apply Z.pow_pos_nonneg; lia). nia.
  - rewrite Qred_correct. unfold Qlt; simpl. lia.
Qed.

(** A negative quotient above the subnormal range rounds to a negative
    number. *)
Lemma fl_neg_q (q : Q) :
  (q < 0)%Q -> Zpos (Qden q) <= - Qnum q * 2 ^ 1074 ->
  lt (fl q) (Fin 0) = true.
Proof.
  destruct q as [n d]. unfold Qlt; simpl. intros Hn Hd.
  destruct n as [|p|p]; try lia.
  unfold fl; simpl Qnum; simpl Qden; cbv beta iota.
  pose proof (round_mag_pos p d Hd) as Hm.
  destruct (round_mag p d) as [m u]. simpl in Hm.
  destruct (overflows m u); [reflexivity|].
  unfold lt, compare.
  pose proof (dyadic_pos m u Hm) as Hq.
  assert (Hlt : (- dyadic m u < 0)%Q).
  { unfold Qlt in *; simpl in *. lia. }
  assert (Hc : (- dyadic m u ?= 0)%Q = Lt) by (apply Qlt_alt; exact Hlt).
  rewrite Hc. reflexivity.
Qed.

(** ** What the methods do to the module variables *)

Lemma _setupTimer_vars s : vars (mach (exec _setupTimer s)) = vars (mach s).
Proof.
  run_system. destruct (_timeout (this s)); cbn;
    destruct (_prefs (this s)); reflexivity.
Qed.

Lemma enable_vars s : vars (mach (exec enable s)) = zero_globals.
Proof.
  run_system. cbn. destruct (_timeout (this s)); reflexivity.
Qed.

Lemma disable_vars s : vars (mach (exec disable s)) = vars (mach s).
Proof.
  run_system. destruct (_timeout (this s)); reflexivity.
Qed.

Lemma disable_normal s : eval disable s = Normal tt.
Proof.
  run_system. destruct (_timeout (this s)); reflexivity.
Qed.

(** ** The estimator *)

Example machine_1_vars :
  vars machine_1
  = {| lastTotalNetDownBytes := Fin 5300; lastTotalNetUpBytes := Fin 7400;
       lastCPUUsed := Fin 200; lastCPUTotal := Fin 400 |}.
Proof. vm_compute. reflexivity. Qed.

Lemma safe_small (z : Z) : Z.abs z <= 9007199254740992 -> safe z.
Proof. unfold safe. change (2 ^ 53) with 9007199254740992. exact (fun H => H). Qed.

(** C1, as stated, fails for the CPU: right after a reset, the first sample
    of a table with 200 ticks used out of 400 reports the usage 1/2. *)
Lemma first_tick_cpu_usage_not_zero :
  vars machine_reset = zero_globals
  /\ eval (getCurrentCPUUsage proc_1) machine_reset = Normal (Fin (1 # 2))
  /\ eval (getCurrentCPUUsage proc_1) machine_reset <> Normal (Fin 0).
Proof.
  split; [reflexivity|]. split; [vm_compute; reflexivity|].
  vm_compute. discriminate.
Qed.

(** C1, amended.  [enable] resets the four previous values to 0.  Right
    after such a reset, the first sample of the network table yields the
    rate 0 in both directions, whatever the counters, and stores the totals
    read as the new previous values; the first sample of the CPU table
    stores the used and total ticks read as the new previous values, and
    reports the usage [(used - 0) / (total - 0)], taken as 0 when
    [total - 0] is 0: for counters that are integers a Number holds, this
    is the quotient [used / total] of the raw counters, not 0. *)
Theorem first_tick_after_reset refreshInterval fs m :
  (forall s, vars (mach (exec enable s)) = zero_globals)
  /\ (vars m = zero_globals ->
      (forall text,
          net_dev fs = Contents (Encoded text) ->
          getCurrentNetSpeed refreshInterval fs m
          = (Normal {| down := Fin 0; up := Fin 0 |},
             stored {| lastTotalNetDownBytes := fst (net_sample text);
                       lastTotalNetUpBytes := snd (net_sample text);
                       lastCPUUsed := Fin 0;
                       lastCPUTotal := Fin 0 |} m))
      /\ (forall text used total,
             stat fs = Contents (Encoded text) ->
             cpu_sample text = Some (used, total) ->
             getCurrentCPUUsage fs m
             = (Normal (usage_of used total zero_globals),
                stored {| lastTotalNetDownBytes := Fin 0;
                          lastTotalNetUpBytes := Fin 0;
                          lastCPUUsed := used;
                          lastCPUTotal := total |} m))
      /\ (forall used total,
             safe used -> safe total ->
             usage_of (Fin (inject_Z used)) (Fin (inject_Z total)) zero_globals
             = if total =? 0 then Fin 0
               else fl (inject_Z used / inject_Z total))).
Proof.
  split; [exact enable_vars|].
  intros Hm. split; [|split].
  - intros text Hf. rewrite (getCurrentNetSpeed_read _ _ _ text Hf).
    rewrite Hm. reflexivity.
  - intros text used total Hf Hs.
    rewrite (getCurrentCPUUsage_read _ _ text Hf), Hs, Hm. reflexivity.
  - intros used total Hu Ht.
    unfold usage_of; simpl lastCPUTotal; simpl lastCPUUsed.
    change (Fin 0) with (Fin (inject_Z 0)).
    rewrite !sub_int by (now rewrite Z.sub_0_r).
    rewrite !Z.sub_0_r. unfold strict_neq. rewrite strict_eq_int.
    destruct (total =? 0) eqn:E; [reflexivity|].
    simpl negb. cbv iota. unfold div.
    apply Z.eqb_neq in E. unfold Qzero_b; simpl Qnum.
    destruct (total =? 0) eqn:E'; [apply Z.eqb_eq in E'; contradiction|].
    reflexivity.
Qed.

Lemma first_tick_after_reset_witness :
  getCurrentNetSpeed (of_Z 2) proc_1 machine_reset
  = (Normal {| down := Fin 0; up := Fin 0 |},
     stored {| lastTotalNetDownBytes := fst (net_sample net_table_1);
               lastTotalNetUpBytes := snd (net_sample net_table_1);
               lastCPUUsed := Fin 0;
               lastCPUTotal := Fin 0 |} machine_reset)
  /\ getCurrentCPUUsage proc_1 machine_reset
     = (Normal (Fin (1 # 2)),
        stored {| lastTotalNetDownBytes := Fin 0;
                  lastTotalNetUpBytes := Fin 0;
                  lastCPUUsed := Fin 200;
                  lastCPUTotal := Fin 400 |} machine_reset).
Proof.
  destruct (first_tick_after_reset (of_Z 2) proc_1 machine_reset) as [_ H].
  destruct (H eq_refl) as (Hnet & Hcpu & Hint).
  split.
  - apply (Hnet net_table_1 eq_refl).
  - rewrite (Hcpu cpu_table_1 (Fin 200) (Fin 400) eq_refl);
      [|vm_compute; reflexivity].
    change (Fin 200) with (Fin (inject_Z 200)).
    change (Fin 400) with (Fin (inject_Z 400)).
    rewrite (Hint 200 400); [vm_compute; reflexivity | ..];
      apply safe_small; simpl; lia.
Defined.

(** C2, as stated, fails: after totals of 5300 and 7400 bytes, a table with
    500 and 700 bytes read 2 seconds later yields negative rates. *)
Lemma counter_decrease_negative_rate :
  lastTotalNetDownBytes (vars machine_1) = Fin 5300
  /\ net_sample net_table_2 = (Fin 500, Fin 700)
  /\ eval (getCurrentNetSpeed (of_Z 2) proc_2) machine_1
     = Normal {| down := Fin (-2400); up := Fin (-3350) |}.
Proof. vm_compute. repeat split; reflexivity. Qed.

Lemma rate_decrease (c p i : Z) :
  0 <= c < p -> safe p -> 0 < i -> safe i ->
  rate (Fin (inject_Z c)) (Fin (inject_Z p)) (Fin (inject_Z i))
  = fl (inject_Z (c - p) / inject_Z i)
  /\ (rate (Fin (inject_Z c)) (Fin (inject_Z p)) (Fin (inject_Z i)) < 0)%num
     = true.
Proof.
  intros Hc Hp Hi Hsi. unfold safe in *.
  assert (Hr : rate (Fin (inject_Z c)) (Fin (inject_Z p)) (Fin (inject_Z i))
               = fl (inject_Z (c - p) / inject_Z i)).
  { unfold rate, strict_neq. change (Fin 0) with (Fin (inject_Z 0)).
    rewrite strict_eq_int.
    destruct (p =? 0) eqn:E; [apply Z.eqb_eq in E; lia|]. simpl negb. cbv iota.
    rewrite sub_int by (unfold safe; lia).
    unfold div, Qzero_b; simpl Qnum.
    destruct (i =? 0) eqn:E'; [apply Z.eqb_eq in E'; lia|]. reflexivity. }
  split; [exact Hr|]. rewrite Hr.
  destruct i as [|ip|ip]; try lia.
  apply fl_neg_q.
  - unfold Qlt, Qdiv, Qmult, Qinv, inject_Z; simpl. lia.
  - unfold Qdiv, Qmult, Qinv, inject_Z; simpl Qnum; simpl Qden.
    assert (H1074 : 2 ^ 53 <= 2 ^ 1074) by (apply Z.pow_le_mono_r; lia).
    assert (Zpos ip <= 2 ^ 1074) by lia.
    rewrite Z.mul_1_r. nia.
Qed.

(** C2, amended.  For two consecutive network samples where the current
    total is strictly less than the stored previous total (which is then
    not 0), read a positive number of seconds apart, the rate computed is
    [(current - previous) / interval], a strictly negative number: it is
    neither clamped to 0 nor treated as a warm-up.  The current totals
    become the stored previous totals. *)
Theorem rate_after_counter_decrease fs m text (i : Z) :
  net_dev fs = Contents (Encoded text) -> 0 < i -> safe i ->
  exists r,
    getCurrentNetSpeed (Fin (inject_Z i)) fs m
    = (Normal r,
       stored {| lastTotalNetDownBytes := fst (net_sample text);
                 lastTotalNetUpBytes := snd (net_sample text);
                 lastCPUUsed := lastCPUUsed (vars m);
                 lastCPUTotal := lastCPUTotal (vars m) |} m)
    /\ (forall c p,
           fst (net_sample text) = Fin (inject_Z c) ->
           lastTotalNetDownBytes (vars m) = Fin (inject_Z p) ->
           0 <= c < p -> safe p ->
           down r = fl (inject_Z (c - p) / inject_Z i)
           /\ (down r < 0)%num = true)
    /\ (forall c p,
           snd (net_sample text) = Fin (inject_Z c) ->
           lastTotalNetUpBytes (vars m) = Fin (inject_Z p) ->
           0 <= c < p -> safe p ->
           up r = fl (inject_Z (c - p) / inject_Z i)
           /\ (up r < 0)%num = true).
Proof.
  intros Hf Hi Hsi. eexists. split.
  - apply (getCurrentNetSpeed_read _ _ _ text Hf).
  - split; intros c p Hc Hp Hcp Hsp; simpl; rewrite Hc, Hp;
      now apply rate_decrease.
Qed.

Lemma rate_after_counter_decrease_witness :
  exists r,
    eval (getCurrentNetSpeed (Fin (inject_Z 2)) proc_2) machine_1 = Normal r
    /\ (down r < 0)%num = true /\ (up r < 0)%num = true.
Proof.
  assert (H2 : safe 2) by (apply safe_small; simpl; lia).
  destruct (rate_after_counter_decrease proc_2 machine_1 net_table_2 2
              eq_refl eq_refl H2) as (r & Hr & Hd & Hu).
  exists r. split; [unfold eval; rewrite Hr; reflexivity|]. split.
  - apply (Hd 500 5300); [vm_compute; reflexivity | vm_compute; reflexivity
                          | lia | apply safe_small; simpl; lia].
  - apply (Hu 700 7400); [vm_compute; reflexivity | vm_compute; reflexivity
                          | lia | apply safe_small; simpl; lia].
Defined.

(** C4, as stated, fails: with 200 ticks used out of 400 stored, a sample of
    300 ticks used out of the same 400 reports the usage 0 and replaces the
    stored previous-used value by 300. *)
Lemma zero_denominator_updates_used :
  lastCPUUsed (vars machine_1) = Fin 200
  /\ lastCPUTotal (vars machine_1) = Fin 400
  /\ cpu_sample cpu_table_2 = Some (Fin 300, Fin 400)
  /\ eval (getCurrentCPUUsage proc_2) machine_1 = Normal (Fin 0)
  /\ lastCPUUsed (vars (exec (getCurrentCPUUsage proc_2) machine_1)) = Fin 300.
Proof. vm_compute. repeat split; reflexivity. Qed.

(** C4, amended.  For every CPU sample whose total differs from the stored
    previous total by 0, the usage reported is 0, and both stored previous
    values are replaced by the current ones: previous-used becomes the
    current used value, previous-total the current total. *)
Theorem cpu_zero_denominator fs m text used total :
  stat fs = Contents (Encoded text) ->
  cpu_sample text = Some (used, total) ->
  (total - lastCPUTotal (vars m) === 0)%num = true ->
  getCurrentCPUUsage fs m
  = (Normal (Fin 0),
     stored {| lastTotalNetDownBytes := lastTotalNetDownBytes (vars m);
               lastTotalNetUpBytes := lastTotalNetUpBytes (vars m);
               lastCPUUsed := used;
               lastCPUTotal := total |} m).
Proof.
  intros Hf Hs Hz. rewrite (getCurrentCPUUsage_read _ _ text Hf), Hs.
  unfold usage_of, strict_neq. rewrite Hz. reflexivity.
Qed.

Lemma cpu_zero_denominator_witness :
  getCurrentCPUUsage proc_2 machine_1
  = (Normal (Fin 0),
     stored {| lastTotalNetDownBytes := lastTotalNetDownBytes (vars machine_1);
               lastTotalNetUpBytes := lastTotalNetUpBytes (vars machine_1);
               lastCPUUsed := Fin 300;
               lastCPUTotal := Fin 400 |} machine_1).
Proof.
  apply (cpu_zero_denominator proc_2 machine_1 cpu_table_2 (Fin 300) (Fin 400)).
  - reflexivity.
  - vm_compute. reflexivity.
  - vm_compute. reflexivity.
Defined.

(** C5, as stated, fails: with an interval of 0 seconds, the direction whose
    total grew gets the rate [Infinity] and the one whose total did not
    gets [NaN]. *)
Lemma zero_interval_infinite_rate :
  vars machine_1
  = {| lastTotalNetDownBytes := Fin 5300; lastTotalNetUpBytes := Fin 7400;
       lastCPUUsed := Fin 200; lastCPUTotal := Fin 400 |}
  /\ net_sample net_table_3 = (Fin 5800, Fin 7400)
  /\ eval (getCurrentNetSpeed (Fin 0) proc_3) machine_1
     = Normal {| down := PosInf; up := NaN |}.
Proof. vm_compute. repeat split; reflexivity. Qed.

(** C5, amended.  On every network tick, whatever the interval, zero and
    negative included, the estimator divides for each direction whose
    previous total is not 0: the rate is [(current - previous) / interval],
    and 0 only for a direction in warm-up.  When the interval is 0 the rate
    of such a direction is not finite (it is [Infinity], [-Infinity] or
    [NaN]).  The stored previous totals are updated in every case. *)
Theorem rate_for_any_interval refreshInterval fs m text :
  net_dev fs = Contents (Encoded text) ->
  exists r,
    getCurrentNetSpeed refreshInterval fs m
    = (Normal r,
       stored {| lastTotalNetDownBytes := fst (net_sample text);
                 lastTotalNetUpBytes := snd (net_sample text);
                 lastCPUUsed := lastCPUUsed (vars m);
                 lastCPUTotal := lastCPUTotal (vars m) |} m)
    /\ down r
       = (if lastTotalNetDownBytes (vars m) !== 0
          then (fst (net_sample text) - lastTotalNetDownBytes (vars m))
               / refreshInterval
          else 0)%num
    /\ up r
       = (if lastTotalNetUpBytes (vars m) !== 0
          then (snd (net_sample text) - lastTotalNetUpBytes (vars m))
               / refreshInterval
          else 0)%num
    /\ ((refreshInterval === 0)%num = true ->
        ((lastTotalNetDownBytes (vars m) !== 0)%num = true ->
         isFinite (down r) = false)
        /\ ((lastTotalNetUpBytes (vars m) !== 0)%num = true ->
            isFinite (up r) = false)).
Proof.
  intros Hf. eexists. split; [apply (getCurrentNetSpeed_read _ _ _ text Hf)|].
  simpl. unfold rate. repeat split.
  - intros ->. now apply div_zero.
  - intros ->. now apply div_zero.
Qed.

Lemma rate_for_any_interval_witness :
  exists r,
    eval (getCurrentNetSpeed (Fin 0) proc_3) machine_1 = Normal r
    /\ isFinite (down r) = false /\ isFinite (up r) = false.
Proof.
  destruct (rate_for_any_interval (Fin 0) proc_3 machine_1 net_table_3 eq_refl)
    as (r & Hr & _ & _ & Hz).
  destruct (Hz eq_refl) as [Hd Hu].
  exists r. split; [unfold eval; rewrite Hr; reflexivity|]. split.
  - apply Hd. vm_compute. reflexivity.
  - apply Hu. vm_compute. reflexivity.
Defined.

(** ** The life cycle *)

(** C3, as stated, fails: a change of the refresh interval while the
    extension runs leaves the four previous values as they were, whereas
    disabling then enabling sets them to 0. *)
Lemma interval_change_keeps_previous_values :
  _timeout (this system_running) = Some 1%positive
  /\ vars (mach system_running)
     = {| lastTotalNetDownBytes := Fin 5800; lastTotalNetUpBytes := Fin 7400;
          lastCPUUsed := Fin 300; lastCPUTotal := Fin 400 |}
  /\ vars (mach (exec (REFRESH_INTERVAL_changed (Fin 5)) system_running))
     = {| lastTotalNetDownBytes := Fin 5800; lastTotalNetUpBytes := Fin 7400;
          lastCPUUsed := Fin 300; lastCPUTotal := Fin 400 |}
  /\ vars (mach (exec (disable ;; enable) system_running)) = zero_globals.
Proof. vm_compute. repeat split; reflexivity. Qed.

(** C3, amended.  A change of the refresh interval leaves the estimator
    state untouched: the four previous values are what they were, and no
    warm-up tick follows.  While the extension runs, the change replaces
    the timer by one of the new period and records the period for the next
    rates.  Only [enable], hence disabling then enabling, sets the four
    previous values to 0. *)
Theorem interval_change_restarts_timer_only s v :
  vars (mach (exec (REFRESH_INTERVAL_changed v) s)) = vars (mach s)
  /\ (forall id,
         _prefs (this s) = true -> _timeout (this s) = Some id ->
         let s' := exec (REFRESH_INTERVAL_changed v) s in
         eval (REFRESH_INTERVAL_changed v) s = Normal tt
         /\ _timeout (this s') = Some (next_source s)
         /\ sources s'
            = (filter (fun t => negb (Pos.eqb (fst t) id)) (sources s)
               ++ [(next_source s, v)])%list
         /\ _refresh_interval (this s') = v)
  /\ vars (mach (exec (disable ;; enable) s)) = zero_globals.
Proof.
  split; [|split].
  - change (vars (mach s))
      with (vars (mach (set_gsettings (set_REFRESH_INTERVAL v (gsettings s)) s))).
    apply _setupTimer_vars.
  - intros id Hp Ht. run_system. cbn. rewrite Ht. cbn. rewrite Hp. cbn.
    repeat split.
  - unfold exec at 1. cbv [bind]. pose proof (disable_normal s) as Hd.
    unfold eval in Hd. destruct (disable s) as [c s']. simpl in Hd. subst c.
    apply enable_vars.
Qed.

Lemma interval_change_restarts_timer_only_witness :
  let s' := exec (REFRESH_INTERVAL_changed (Fin 5)) system_running in
  eval (REFRESH_INTERVAL_changed (Fin 5)) system_running = Normal tt
  /\ _timeout (this s') = Some (next_source system_running)
  /\ sources s'
     = (filter (fun t => negb (Pos.eqb (fst t) 1%positive))
               (sources system_running)
        ++ [(next_source system_running, Fin 5)])%list
  /\ _refresh_interval (this s') = Fin 5.
Proof.
  destruct (interval_change_restarts_timer_only system_running (Fin 5))
    as (_ & H & _).
  apply (H 1%positive).
  - vm_compute. reflexivity.
  - vm_compute. reflexivity.
Defined.

(** ** The formatters *)

(** C7, as stated, fails on its second example: 999 is printed with three
    digits and padded to four characters, which puts a space in front. *)
Lemma formatNetSpeed_999_is_padded :
  formatNetSpeed (of_Z 999) false = " 999 B"
  /\ formatNetSpeed (of_Z 999) false <> "999 B".
Proof. split; [vm_compute; reflexivity | vm_compute; discriminate]. Qed.

Lemma length_append (a b : string) :
  String.length (a ++ b) = (String.length a + String.length b)%nat.
Proof.
  induction a as [|c a IH]; simpl; [reflexivity | now rewrite IH].
Qed.

Lemma length_spaces (n : nat) : String.length (spaces n) = n.
Proof.
  induction n as [|n IH]; simpl; [reflexivity | now rewrite IH].
Qed.

(** A padded string has at least the width asked for. *)
Lemma length_padStart (s : string) (n : nat) :
  (n <= String.length (padStart s n))%nat.
Proof.
  unfold padStart. rewrite length_append, length_spaces. lia.
Qed.

(** The loop of [formatNetSpeed] stops on one of the units. *)
Lemma scale_index (steps : nat) :
  forall amount ui, (snd (scale steps amount ui) <= ui + steps)%nat.
Proof.
  induction steps as [|k IH]; intros amount ui; simpl; [lia|].
  destruct (ge amount (of_Z 1000)); simpl; [|lia].
  specialize (IH (div amount (of_Z 1000)) (S ui)). lia.
Qed.

(** C7, amended.  [formatNetSpeed(5000, false)] is ["5.00 K"],
    [formatNetSpeed(999, false)] is [" 999 B"], the number being padded on
    the left to four characters, and [formatNetSpeed(1500000, true)] is
    ["1.50 M/s"].  Whatever the amount, the text is a number of at least
    four characters, a space, one of the units [B], [K], [M], [G], [T], [P],
    [E], [Z], [Y], and [/s] when the full unit is asked for. *)
Theorem formatNetSpeed_examples :
  formatNetSpeed (of_Z 5000) false = "5.00 K"
  /\ formatNetSpeed (of_Z 999) false = " 999 B"
  /\ formatNetSpeed (of_Z 1500000) true = "1.50 M/s"
  /\ forall amount full,
       exists num unit,
         formatNetSpeed amount full
         = num ++ " " ++ unit ++ (if full then "/s" else "")
         /\ (4 <= String.length num)%nat
         /\ In unit netSpeedUnits.
Proof.
  split; [vm_compute; reflexivity|].
  split; [vm_compute; reflexivity|].
  split; [vm_compute; reflexivity|].
  intros amount full. unfold formatNetSpeed.
  pose proof (scale_index (List.length netSpeedUnits - 1) amount 0) as Hui.
  destruct (scale (List.length netSpeedUnits - 1) amount 0) as [a ui].
  simpl in Hui. eexists. exists (nth ui netSpeedUnits "undefined").
  split; [reflexivity|]. split; [apply length_padStart|].
  apply nth_In. simpl. lia.
Qed.

(** ** The network table *)

Example excluded_values :
  map (fun iface => String.eqb iface "lo" || matches_virtual iface)
      ["lo"; "br0"; "virbr12"; "tun0"; "tap3x"; "bridge0"; "br"; "eth0";
       "lo0"; "wlan0"]
  = [true; true; true; true; true; false; false; false; false; false].
Proof. reflexivity. Qed.

Example counted_values :
  map counted
      ["  eth0: 5000 10 0 0 0 0 0 0 7000 10 0 0 0 0 0 0";
       "    lo: 1000 10 0 0 0 0 0 0 1000 10 0 0 0 0 0 0";
       "  eth0: 5000 10"; "  eth0: n/a 10 0 0 0 0 0 0 7000 10"; ""]
  = [true; false; false; false; false].
Proof. vm_compute. reflexivity. Qed.

Lemma after_prefix_app (p r : string) : after_prefix p (p ++ r) = Some r.
Proof.
  induction p as [|a p IH]; simpl.
  - destruct r; reflexivity.
  - rewrite Ascii.eqb_refl. exact IH.
Qed.

Lemma after_prefix_inv (p s r : string) :
  after_prefix p s = Some r -> s = p ++ r.
Proof.
  revert s. induction p as [|a p IH]; intros s; simpl.
  - destruct s; intros [= <-]; reflexivity.
  - destruct s as [|b s]; [discriminate|].
    destruct (Ascii.eqb a b) eqn:E; [|discriminate].
    apply Ascii.eqb_eq in E. subst b. intros H. now rewrite (IH s H).
Qed.

(** The regular expression of the filter says what the specification
    says: one of the prefixes, immediately followed by digits. *)
Lemma matches_virtual_spec (iface : string) :
  matches_virtual iface = true
  <-> exists p ds rest,
        In p virtual_prefixes
        /\ ds <> EmptyString
        /\ (forall c, In c (list_ascii_of_string ds) -> is_digit c = true)
        /\ iface = p ++ ds ++ rest.
Proof.
  unfold matches_virtual. rewrite existsb_exists. split.
  - intros (p & Hin & H).
    destruct (after_prefix p iface) as [r|] eqn:E; [|discriminate].
    destruct r as [|c r]; [discriminate|]. simpl in H.
    exists p, (String c EmptyString), r. repeat split.
    + exact Hin.
    + discriminate.
    + intros c' [<- | []]. exact H.
    + now apply after_prefix_inv.
  - intros (p & ds & rest & Hin & Hne & Hd & ->).
    exists p. split; [exact Hin|]. rewrite after_prefix_app.
    destruct ds as [|c ds]; [contradiction|]. simpl.
    apply Hd. simpl. now left.
Qed.

Lemma excluded_iff (iface : string) :
  String.eqb iface "lo" || matches_virtual iface = true <-> spec_excluded iface.
Proof.
  unfold spec_excluded. rewrite orb_true_iff, String.eqb_eq, matches_virtual_spec.
  reflexivity.
Qed.

Lemma parseInt_numeric (s : string) :
  numeric s = true -> parseInt s = of_Z (field_value s).
Proof.
  unfold numeric, parseInt, field_value.
  destruct (strip_sign (trimStart s)) as [negative s1].
  destruct (strip_hex_prefix s1) as [radix s2].
  destruct (read_digits radix s2 0 false); [reflexivity | discriminate].
Qed.

(** One turn of the loop adds the two fields of a line that counts and
    skips any other line. *)
Lemma net_line_counted (totals : number * number) (line : string) :
  net_line totals line
  = if counted line
    then (add (fst totals) (parseInt (field (fields_of line) 1)),
          add (snd totals) (parseInt (field (fields_of line) 9)))
    else totals.
Proof.
  unfold net_line, counted, numeric.
  destruct (Nat.leb_spec (List.length (fields_of line)) 2) as [H | H];
    destruct (Nat.leb_spec 3 (List.length (fields_of line))) as [H' | H'];
    try lia; [reflexivity|].
  destruct (String.eqb (field (fields_of line) 0) "lo" ||
            matches_virtual (field (fields_of line) 0)); [reflexivity|].
  destruct (isNaN (parseInt (field (fields_of line) 1))); [reflexivity|].
  destruct (isNaN (parseInt (field (fields_of line) 9))); reflexivity.
Qed.

Lemma sum_field_cons (i : nat) (line : string) (rest : list string) :
  sum_field i (line :: rest)
  = if counted line
    then field_value (field (fields_of line) i) + sum_field i rest
    else sum_field i rest.
Proof.
  unfold sum_field. simpl. destruct (counted line); reflexivity.
Qed.

Lemma counted_numeric (line : string) :
  counted line = true ->
  numeric (field (fields_of line) 1) = true
  /\ numeric (field (fields_of line) 9) = true.
Proof.
  unfold counted. rewrite !andb_true_iff. tauto.
Qed.

Lemma net_totals_from (lines : list string) :
  forall a1 a9,
    exact_from 1 a1 lines -> exact_from 9 a9 lines ->
    fold_left net_line lines (Fin (inject_Z a1), Fin (inject_Z a9))
    = (Fin (inject_Z (a1 + sum_field 1 lines)),
       Fin (inject_Z (a9 + sum_field 9 lines))).
Proof.
  induction lines as [|line rest IH]; intros a1 a9 H1 H9.
  - unfold sum_field; simpl. now rewrite !Z.add_0_r.
  - simpl fold_left. rewrite net_line_counted, !sum_field_cons.
    simpl in H1, H9. destruct (counted line) eqn:E.
    + destruct H1 as (Hv1 & Hs1 & H1). destruct H9 as (Hv9 & Hs9 & H9).
      destruct (counted_numeric line E) as [N1 N9].
      simpl fst; simpl snd.
      rewrite (parseInt_numeric _ N1), (parseInt_numeric _ N9).
      rewrite (of_Z_safe _ Hv1), (of_Z_safe _ Hv9).
      rewrite (add_int _ _ Hs1), (add_int _ _ Hs9).
      rewrite (IH _ _ H1 H9). now rewrite !Z.add_assoc.
    + apply IH; assumption.
Qed.

Lemma net_totals_sums (lines : list string) :
  forall a b,
    fold_left net_line lines (a, b)
    = (fold_left add
         (map (fun l => parseInt (field (fields_of l) 1)) (filter counted lines)) a,
       fold_left add
         (map (fun l => parseInt (field (fields_of l) 9)) (filter counted lines)) b).
Proof.
  induction lines as [|line rest IH]; intros a b; [reflexivity|].
  simpl fold_left at 1. rewrite net_line_counted. simpl filter.
  destruct (counted line); simpl; apply IH.
Qed.


(** ** The fields, read as the specification reads them *)

(** The tokens are made of characters of the class [\w]. *)
Lemma nonword_pieces_word (s : string) :
  forallb is_word (list_ascii_of_string (fst (nonword_pieces s))) = true
  /\ Forall (fun t => forallb is_word (list_ascii_of_string t) = true)
            (snd (nonword_pieces s)).
Proof.
  induction s as [|c r IH]; simpl; [split; [reflexivity | constructor]|].
  destruct (nonword_pieces r) as [h t]. simpl in IH. destruct IH as [Hh Ht].
  destruct (is_word c) eqn:E.
  - simpl. rewrite E, Hh. split; [reflexivity | exact Ht].
  - destruct r as [|c' r'].
    + simpl. split; [reflexivity | constructor; assumption].
    + destruct (is_word c'); simpl.
      * split; [reflexivity | constructor; assumption].
      * split; assumption.
Qed.

Lemma field_word (line : string) (i : nat) :
  forallb is_word (list_ascii_of_string (field (fields_of line) i)) = true.
Proof.
  unfold field, fields_of, split_nonword.
  pose proof (nonword_pieces_word (trim line)) as [Hh Ht].
  destruct (nonword_pieces (trim line)) as [h t]. simpl in Hh, Ht.
  destruct (nth_in_or_default i (h :: t) "undefined") as [Hin | ->];
    [|reflexivity].
  destruct Hin as [<- | Hin]; [exact Hh|].
  rewrite Forall_forall in Ht. now apply Ht.
Qed.

(** [Number.parseInt] reads nothing in a token that does not start with a
    digit. *)
Lemma parseInt_not_a_number (s : string) :
  forallb is_word (list_ascii_of_string s) = true ->
  starts_with_digit s = false -> parseInt s = NaN.
Proof.
  destruct s as [|c r]; [reflexivity|].
  destruct c as [b0 b1 b2 b3 b4 b5 b6 b7].
  destruct b0, b1, b2, b3, b4, b5, b6, b7; intros Hw Hd;
    first [ reflexivity
          | vm_compute in Hd; discriminate Hd
          | simpl in Hw; discriminate Hw ].
Qed.

Lemma digit_char (c : ascii) :
  is_digit c = true ->
  is_space c = false
  /\ digit_value 10 c = Some (Z.of_N (code c) - 48)
  /\ 0 <= Z.of_N (code c) - 48.
Proof.
  destruct c as [b0 b1 b2 b3 b4 b5 b6 b7].
  destruct b0, b1, b2, b3, b4, b5, b6, b7; intros H;
    first [ vm_compute in H; discriminate H
          | repeat split; vm_compute; congruence ].
Qed.

Lemma strip_sign_digit (c : ascii) (r : string) :
  is_digit c = true -> strip_sign (String c r) = (false, String c r).
Proof.
  destruct c as [b0 b1 b2 b3 b4 b5 b6 b7].
  destruct b0, b1, b2, b3, b4, b5, b6, b7; intros H;
    first [ reflexivity | vm_compute in H; discriminate H ].
Qed.

Lemma strip_hex_prefix_digits (c : ascii) (r : string) :
  forallb is_digit (list_ascii_of_string r) = true ->
  strip_hex_prefix (String c r) = (10, String c r).
Proof.
  destruct r as [|c' r']; intros H.
  - destruct c as [b0 b1 b2 b3 b4 b5 b6 b7].
    destruct b0, b1, b2, b3, b4, b5, b6, b7; reflexivity.
  - simpl in H. apply andb_true_iff in H. destruct H as [H _].
    destruct c as [b0 b1 b2 b3 b4 b5 b6 b7].
    destruct b0, b1, b2, b3, b4, b5, b6, b7; try reflexivity.
    destruct c' as [b0 b1 b2 b3 b4 b5 b6 b7].
    destruct b0, b1, b2, b3, b4, b5, b6, b7;
      first [ reflexivity | vm_compute in H; discriminate H ].
Qed.

Lemma read_digits_decimal (r : string) :
  forall acc,
    forallb is_digit (list_ascii_of_string r) = true ->
    read_digits 10 r acc true
    = Some (fold_left (fun acc c => acc * 10 + (Z.of_N (code c) - 48))
                      (list_ascii_of_string r) acc).
Proof.
  induction r as [|c r IH]; intros acc H; simpl in *; [reflexivity|].
  apply andb_true_iff in H. destruct H as [Hc Hr].
  destruct (digit_char c Hc) as (_ & -> & _). now apply IH.
Qed.

Lemma read_fully_numeric (s : string) :
  fully_numeric s = true ->
  trimStart s = s
  /\ strip_sign s = (false, s)
  /\ strip_hex_prefix s = (10, s)
  /\ read_digits 10 s 0 false = Some (decimal s).
Proof.
  destruct s as [|c r]; [discriminate|]. unfold fully_numeric. simpl.
  intros H. apply andb_true_iff in H. destruct H as [Hc Hr].
  destruct (digit_char c Hc) as (Hs & Hv & _).
  rewrite Hs, Hv. repeat split.
  - now apply strip_sign_digit.
  - now apply strip_hex_prefix_digits.
  - unfold decimal. simpl. now apply read_digits_decimal.
Qed.

(** On a fully numeric field, [Number.parseInt] reads the integer that
    the digits write. *)
Lemma parseInt_fully_numeric (s : string) :
  fully_numeric s = true ->
  parseInt s = of_Z (decimal s) /\ field_value s = decimal s.
Proof.
  intros H. destruct (read_fully_numeric s H) as (Ht & Hs & Hx & Hr).
  unfold parseInt, field_value. rewrite Ht, Hs, Hx, Hr. split; reflexivity.
Qed.

Lemma decimal_from_nonneg (l : list ascii) :
  forall acc,
    forallb is_digit l = true -> 0 <= acc ->
    0 <= fold_left (fun acc c => acc * 10 + (Z.of_N (code c) - 48)) l acc.
Proof.
  induction l as [|c l IH]; intros acc H Ha; simpl in *; [exact Ha|].
  apply andb_true_iff in H. destruct H as [Hc Hl].
  destruct (digit_char c Hc) as (_ & _ & Hv). apply IH; [exact Hl | lia].
Qed.

Lemma decimal_nonneg (s : string) : fully_numeric s = true -> 0 <= decimal s.
Proof.
  destruct s as [|c r]; [discriminate|]. unfold fully_numeric, decimal.
  intros H. apply decimal_from_nonneg; [exact H | lia].
Qed.

Lemma fully_numeric_starts (s : string) :
  fully_numeric s = true -> starts_with_digit s = true.
Proof.
  destruct s as [|c r]; [discriminate|]. unfold fully_numeric. simpl.
  intros H. apply andb_true_iff in H. now destruct H.
Qed.

Lemma isNaN_fl (q : Q) : isNaN (fl q) = false.
Proof.
  unfold fl. destruct (Qnum q) as [|a|a]; [reflexivity|..];
    destruct (round_mag a (Qden q)) as [m u];
    destruct (overflows m u); reflexivity.
Qed.

(** On a token that is not a number followed by other characters, the
    test of the loop and the test of the specification agree. *)
Lemma numeric_plain (s : string) :
  forallb is_word (list_ascii_of_string s) = true ->
  plain s = true -> numeric s = fully_numeric s.
Proof.
  intros Hw Hp. unfold plain in Hp. unfold numeric.
  destruct (fully_numeric s) eqn:E.
  - destruct (parseInt_fully_numeric s E) as [-> _].
    unfold of_Z. now rewrite isNaN_fl.
  - simpl in Hp. apply negb_true_iff in Hp.
    now rewrite (parseInt_not_a_number s Hw Hp).
Qed.

Lemma spec_counted_b_iff (line : string) :
  spec_counted_b line = true <-> spec_counted line.
Proof.
  unfold spec_counted_b, spec_counted. cbv zeta.
  rewrite !andb_true_iff, Nat.leb_le, negb_true_iff, <- excluded_iff.
  destruct (String.eqb (field (fields_of line) 0) "lo"
            || matches_virtual (field (fields_of line) 0)); intuition congruence.
Qed.

Lemma counted_plain (line : string) :
  ((3 <= List.length (fields_of line))%nat ->
   ~ spec_excluded (field (fields_of line) 0) ->
   plain (field (fields_of line) 1) = true
   /\ plain (field (fields_of line) 9) = true) ->
  counted line = spec_counted_b line.
Proof.
  intros H. unfold counted, spec_counted_b. cbv zeta.
  destruct (Nat.leb_spec 3 (List.length (fields_of line))) as [Hl | Hl];
    [|reflexivity].
  destruct (String.eqb (field (fields_of line) 0) "lo"
            || matches_virtual (field (fields_of line) 0)) eqn:E;
    [reflexivity|].
  destruct (H Hl) as [H1 H9].
  { rewrite <- excluded_iff, E. discriminate. }
  now rewrite (numeric_plain _ (field_word line 1) H1),
              (numeric_plain _ (field_word line 9) H9).
Qed.

(** ** The sums of the specification *)

Lemma spec_total_cons (i : nat) (line : string) (rest : list string) :
  spec_total i (line :: rest)
  = if spec_counted_b line
    then decimal (field (fields_of line) i) + spec_total i rest
    else spec_total i rest.
Proof.
  unfold spec_total. simpl. destruct (spec_counted_b line); reflexivity.
Qed.

Lemma spec_sum_total (i : nat) (lines : list string) :
  spec_sum i lines (spec_total i lines).
Proof.
  induction lines as [|line rest IH]; [constructor|].
  rewrite spec_total_cons. destruct (spec_counted_b line) eqn:E.
  - apply spec_sum_counted; [now apply spec_counted_b_iff | exact IH].
  - apply spec_sum_skipped; [|exact IH].
    rewrite <- spec_counted_b_iff, E. discriminate.
Qed.

Lemma spec_sum_unique (i : nat) (lines : list string) :
  forall z z', spec_sum i lines z -> spec_sum i lines z' -> z = z'.
Proof.
  induction lines as [|line rest IH]; intros z z' H H';
    inversion H; subst; inversion H'; subst;
    try reflexivity; try contradiction.
  - f_equal. now apply IH.
  - now apply IH.
Qed.

Lemma spec_total_nonneg (i : nat) (lines : list string) :
  i = 1%nat \/ i = 9%nat -> 0 <= spec_total i lines.
Proof.
  intros Hi. induction lines as [|line rest IH]; [unfold spec_total; simpl; lia|].
  rewrite spec_total_cons. destruct (spec_counted_b line) eqn:E; [|exact IH].
  apply spec_counted_b_iff in E. destruct E as (_ & _ & H1 & H9).
  destruct Hi as [-> | ->];
    [pose proof (decimal_nonneg _ H1) | pose proof (decimal_nonneg _ H9)]; lia.
Qed.

Lemma no_digit_prefix_cons (line : string) (rest : list string) :
  no_digit_prefix (line :: rest) ->
  counted line = spec_counted_b line /\ no_digit_prefix rest.
Proof.
  intros H. split.
  - apply counted_plain. apply H. now left.
  - intros l Hl. apply H. now right.
Qed.

(** Without a number followed by other characters, the integers the loop
    adds up are the sums of the specification. *)
Lemma sum_field_spec (i : nat) (lines : list string) :
  i = 1%nat \/ i = 9%nat -> no_digit_prefix lines ->
  sum_field i lines = spec_total i lines.
Proof.
  intros Hi. induction lines as [|line rest IH]; intros H; [reflexivity|].
  destruct (no_digit_prefix_cons line rest H) as [Hc Hr].
  rewrite sum_field_cons, spec_total_cons, Hc, (IH Hr).
  destruct (spec_counted_b line) eqn:E; [|reflexivity].
  apply spec_counted_b_iff in E. destruct E as (_ & _ & H1 & H9).
  destruct Hi as [-> | ->];
    [destruct (parseInt_fully_numeric _ H1) as [_ ->]
    |destruct (parseInt_fully_numeric _ H9) as [_ ->]]; reflexivity.
Qed.

(** Sums of at most 2^53 are reached without rounding. *)
Lemma exact_from_spec (i : nat) (lines : list string) :
  i = 1%nat \/ i = 9%nat ->
  forall acc,
    no_digit_prefix lines -> 0 <= acc -> acc + spec_total i lines <= 2 ^ 53 ->
    exact_from i acc lines.
Proof.
  intros Hi. induction lines as [|line rest IH]; intros acc H Ha Hs;
    [exact I|].
  destruct (no_digit_prefix_cons line rest H) as [Hc Hr].
  rewrite spec_total_cons in Hs. simpl. rewrite Hc.
  pose proof (spec_total_nonneg i rest Hi) as Hn.
  destruct (spec_counted_b line) eqn:E; [|now apply IH].
  apply spec_counted_b_iff in E. destruct E as (_ & _ & H1 & H9).
  assert (Hv : field_value (field (fields_of line) i)
               = decimal (field (fields_of line) i)
               /\ 0 <= decimal (field (fields_of line) i)).
  { destruct Hi as [-> | ->].
    - split; [apply (parseInt_fully_numeric _ H1) | now apply decimal_nonneg].
    - split; [apply (parseInt_fully_numeric _ H9) | now apply decimal_nonneg]. }
  destruct Hv as [-> Hv]. unfold safe. repeat split; try lia.
  apply IH; [exact Hr | lia | lia].
Qed.

(** C6, as stated, fails.  The counters of the data model have 64 bits,
    and a Number holds the integers up to 2^53 only: on a table whose one
    interface has received 2^53 + 1 bytes, the total is 2^53.  And the
    loop keeps a line whose field 1 is a number followed by other
    characters, which is not fully numeric: on the line of the bridge
    [br-1a2b3c4d5e6f], where the token after [br] is [1a2b3c4d5e6f], it
    adds 1 to the bytes received and 3 to the bytes sent. *)
Lemma net_totals_not_exact :
  (u64_table (split_lines net_table_big)
   /\ no_digit_prefix (split_lines net_table_big)
   /\ spec_sum 1 (split_lines net_table_big) 9007199254740993
   /\ fst (net_sample net_table_big) = Fin (inject_Z 9007199254740992)
   /\ fst (net_sample net_table_big) <> Fin (inject_Z 9007199254740993))
  /\ (u64_table (split_lines net_table_bridge)
      /\ spec_sum 1 (split_lines net_table_bridge) 5000
      /\ spec_sum 9 (split_lines net_table_bridge) 7000
      /\ net_sample net_table_bridge
         = (Fin (inject_Z 5001), Fin (inject_Z 7003))).
Proof.
  split.
  - split; [|split; [|split; [|split]]].
    + intros line Hin _. vm_compute in Hin.
      repeat (destruct Hin as [<- | Hin]; [vm_compute; split; reflexivity|]).
      contradiction.
    + intros line Hin _ _. vm_compute in Hin.
      repeat (destruct Hin as [<- | Hin]; [vm_compute; split; reflexivity|]).
      contradiction.
    + replace 9007199254740993 with (spec_total 1 (split_lines net_table_big))
        by (vm_compute; reflexivity).
      apply spec_sum_total.
    + vm_compute. reflexivity.
    + vm_compute. discriminate.
  - split; [|split; [|split]].
    + intros line Hin _. vm_compute in Hin.
      repeat (destruct Hin as [<- | Hin]; [vm_compute; split; reflexivity|]).
      contradiction.
    + replace 5000 with (spec_total 1 (split_lines net_table_bridge))
        by (vm_compute; reflexivity).
      apply spec_sum_total.
    + replace 7000 with (spec_total 9 (split_lines net_table_bridge))
        by (vm_compute; reflexivity).
      apply spec_sum_total.
    + vm_compute. reflexivity.
Qed.

(** C6, amended.  For every network table in which no field 1 or 9 of a
    line that may count is a number followed by other characters, and
    whose integer sums are at most 2^53: the filter excludes exactly the
    interfaces named [lo] or named by one of the prefixes [ifb], [lxdbr],
    [virbr], [br], [vnet], [tun], [tap] immediately followed by one or more
    digits; the lines the loop adds up are exactly the lines of at least 3
    tokens whose interface is not excluded and whose fields 1 and 9 are
    fully numeric; and the totals that [getCurrentNetSpeed] computes and
    stores are the exact integer sums of field 1 and of field 9 over those
    lines. *)
Theorem net_totals_exact refreshInterval fs m content (d u : Z) :
  net_dev fs = Contents (Encoded content) ->
  no_digit_prefix (split_lines content) ->
  spec_sum 1 (split_lines content) d ->
  spec_sum 9 (split_lines content) u ->
  d <= 2 ^ 53 -> u <= 2 ^ 53 ->
  (forall iface,
      String.eqb iface "lo" || matches_virtual iface = true
      <-> spec_excluded iface)
  /\ (forall line,
         In line (split_lines content) ->
         counted line = true <-> spec_counted line)
  /\ net_sample content = (Fin (inject_Z d), Fin (inject_Z u))
  /\ vars (exec (getCurrentNetSpeed refreshInterval fs) m)
     = {| lastTotalNetDownBytes := Fin (inject_Z d);
          lastTotalNetUpBytes := Fin (inject_Z u);
          lastCPUUsed := lastCPUUsed (vars m);
          lastCPUTotal := lastCPUTotal (vars m) |}.
Proof.
  intros Hf Hp Hd Hu Hd53 Hu53.
  assert (Ed : d = spec_total 1 (split_lines content))
    by (apply (spec_sum_unique 1 (split_lines content)); [exact Hd|];
        apply spec_sum_total).
  assert (Eu : u = spec_total 9 (split_lines content))
    by (apply (spec_sum_unique 9 (split_lines content)); [exact Hu|];
        apply spec_sum_total).
  assert (Hs : net_sample content = (Fin (inject_Z d), Fin (inject_Z u))).
  { unfold net_sample, net_totals. change (Fin 0) with (Fin (inject_Z 0)).
    rewrite (net_totals_from _ 0 0).
    - rewrite !Z.add_0_l, !sum_field_spec by (auto; exact Hp).
      now rewrite <- Ed, <- Eu.
    - apply exact_from_spec; [auto | exact Hp | lia | lia].
    - apply exact_from_spec; [auto | exact Hp | lia | lia]. }
  split; [exact excluded_iff|]. split; [|split].
  - intros line Hin. rewrite <- spec_counted_b_iff.
    rewrite (counted_plain line); [reflexivity|]. now apply Hp.
  - exact Hs.
  - unfold exec. rewrite (getCurrentNetSpeed_read _ _ _ content Hf), Hs.
    reflexivity.
Qed.

Lemma net_totals_exact_witness :
  net_sample net_table_1 = (Fin (inject_Z 5300), Fin (inject_Z 7400))
  /\ vars (exec (getCurrentNetSpeed (Fin 2) proc_1) machine_reset)
     = {| lastTotalNetDownBytes := Fin (inject_Z 5300);
          lastTotalNetUpBytes := Fin (inject_Z 7400);
          lastCPUUsed := Fin 0;
          lastCPUTotal := Fin 0 |}.
Proof.
  assert (Hp : no_digit_prefix (split_lines net_table_1)).
  { intros line Hin _ _. vm_compute in Hin.
    repeat (destruct Hin as [<- | Hin]; [vm_compute; split; reflexivity|]).
    contradiction. }
  assert (Hd : spec_sum 1 (split_lines net_table_1) 5300).
  { replace 5300 with (spec_total 1 (split_lines net_table_1))
      by (vm_compute; reflexivity).
    apply spec_sum_total. }
  assert (Hu : spec_sum 9 (split_lines net_table_1) 7400).
  { replace 7400 with (spec_total 9 (split_lines net_table_1))
      by (vm_compute; reflexivity).
    apply spec_sum_total. }
  destruct (net_totals_exact (Fin 2) proc_1 machine_reset net_table_1 5300 7400
              eq_refl Hp Hd Hu ltac:(vm_compute; discriminate)
              ltac:(vm_compute; discriminate))
    as (_ & _ & Hs & Hv).
  split; [exact Hs | exact Hv].
Defined.

(** ** Failures of the sources *)

Lemma getCurrentNetSpeed_logged refreshInterval fs m e :
  eval (getCurrentNetSpeed refreshInterval fs) (logged e m)
  = eval (getCurrentNetSpeed refreshInterval fs) m
  /\ vars (exec (getCurrentNetSpeed refreshInterval fs) (logged e m))
     = vars (exec (getCurrentNetSpeed refreshInterval fs) m).
Proof.
  unfold eval, exec.
  destruct (failure_or_text (net_dev fs)) as [[e' He] | [text Ht]].
  - rewrite !(getCurrentNetSpeed_failure _ _ _ e' He). split; reflexivity.
  - rewrite !(getCurrentNetSpeed_read _ _ _ text Ht). split; reflexivity.
Qed.

Lemma getCurrentCPUUsage_logged fs m e :
  eval (getCurrentCPUUsage fs) (logged e m) = eval (getCurrentCPUUsage fs) m
  /\ vars (exec (getCurrentCPUUsage fs) (logged e m))
     = vars (exec (getCurrentCPUUsage fs) m).
Proof.
  unfold eval, exec.
  destruct (failure_or_text (stat fs)) as [[e' He] | [text Ht]].
  - rewrite !(getCurrentCPUUsage_failure _ _ e' He). split; reflexivity.
  - rewrite !(getCurrentCPUUsage_read _ _ text Ht).
    destruct (cpu_sample text) as [[used total]|]; split; reflexivity.
Qed.

Lemma getMemoryInfo_logged fs m e :
  eval (getMemoryInfo fs) (logged e m) = eval (getMemoryInfo fs) m
  /\ vars (exec (getMemoryInfo fs) (logged e m))
     = vars (exec (getMemoryInfo fs) m).
Proof.
  unfold eval, exec.
  destruct (failure_or_text (meminfo fs)) as [[e' He] | [text Ht]].
  - rewrite !(getMemoryInfo_failure _ _ e' He). split; reflexivity.
  - rewrite !(getMemoryInfo_read _ _ text Ht). split; reflexivity.
Qed.

Lemma getCurrentNetSpeed_normal refreshInterval fs m :
  exists r m', getCurrentNetSpeed refreshInterval fs m = (Normal r, m').
Proof.
  destruct (failure_or_text (net_dev fs)) as [[e He] | [text Ht]].
  - rewrite (getCurrentNetSpeed_failure _ _ _ e He). eauto.
  - rewrite (getCurrentNetSpeed_read _ _ _ text Ht). eauto.
Qed.

Lemma getCurrentCPUUsage_normal fs m :
  exists u m', getCurrentCPUUsage fs m = (Normal u, m').
Proof.
  destruct (failure_or_text (stat fs)) as [[e He] | [text Ht]].
  - rewrite (getCurrentCPUUsage_failure _ _ e He). eauto.
  - rewrite (getCurrentCPUUsage_read _ _ text Ht).
    destruct (cpu_sample text) as [[used total]|]; eauto.
Qed.

Lemma getMemoryInfo_normal fs m :
  exists mem m', getMemoryInfo fs m = (Normal mem, m').
Proof.
  destruct (failure_or_text (meminfo fs)) as [[e He] | [text Ht]].
  - rewrite (getMemoryInfo_failure _ _ e He). eauto.
  - rewrite (getMemoryInfo_read _ _ text Ht). eauto.
Qed.

Lemma cpu_item_normal p fs s :
  exists items m', cpu_item p fs s = (Normal items, set_mach m' s).
Proof.
  unfold cpu_item. destruct (IS_CPU_USAGE_ENABLE p).
  - destruct (getCurrentCPUUsage_normal fs (mach s)) as (u & m' & E).
    cbv [bind on_machine ret]. rewrite E. eauto.
  - exists [], (mach s). destruct s; reflexivity.
Qed.

Lemma net_items_normal p fs s :
  exists items m', net_items p fs s = (Normal items, set_mach m' s).
Proof.
  unfold net_items.
  destruct (IS_DOWNLOAD_SPEED_ENABLE p || IS_UPLOAD_SPEED_ENABLE p).
  - destruct (getCurrentNetSpeed_normal (_refresh_interval (this s)) fs (mach s))
      as (r & m' & E).
    cbv [bind on_machine ret get]. rewrite E. eauto.
  - exists [], (mach s). destruct s; reflexivity.
Qed.

(** While the indicator and the preferences are there, a tick completes
    normally, whatever the sources do, and sets the label to the fragments
    of the enabled metrics, in order. *)
Lemma _refresh_live fs s label :
  _indicator (this s) = Some label -> _prefs (this s) = true ->
  let p := gsettings s in
  let s1 := exec (on_machine (getMemoryInfo fs)) s in
  let s2 := exec (cpu_item p fs) s1 in
  exists mem cpu net s',
    eval (getMemoryInfo fs) (mach s) = Normal mem
    /\ eval (cpu_item p fs) s1 = Normal cpu
    /\ eval (net_items p fs) s2 = Normal net
    /\ _refresh fs s = (Normal SOURCE_CONTINUE, s')
    /\ _indicator (this s')
       = Some (join (ITEM_SEPARATOR p)
                 (cpu ++ memory_item p mem ++ swap_item p mem ++ net)%list).
Proof.
  intros Hi Hp p s1 s2. subst p s1 s2. unfold eval, exec.
  destruct (getMemoryInfo_normal fs (mach s)) as (mem & m1 & E1).
  assert (E1' : on_machine (getMemoryInfo fs) s = (Normal mem, set_mach m1 s)).
  { unfold on_machine. now rewrite E1. }
  rewrite E1, E1'. simpl fst; simpl snd.
  destruct (cpu_item_normal (gsettings s) fs (set_mach m1 s))
    as (cpu & m2 & E2).
  rewrite E2. simpl fst; simpl snd.
  destruct (net_items_normal (gsettings s) fs (set_mach m2 (set_mach m1 s)))
    as (net & m3 & E3).
  rewrite E3. simpl fst; simpl snd.
  exists mem, cpu, net. eexists. repeat split.
  - unfold _refresh. cbv [bind get]. rewrite Hi, E1'.
    unfold prefs at 1. simpl _prefs. rewrite Hp.
    change (gsettings (set_mach m1 s)) with (gsettings s).
    rewrite E2, E3. cbv [modify ret]. reflexivity.
  - simpl. now rewrite <- !app_assoc.
Qed.

(** C10.  When the read of the network table fails, [getCurrentNetSpeed]
    returns the zero rate and leaves the stored previous totals as they
    were, so that the next successful read takes its differences from the
    totals of the last successful one. *)
Theorem failed_net_read_keeps_totals refreshInterval fs m e :
  failure (net_dev fs) = Some e ->
  getCurrentNetSpeed refreshInterval fs m
  = (Normal {| down := Fin 0; up := Fin 0 |}, logged e m)
  /\ vars (exec (getCurrentNetSpeed refreshInterval fs) m) = vars m
  /\ forall refreshInterval' fs' text,
       net_dev fs' = Contents (Encoded text) ->
       eval (getCurrentNetSpeed refreshInterval' fs')
            (exec (getCurrentNetSpeed refreshInterval fs) m)
       = Normal {| down := rate (fst (net_sample text))
                                (lastTotalNetDownBytes (vars m)) refreshInterval';
                   up := rate (snd (net_sample text))
                              (lastTotalNetUpBytes (vars m)) refreshInterval' |}.
Proof.
  intros He. unfold eval, exec.
  rewrite (getCurrentNetSpeed_failure _ _ _ e He).
  repeat split. intros i' fs' text Ht.
  rewrite (getCurrentNetSpeed_read _ _ _ text Ht). reflexivity.
Qed.

Lemma failed_net_read_keeps_totals_witness :
  getCurrentNetSpeed (Fin 2) proc_no_net machine_1
  = (Normal {| down := Fin 0; up := Fin 0 |}, logged IOError machine_1)
  /\ eval (getCurrentNetSpeed (Fin 2) proc_3)
          (exec (getCurrentNetSpeed (Fin 2) proc_no_net) machine_1)
     = Normal {| down := Fin 250; up := Fin 0 |}.
Proof.
  destruct (failed_net_read_keeps_totals (Fin 2) proc_no_net machine_1 IOError
              eq_refl) as (H & _ & Hn).
  split; [exact H|].
  rewrite (Hn (Fin 2) proc_3 net_table_3 eq_refl). vm_compute. reflexivity.
Defined.

(** ** The memory and swap ratios *)

(** C9.  On every tick, the memory ratio [(total - avail) / total] is
    computed and pushed to the output only when the total read is strictly
    positive, and the swap ratio [(swTotal - swFree) / swTotal] only when
    the swap total is: when the total is 0 (or is not greater than 0 for
    any other reason) no fragment is pushed for it, and a fragment pushed
    is the label followed by the formatted ratio.  The label set by a tick
    is made of the CPU fragment, these two, and the network fragments. *)
Theorem ratio_only_for_positive_total (p : settings) (mem : memInfo) :
  ((total mem > 0)%num = false -> memory_item p mem = [])
  /\ (total mem = Fin 0 -> memory_item p mem = [])
  /\ (memory_item p mem <> [] ->
      (total mem > 0)%num = true
      /\ memory_item p mem
         = [MEMORY_USAGE_TEXT p ++ " "
            ++ formatUsage ((total mem - avail mem) / total mem)%num
                           (SHOW_EXTRA_SPACES p) (SHOW_PERCENT_SIGN p)])
  /\ ((swTotal mem > 0)%num = false -> swap_item p mem = [])
  /\ (swTotal mem = Fin 0 -> swap_item p mem = [])
  /\ (swap_item p mem <> [] ->
      (swTotal mem > 0)%num = true
      /\ swap_item p mem
         = [SWAP_USAGE_TEXT p ++ " "
            ++ formatUsage ((swTotal mem - swFree mem) / swTotal mem)%num
                           (SHOW_EXTRA_SPACES p) (SHOW_PERCENT_SIGN p)])
  /\ (forall fs s label,
         gsettings s = p ->
         eval (getMemoryInfo fs) (mach s) = Normal mem ->
         _indicator (this s) = Some label -> _prefs (this s) = true ->
         let s1 := exec (on_machine (getMemoryInfo fs)) s in
         let s2 := exec (cpu_item p fs) s1 in
         exists cpu net s',
           eval (cpu_item p fs) s1 = Normal cpu
           /\ eval (net_items p fs) s2 = Normal net
           /\ _refresh fs s = (Normal SOURCE_CONTINUE, s')
           /\ _indicator (this s')
              = Some (join (ITEM_SEPARATOR p)
                        (cpu ++ memory_item p mem ++ swap_item p mem ++ net)%list)).
Proof.
  unfold memory_item, swap_item. repeat apply conj.
  - intros ->. now rewrite andb_false_r.
  - intros ->. now rewrite andb_false_r.
  - destruct (IS_MEMORY_USAGE_ENABLE p), (gt (total mem) (Fin 0)); simpl;
      intros H; try contradiction. split; reflexivity.
  - intros ->. now rewrite andb_false_r.
  - intros ->. now rewrite andb_false_r.
  - destruct (IS_SWAP_USAGE_ENABLE p), (gt (swTotal mem) (Fin 0)); simpl;
      intros H; try contradiction. split; reflexivity.
  - intros fs s label <- Hm Hi Hp.
    destruct (_refresh_live fs s label Hi Hp)
      as (mem' & cpu & net & s' & Hm' & Hc & Hn & E & Hl).
    rewrite Hm in Hm'. injection Hm' as <-.
    exists cpu, net, s'. repeat split; assumption.
Qed.

Lemma ratio_only_for_positive_total_witness :
  swap_item settings_1
    {| total := Fin 1000; avail := Fin 250; swTotal := Fin 0; swFree := Fin 0 |}
  = []
  /\ memory_item settings_1
       {| total := Fin 1000; avail := Fin 250;
          swTotal := Fin 0; swFree := Fin 0 |}
     = ["M 75%"]
  /\ exists cpu net s',
       _refresh proc_1 system_running = (Normal SOURCE_CONTINUE, s')
       /\ _indicator (this s')
          = Some (join " " (cpu ++ ["M 75%"] ++ [] ++ net)%list).
Proof.
  destruct (ratio_only_for_positive_total settings_1
              {| total := Fin 1000; avail := Fin 250;
                 swTotal := Fin 0; swFree := Fin 0 |})
    as (_ & _ & Hm & _ & Hs & _ & Hr).
  split; [apply Hs; reflexivity|]. split.
  - destruct Hm as [_ Hm]; [vm_compute; discriminate|].
    rewrite Hm. vm_compute. reflexivity.
  - destruct (Hr proc_1 system_running "C  0% M 75% D  250 B/s U    0 B/s")
      as (cpu & net & s' & _ & _ & E & Hl).
    + vm_compute. reflexivity.
    + vm_compute. reflexivity.
    + vm_compute. reflexivity.
    + vm_compute. reflexivity.
    + exists cpu, net, s'. split; [exact E | exact Hl].
Defined.

(** ** Rounding stays below an integer bound *)

(** Rounding a quotient [N / D] that is at most the integer [T] to the
    nearest integer, ties to even, gives at most [T]. *)
Lemma round_div_le (N D T : Z) :
  0 < D -> 0 <= N -> N <= T * D ->
  0 <= match 2 * (N mod D) ?= D with
       | Lt => N / D
       | Gt => N / D + 1
       | Eq => if Z.even (N / D) then N / D else N / D + 1
       end <= T.
Proof.
  intros HD HN HT.
  assert (Hm : 0 <= N / D) by (apply Z.div_pos; lia).
  assert (Hr : 0 <= N mod D < D) by (apply Z.mod_pos_bound; lia).
  assert (HmT : N / D <= T).
  { apply Z.div_le_upper_bound; [lia|]. rewrite Z.mul_comm. exact HT. }
  pose proof (Z.div_mod N D ltac:(lia)) as Hdm.
  destruct (Z.eq_dec (N / D) T) as [E | E].
  - assert (N mod D = 0) by nia.
    replace (N mod D) with 0 by lia. simpl Z.mul.
    destruct (Z.compare_spec 0 D); lia.
  - destruct (2 * (N mod D) ?= D); [destruct (Z.even (N / D))|..]; lia.
Qed.

Lemma round_mag_le (p b : positive) (n : Z) :
  Zpos p <= n * Zpos b -> n <= 2 ^ 53 ->
  0 <= fst (round_mag p b)
  /\ overflows (fst (round_mag p b)) (snd (round_mag p b)) = false
  /\ (dyadic (fst (round_mag p b)) (snd (round_mag p b)) <= inject_Z n)%Q.
Proof.
  intros Hp Hn. unfold round_mag.
  destruct (ilog2_lower p b) as [Hlo _].
  remember (ilog2 p b) as e eqn:Ee. clear Ee.
  remember (Z.max (e - 52) (-1074)) as u eqn:Eu.
  assert (Hn0 : 0 < n) by nia.
  assert (H1024 : 2 ^ 53 < 2 ^ 1024) by (apply Z.pow_lt_mono_r; lia).
  destruct (0 <=? u) eqn:E.
  - apply Z.leb_le in E.
    destruct (Z.eq_dec u 0) as [U0 | U0].
    + subst u. rewrite U0. change (2 ^ 0) with 1. rewrite Z.mul_1_r.
      pose proof (round_div_le (Zpos p) (Zpos b) n ltac:(lia) ltac:(lia) Hp)
        as Hm.
      cbv beta iota zeta delta [fst snd].
      match type of Hm with 0 <= ?t <= _ => remember t as m' eqn:Em' end.
      clear Em'. split; [lia|]. split.
      * unfold overflows. change (0 <=? 0) with true. rewrite andb_true_l.
        change (2 ^ 0) with 1. rewrite Z.mul_1_r. apply Z.leb_gt. lia.
      * unfold dyadic. change (0 <=? 0) with true. cbv iota.
        change (2 ^ 0) with 1.
        rewrite Z.mul_1_r. unfold Qle, inject_Z; simpl Qnum; simpl Qden. lia.
    + assert (Hu : u = e - 52) by lia.
      assert (He : 53 <= e) by lia.
      specialize (Hlo ltac:(lia)).
      assert (He53 : e = 53).
      { destruct (Z.le_gt_cases e 53) as [H | H]; [lia|].
        assert (2 ^ 54 <= 2 ^ e) by (apply Z.pow_le_mono_r; lia).
        change (2 ^ 54) with (2 * 2 ^ 53) in *. nia. }
      subst e. assert (U1 : u = 1) by lia. rewrite U1.
      assert (Hpb : Zpos p = 2 ^ 52 * (Zpos b * 2 ^ 1)).
      { change (2 ^ 1) with 2. change (2 ^ 53) with (2 ^ 52 * 2) in *. nia. }
      rewrite Hpb. rewrite Z.div_mul, Z.mod_mul by (change (2 ^ 1) with 2; lia).
      assert (HD : (2 * 0 ?= Zpos b * 2 ^ 1) = Lt).
      { apply Z.compare_lt_iff. change (2 ^ 1) with 2. lia. }
      rewrite HD. cbv beta iota zeta delta [fst snd]. split; [apply Z.pow_nonneg; lia|].
      split; [reflexivity|].
      unfold dyadic. simpl (0 <=? 1). unfold Qle, inject_Z; simpl Qnum; simpl Qden.
      change (2 ^ 1) with 2 in *. change (2 ^ 53) with (2 ^ 52 * 2) in *. nia.
  - apply Z.leb_gt in E.
    assert (Hk : 0 < 2 ^ (- u)) by (apply Z.pow_pos_nonneg; lia).
    pose proof (round_div_le (Zpos p * 2 ^ (- u)) (Zpos b) (n * 2 ^ (- u))
                  ltac:(lia) ltac:(nia) ltac:(nia)) as Hm.
    cbv beta iota zeta delta [fst snd].
    match type of Hm with 0 <= ?t <= _ => remember t as m' eqn:Em' end.
    clear Em'. split; [lia|]. split.
    + unfold overflows. destruct (0 <=? u) eqn:E2; [|reflexivity].
      apply Z.leb_le in E2. lia.
    + unfold dyadic. destruct (0 <=? u) eqn:E2; [apply Z.leb_le in E2; lia|].
      rewrite Qred_correct. unfold Qle, inject_Z; simpl Qnum; simpl Qden.
      rewrite Z2Pos.id by exact Hk. lia.
Qed.

(** A quotient between 0 and an integer that a Number holds rounds to a
    number between 0 and that integer. *)
Lemma fl_bounded (q : Q) (n : Z) :
  (0 <= q)%Q -> (q <= inject_Z n)%Q -> safe n ->
  exists r, fl q = Fin r /\ (0 <= r)%Q /\ (r <= inject_Z n)%Q.
Proof.
  destruct q as [a b]. unfold Qle at 1 2, inject_Z; simpl Qnum; simpl Qden.
  intros H0 Hn Hs. unfold safe in Hs.
  rewrite Z.mul_1_r in H0, Hn. simpl in H0.
  unfold fl; simpl Qnum; simpl Qden. destruct a as [|p|p]; try lia.
  - exists 0%Q. split; [reflexivity|]. split; [apply Qle_refl|].
    unfold Qle; simpl. lia.
  - destruct (round_mag_le p b n Hn ltac:(lia)) as (Hm & Ho & Hd).
    destruct (round_mag p b) as [m u]. simpl in Hm, Ho, Hd. rewrite Ho.
    eexists. split; [reflexivity|]. split; [|exact Hd].
    unfold dyadic. destruct (0 <=? u) eqn:E.
    + apply Z.leb_le in E. unfold Qle, inject_Z; simpl.
      assert (0 <= 2 ^ u) by (apply Z.pow_nonneg; lia). nia.
    + rewrite Qred_correct. unfold Qle; simpl. lia.
Qed.

(** * Further properties of the code *)

(** ** The memory table *)

Section LastValue.

Variable key : string.
Variable proj : memInfo -> number.
Hypothesis proj_line :
  forall mem line,
    proj (mem_line mem line)
    = if sets_key key line then parseInt (field (fields_of line) 1)
      else proj mem.

Lemma proj_fold (lines : list string) (mem : memInfo) :
  proj (fold_left mem_line lines mem)
  = match find (sets_key key) (rev lines) with
    | Some line => parseInt (field (fields_of line) 1)
    | None => proj mem
    end.
Proof.
  induction lines as [|line lines IH] using rev_ind; [reflexivity|].
  rewrite fold_left_app, rev_app_distr. simpl.
  rewrite proj_line. destruct (sets_key key line); [reflexivity | exact IH].
Qed.

End LastValue.

Ltac mem_line_cases :=
  intros mem line; unfold mem_line, sets_key;
  destruct (Nat.ltb_spec (List.length (fields_of line)) 2);
  destruct (Nat.leb_spec 2 (List.length (fields_of line))); try lia;
  [reflexivity|]; simpl andb;
  repeat match goal with
         | |- context [String.eqb (field (fields_of line) 0) ?k] =>
             let E := fresh "E" in
             destruct (String.eqb (field (fields_of line) 0) k) eqn:E;
             [apply String.eqb_eq in E; rewrite E in *; try discriminate;
              try reflexivity|]
         end;
  try reflexivity.

Lemma total_line :
  forall mem line,
    total (mem_line mem line)
    = if sets_key "MemTotal" line then parseInt (field (fields_of line) 1)
      else total mem.
Proof. mem_line_cases. Qed.

Lemma avail_line :
  forall mem line,
    avail (mem_line mem line)
    = if sets_key "MemAvailable" line then parseInt (field (fields_of line) 1)
      else avail mem.
Proof. mem_line_cases. Qed.

Lemma swTotal_line :
  forall mem line,
    swTotal (mem_line mem line)
    = if sets_key "SwapTotal" line then parseInt (field (fields_of line) 1)
      else swTotal mem.
Proof. mem_line_cases. Qed.

Lemma swFree_line :
  forall mem line,
    swFree (mem_line mem line)
    = if sets_key "SwapFree" line then parseInt (field (fields_of line) 1)
      else swFree mem.
Proof. mem_line_cases. Qed.

(** The loop over the memory table keeps, for each key, the value of the
    last line that assigns it. *)
Lemma mem_fold_last_values (lines : list string) :
  fold_left mem_line lines
    {| total := Fin 0; avail := Fin 0; swTotal := Fin 0; swFree := Fin 0 |}
  = {| total := last_value "MemTotal" lines;
       avail := last_value "MemAvailable" lines;
       swTotal := last_value "SwapTotal" lines;
       swFree := last_value "SwapFree" lines |}.
Proof.
  unfold last_value.
  match goal with
  | |- fold_left mem_line lines ?mem0 = _ =>
      pose proof (proj_fold "MemTotal" total total_line lines mem0) as H1;
      pose proof (proj_fold "MemAvailable" avail avail_line lines mem0) as H2;
      pose proof (proj_fold "SwapTotal" swTotal swTotal_line lines mem0) as H3;
      pose proof (proj_fold "SwapFree" swFree swFree_line lines mem0) as H4;
      destruct (fold_left mem_line lines mem0) as [a b c d]
  end.
  cbn [total avail swTotal swFree] in H1, H2, H3, H4.
  rewrite <- H1, <- H2, <- H3, <- H4. reflexivity.
Qed.

(** A value that [Number.parseInt] does not read gives NaN to its key. *)
Lemma last_value_not_numeric (key : string) (lines : list string) line :
  find (sets_key key) (rev lines) = Some line ->
  numeric (field (fields_of line) 1) = false ->
  last_value key lines = NaN.
Proof.
  intros Hf Hn. unfold last_value. rewrite Hf.
  unfold numeric in Hn. destruct (parseInt (field (fields_of line) 1));
    [reflexivity | discriminate..].
Qed.

(** X1.  When the memory table is read, each of the four fields returned is
    the value of the last line that assigns its key ([MemTotal],
    [MemAvailable], [SwapTotal], [SwapFree]), read by [Number.parseInt],
    and 0 when no line assigns it; the lines of the other keys and the
    lines of fewer than 2 tokens change nothing. *)
Theorem getMemoryInfo_last_values fs m text :
  meminfo fs = Contents (Encoded text) ->
  getMemoryInfo fs m
  = (Normal {| total := last_value "MemTotal" (split_lines text);
               avail := last_value "MemAvailable" (split_lines text);
               swTotal := last_value "SwapTotal" (split_lines text);
               swFree := last_value "SwapFree" (split_lines text) |},
     m).
Proof.
  intros Hf. rewrite (getMemoryInfo_read _ _ text Hf).
  now rewrite mem_fold_last_values.
Qed.

Lemma getMemoryInfo_last_values_witness :
  getMemoryInfo proc_4 machine_1
  = (Normal {| total := Fin 2000; avail := NaN; swTotal := NaN; swFree := Fin 0 |},
     machine_1).
Proof.
  rewrite (getMemoryInfo_last_values proc_4 machine_1 mem_table_2 eq_refl).
  vm_compute. reflexivity.
Defined.

(** ** What each reader leaves alone *)

Lemma getMemoryInfo_vars fs m : vars (exec (getMemoryInfo fs) m) = vars m.
Proof.
  unfold exec.
  destruct (failure_or_text (meminfo fs)) as [[e He] | [text Ht]].
  - rewrite (getMemoryInfo_failure _ _ e He). reflexivity.
  - rewrite (getMemoryInfo_read _ _ text Ht). reflexivity.
Qed.

Lemma getCurrentCPUUsage_net_vars fs m :
  lastTotalNetDownBytes (vars (exec (getCurrentCPUUsage fs) m))
  = lastTotalNetDownBytes (vars m)
  /\ lastTotalNetUpBytes (vars (exec (getCurrentCPUUsage fs) m))
     = lastTotalNetUpBytes (vars m).
Proof.
  unfold exec.
  destruct (failure_or_text (stat fs)) as [[e He] | [text Ht]].
  - rewrite (getCurrentCPUUsage_failure _ _ e He). split; reflexivity.
  - rewrite (getCurrentCPUUsage_read _ _ text Ht).
    destruct (cpu_sample text) as [[used total]|]; split; reflexivity.
Qed.

Lemma getCurrentNetSpeed_cpu_vars refreshInterval fs m :
  lastCPUUsed (vars (exec (getCurrentNetSpeed refreshInterval fs) m))
  = lastCPUUsed (vars m)
  /\ lastCPUTotal (vars (exec (getCurrentNetSpeed refreshInterval fs) m))
     = lastCPUTotal (vars m).
Proof.
  unfold exec.
  destruct (failure_or_text (net_dev fs)) as [[e He] | [text Ht]].
  - rewrite (getCurrentNetSpeed_failure _ _ _ e He). split; reflexivity.
  - rewrite (getCurrentNetSpeed_read _ _ _ text Ht). split; reflexivity.
Qed.

(** X2.  Whatever the sources hold, missing or undecodable included, each
    reader writes only its own module variables: [getMemoryInfo] none of
    the four, [getCurrentCPUUsage] neither of the two network totals,
    [getCurrentNetSpeed] neither of the two CPU counters. *)
Theorem readers_write_their_own_variables refreshInterval fs m :
  vars (exec (getMemoryInfo fs) m) = vars m
  /\ lastTotalNetDownBytes (vars (exec (getCurrentCPUUsage fs) m))
     = lastTotalNetDownBytes (vars m)
  /\ lastTotalNetUpBytes (vars (exec (getCurrentCPUUsage fs) m))
     = lastTotalNetUpBytes (vars m)
  /\ lastCPUUsed (vars (exec (getCurrentNetSpeed refreshInterval fs) m))
     = lastCPUUsed (vars m)
  /\ lastCPUTotal (vars (exec (getCurrentNetSpeed refreshInterval fs) m))
     = lastCPUTotal (vars m).
Proof.
  split; [apply getMemoryInfo_vars|].
  destruct (getCurrentCPUUsage_net_vars fs m) as [H1 H2].
  destruct (getCurrentNetSpeed_cpu_vars refreshInterval fs m) as [H3 H4].
  repeat split; assumption.
Qed.

(** ** The CPU table *)

Lemma pieces_first_line (line rest : string) :
  one_line line = true ->
  fst (pieces newline (line ++ String newline rest)) = line.
Proof.
  unfold one_line. induction line as [|c line IH]; simpl.
  - intros _. destruct (pieces newline rest). reflexivity.
  - intros H. apply andb_true_iff in H. destruct H as [Hc Hl].
    specialize (IH Hl).
    destruct (pieces newline (line ++ String newline rest)) as [h t].
    simpl in IH. subst h.
    destruct (Ascii.eqb c newline); [discriminate | reflexivity].
Qed.

Lemma first_line (line rest : string) :
  one_line line = true ->
  hd "undefined" (split_lines (line ++ nl ++ rest)) = line.
Proof.
  intros H. unfold split_lines, nl. simpl append.
  pose proof (pieces_first_line line rest H) as Hp.
  destruct (pieces newline (line ++ String newline rest)) as [h t].
  exact Hp.
Qed.

(** X3.  The CPU reader looks at the first line of its table only: two
    tables with the same first line give the same usage and the same
    stored counters, whatever follows the first line feed (the lines of
    the single cores, for one). *)
Theorem getCurrentCPUUsage_first_line_only fs fs' m line rest rest' :
  one_line line = true ->
  stat fs = Contents (Encoded (line ++ nl ++ rest)) ->
  stat fs' = Contents (Encoded (line ++ nl ++ rest')) ->
  getCurrentCPUUsage fs m = getCurrentCPUUsage fs' m.
Proof.
  intros Hl Hf Hf'.
  rewrite (getCurrentCPUUsage_read _ _ _ Hf), (getCurrentCPUUsage_read _ _ _ Hf').
  unfold cpu_sample. rewrite !(first_line _ _ Hl). reflexivity.
Qed.

Lemma getCurrentCPUUsage_first_line_only_witness :
  getCurrentCPUUsage proc_1 machine_1
  = getCurrentCPUUsage
      (proc_of net_table_1 ("cpu  100 0 100 200 0 0 0 0 0 0" ++ nl ++ "intr 5")
               mem_table_1)
      machine_1.
Proof.
  apply (getCurrentCPUUsage_first_line_only proc_1 _ machine_1
           "cpu  100 0 100 200 0 0 0 0 0 0"
           ("cpu0 100 0 100 200 0 0 0 0 0 0" ++ nl) "intr 5").
  - vm_compute. reflexivity.
  - reflexivity.
  - reflexivity.
Defined.

(** X4.  When the first line of the CPU table does not start with the
    token [cpu], or has fewer than 5 tokens (an empty table, for one), the
    reader returns 0, stores nothing and logs nothing. *)
Theorem getCurrentCPUUsage_other_first_line fs m text :
  stat fs = Contents (Encoded text) ->
  let fields := fields_of (hd "undefined" (split_lines text)) in
  field fields 0 <> "cpu" \/ (List.length fields < 5)%nat ->
  getCurrentCPUUsage fs m = (Normal (Fin 0), m).
Proof.
  intros Hf fields Hc. rewrite (getCurrentCPUUsage_read _ _ _ Hf).
  unfold cpu_sample. fold fields.
  destruct (String.eqb_spec (field fields 0) "cpu") as [E | E].
  - destruct Hc as [Hc | Hc]; [contradiction|].
    destruct (Nat.leb_spec 5 (List.length fields)); [lia | reflexivity].
  - reflexivity.
Qed.

Lemma getCurrentCPUUsage_other_first_line_witness :
  getCurrentCPUUsage (proc_of net_table_1 "" mem_table_1) machine_1
  = (Normal (Fin 0), machine_1)
  /\ getCurrentCPUUsage (proc_of net_table_1 "cpu 1 2 3" mem_table_1) machine_1
     = (Normal (Fin 0), machine_1).
Proof.
  split.
  - apply (getCurrentCPUUsage_other_first_line
             (proc_of net_table_1 "" mem_table_1) machine_1 "" eq_refl).
    left. vm_compute. discriminate.
  - apply (getCurrentCPUUsage_other_first_line
             (proc_of net_table_1 "cpu 1 2 3" mem_table_1) machine_1
             "cpu 1 2 3" eq_refl).
    right. vm_compute. lia.
Defined.

(** A quotient of integers between 0 and an integer that a Number holds is
    computed as a number between 0 and that integer. *)
Lemma div_int_bounded (a b n : Z) :
  0 <= a -> 0 < b -> a <= n * b -> safe n ->
  exists r,
    fl (inject_Z a / inject_Z b) = Fin r
    /\ (Fin (inject_Z a) / Fin (inject_Z b))%num = Fin r
    /\ (0 <= r)%Q /\ (r <= inject_Z n)%Q.
Proof.
  intros Ha Hb Hn Hs.
  destruct (fl_bounded (inject_Z a / inject_Z b) n) as (r & Hr & H0 & H1).
  - destruct b as [|p|p]; try lia.
    unfold Qle, Qdiv, Qmult, Qinv, inject_Z; simpl. lia.
  - destruct b as [|p|p]; try lia.
    unfold Qle, Qdiv, Qmult, Qinv, inject_Z; simpl. lia.
  - exact Hs.
  - exists r. split; [exact Hr|]. split; [|split; assumption].
    unfold div. unfold Qzero_b at 1. simpl Qnum.
    destruct (b =? 0) eqn:E; [apply Z.eqb_eq in E; lia | exact Hr].
Qed.

(** X5.  When the counters of the first line and the stored ones are
    integers, the used ticks grew by no more than the total ticks, and the
    total ticks grew, the CPU usage reported is the quotient of the two
    growths rounded to a Number, and it lies between 0 and 1. *)
Theorem cpu_usage_between_0_and_1 fs m text (u t pu pt : Z) :
  stat fs = Contents (Encoded text) ->
  cpu_sample text = Some (Fin (inject_Z u), Fin (inject_Z t)) ->
  lastCPUUsed (vars m) = Fin (inject_Z pu) ->
  lastCPUTotal (vars m) = Fin (inject_Z pt) ->
  0 <= u - pu <= t - pt -> 0 < t - pt -> safe (t - pt) ->
  exists r,
    fl (inject_Z (u - pu) / inject_Z (t - pt)) = Fin r
    /\ eval (getCurrentCPUUsage fs) m = Normal (Fin r)
    /\ (0 <= r)%Q /\ (r <= 1)%Q.
Proof.
  intros Hf Hc Hu Ht Hd Hp Hs.
  assert (H1 : safe 1) by (apply safe_small; simpl; lia).
  destruct (div_int_bounded (u - pu) (t - pt) 1 ltac:(lia) Hp ltac:(lia) H1)
    as (r & Hr & Hq & H0 & Hr1).
  exists r. split; [exact Hr|]. split; [|split; assumption].
  unfold eval. rewrite (getCurrentCPUUsage_read _ _ _ Hf), Hc. simpl fst.
  unfold usage_of. rewrite Hu, Ht.
  assert (Hsu : safe (u - pu)) by (unfold safe in *; lia).
  rewrite !sub_int by assumption.
  unfold strict_neq. change (Fin 0) with (Fin (inject_Z 0)).
  rewrite strict_eq_int.
  destruct (t - pt =? 0) eqn:E; [apply Z.eqb_eq in E; lia|].
  simpl negb. cbv iota. now rewrite Hq.
Qed.

Lemma cpu_usage_between_0_and_1_witness :
  exists r,
    fl (inject_Z (300 - 200) / inject_Z (800 - 400)) = Fin r
    /\ eval (getCurrentCPUUsage proc_4) machine_1 = Normal (Fin r)
    /\ (0 <= r)%Q /\ (r <= 1)%Q.
Proof.
  apply (cpu_usage_between_0_and_1 proc_4 machine_1 cpu_table_4 300 800 200 400).
  - reflexivity.
  - vm_compute. reflexivity.
  - vm_compute. reflexivity.
  - vm_compute. reflexivity.
  - lia.
  - lia.
  - apply safe_small. simpl. lia.
Defined.

Lemma add_NaN_l (y : number) : (NaN + y)%num = NaN.
Proof. reflexivity. Qed.

Lemma add_NaN_r (x : number) : (x + NaN)%num = NaN.
Proof. destruct x; reflexivity. Qed.

Lemma sub_NaN_r (x : number) : (x - NaN)%num = NaN.
Proof. destruct x; reflexivity. Qed.

Lemma div_NaN_r (x : number) : (x / NaN)%num = NaN.
Proof. destruct x; reflexivity. Qed.

Lemma not_numeric (s : string) : numeric s = false -> parseInt s = NaN.
Proof.
  unfold numeric. destruct (parseInt s); simpl; intros H;
    [reflexivity | discriminate..].
Qed.

Lemma cpu_sample_bad_field text used total :
  cpu_sample text = Some (used, total) ->
  (exists k, (1 <= k <= 4)%nat
             /\ numeric (field (fields_of (hd "undefined" (split_lines text))) k)
                = false) ->
  total = NaN.
Proof.
  intros Hc (k & Hk & Hn). apply not_numeric in Hn.
  unfold cpu_sample in Hc.
  destruct (String.eqb _ _ && _)%bool; [|discriminate].
  injection Hc as _ <-.
  assert (Hk' : k = 1%nat \/ k = 2%nat \/ k = 3%nat \/ k = 4%nat) by lia.
  destruct Hk' as [-> | [-> | [-> | ->]]]; rewrite Hn;
    rewrite ?add_NaN_l, ?add_NaN_r; reflexivity.
Qed.

Lemma usage_of_NaN used total g :
  total = NaN \/ lastCPUTotal g = NaN -> usage_of used total g = NaN.
Proof.
  intros H.
  assert (Hd : (total - lastCPUTotal g)%num = NaN).
  { destruct H as [-> | ->]; [reflexivity | apply sub_NaN_r]. }
  unfold usage_of. rewrite Hd. simpl. apply div_NaN_r.
Qed.

(** X6.  A field that [Number.parseInt] does not read, among the four the
    CPU reader adds up, makes the usage NaN and stores NaN as the previous
    total; and once the previous total is NaN the usage of the next sample
    is NaN whatever its counters.  One bad line is shown for two ticks. *)
Theorem cpu_usage_not_a_number fs m text used total :
  stat fs = Contents (Encoded text) ->
  cpu_sample text = Some (used, total) ->
  let fields := fields_of (hd "undefined" (split_lines text)) in
  let bad := exists k, (1 <= k <= 4)%nat /\ numeric (field fields k) = false in
  bad \/ lastCPUTotal (vars m) = NaN ->
  eval (getCurrentCPUUsage fs) m = Normal NaN
  /\ (bad -> lastCPUTotal (vars (exec (getCurrentCPUUsage fs) m)) = NaN).
Proof.
  intros Hf Hc fields bad H.
  assert (Hbad : bad -> total = NaN) by exact (cpu_sample_bad_field _ _ _ Hc).
  unfold eval, exec. rewrite (getCurrentCPUUsage_read _ _ _ Hf), Hc. simpl.
  split; [|exact Hbad].
  rewrite usage_of_NaN; [reflexivity|].
  destruct H as [H | H]; [left; exact (Hbad H) | right; exact H].
Qed.

Lemma cpu_usage_not_a_number_witness :
  eval (getCurrentCPUUsage proc_bad_cpu) machine_1 = Normal NaN
  /\ eval (getCurrentCPUUsage proc_1)
          (exec (getCurrentCPUUsage proc_bad_cpu) machine_1) = Normal NaN.
Proof.
  assert (Hbad : exists k, (1 <= k <= 4)%nat
                 /\ numeric (field (fields_of (hd "undefined"
                                      (split_lines cpu_table_3))) k) = false).
  { exists 4%nat. split; [lia | vm_compute; reflexivity]. }
  destruct (cpu_usage_not_a_number proc_bad_cpu machine_1 cpu_table_3
              (Fin 400) NaN eq_refl ltac:(vm_compute; reflexivity)
              (or_introl Hbad))
    as [H1 H2].
  split; [exact H1|].
  apply (cpu_usage_not_a_number proc_1 _ cpu_table_1 (Fin 200) (Fin 400) eq_refl
           ltac:(vm_compute; reflexivity)).
  right. exact (H2 Hbad).
Defined.

(** ** The rates between two samples *)

Lemma rate_growth (c p i : Z) :
  0 < p <= c -> safe c -> 0 < i ->
  exists r,
    rate (Fin (inject_Z c)) (Fin (inject_Z p)) (Fin (inject_Z i)) = Fin r
    /\ fl (inject_Z (c - p) / inject_Z i) = Fin r
    /\ (0 <= r)%Q /\ (r <= inject_Z (c - p))%Q.
Proof.
  intros Hp Hc Hi.
  assert (Hs : safe (c - p)) by (unfold safe in *; lia).
  destruct (div_int_bounded (c - p) i (c - p) ltac:(lia) Hi ltac:(nia) Hs)
    as (r & Hr & Hq & H0 & H1).
  exists r. split; [|split; [exact Hr | split; assumption]].
  unfold rate, strict_neq. change (Fin 0) with (Fin (inject_Z 0)).
  rewrite strict_eq_int.
  destruct (p =? 0) eqn:E; [apply Z.eqb_eq in E; lia|]. simpl negb. cbv iota.
  rewrite sub_int by exact Hs. exact Hq.
Qed.

(** X7.  Between two network samples whose totals are integers, taken a
    whole positive number of seconds apart, a total that did not decrease
    from a previous total other than 0 gives a rate that is the growth
    divided by the interval, rounded to a Number, and that lies between 0
    and the growth. *)
Theorem rate_after_counter_growth fs m text (cd cu pd pu i : Z) :
  net_dev fs = Contents (Encoded text) ->
  net_sample text = (Fin (inject_Z cd), Fin (inject_Z cu)) ->
  lastTotalNetDownBytes (vars m) = Fin (inject_Z pd) ->
  lastTotalNetUpBytes (vars m) = Fin (inject_Z pu) ->
  0 < pd <= cd -> 0 < pu <= cu -> safe cd -> safe cu -> 0 < i ->
  exists rd ru,
    eval (getCurrentNetSpeed (Fin (inject_Z i)) fs) m
    = Normal {| down := Fin rd; up := Fin ru |}
    /\ fl (inject_Z (cd - pd) / inject_Z i) = Fin rd
    /\ fl (inject_Z (cu - pu) / inject_Z i) = Fin ru
    /\ (0 <= rd)%Q /\ (rd <= inject_Z (cd - pd))%Q
    /\ (0 <= ru)%Q /\ (ru <= inject_Z (cu - pu))%Q.
Proof.
  intros Hf Hn Hd Hu Hpd Hpu Hsd Hsu Hi.
  destruct (rate_growth cd pd i Hpd Hsd Hi) as (rd & Hrd & Hfd & Hd0 & Hd1).
  destruct (rate_growth cu pu i Hpu Hsu Hi) as (ru & Hru & Hfu & Hu0 & Hu1).
  exists rd, ru. unfold eval.
  rewrite (getCurrentNetSpeed_read _ _ _ text Hf), Hn, Hd, Hu. simpl fst.
  simpl snd. rewrite Hrd, Hru. repeat split; assumption.
Qed.

Lemma rate_after_counter_growth_witness :
  exists rd ru,
    eval (getCurrentNetSpeed (Fin (inject_Z 2)) proc_3) machine_1
    = Normal {| down := Fin rd; up := Fin ru |}
    /\ fl (inject_Z (5800 - 5300) / inject_Z 2) = Fin rd
    /\ fl (inject_Z (7400 - 7400) / inject_Z 2) = Fin ru
    /\ (0 <= rd)%Q /\ (rd <= inject_Z (5800 - 5300))%Q
    /\ (0 <= ru)%Q /\ (ru <= inject_Z (7400 - 7400))%Q.
Proof.
  apply (rate_after_counter_growth proc_3 machine_1 net_table_3
           5800 7400 5300 7400 2).
  - reflexivity.
  - vm_compute. reflexivity.
  - vm_compute. reflexivity.
  - vm_compute. reflexivity.
  - lia.
  - lia.
  - apply safe_small. simpl. lia.
  - apply safe_small. simpl. lia.
  - lia.
Defined.

Lemma rate_same (n : Z) (i : number) :
  isNaN i = false -> strict_eq i (Fin 0) = false ->
  rate (Fin (inject_Z n)) (Fin (inject_Z n)) i = Fin 0.
Proof.
  intros Hn Hz. unfold rate.
  destruct (strict_neq (Fin (inject_Z n)) (Fin 0)); [|reflexivity].
  rewrite sub_int by (rewrite Z.sub_diag; apply safe_small; simpl; lia).
  rewrite Z.sub_diag. destruct i as [| | |b]; try reflexivity.
  - discriminate.
  - unfold div. unfold Qzero_b at 1.
    assert (Hb : (Qnum b =? 0) = false).
    { unfold strict_eq, compare, Qcompare in Hz. simpl in Hz.
      rewrite Z.mul_1_r in Hz. destruct (Z.compare_spec (Qnum b) 0) as [E|E|E];
        try discriminate; apply Z.eqb_neq; lia. }
    rewrite Hb. reflexivity.
Qed.

(** X8.  Reading twice a network table that did not change, and that the
    loop adds up without rounding, gives, at the second read, the rate 0
    in both directions, whatever the interval given then, provided it is
    a number other than 0; the stored totals stay what the first read
    made them. *)
Theorem unchanged_table_gives_zero_rate fs m text i i' :
  net_dev fs = Contents (Encoded text) -> exact_table text ->
  isNaN i' = false -> strict_eq i' (Fin 0) = false ->
  let m1 := exec (getCurrentNetSpeed i fs) m in
  getCurrentNetSpeed i' fs m1 = (Normal {| down := Fin 0; up := Fin 0 |}, m1).
Proof.
  intros Hf [H1 H9] Hn Hz m1. subst m1. unfold exec.
  assert (Hs : net_sample text
               = (Fin (inject_Z (sum_field 1 (split_lines text))),
                  Fin (inject_Z (sum_field 9 (split_lines text))))).
  { unfold net_sample, net_totals. apply (net_totals_from _ 0 0 H1 H9). }
  rewrite (getCurrentNetSpeed_read _ _ i text Hf).
  rewrite (getCurrentNetSpeed_read _ _ i' text Hf).
  rewrite Hs. simpl. rewrite !rate_same by assumption. reflexivity.
Qed.

Lemma unchanged_table_gives_zero_rate_witness :
  getCurrentNetSpeed (Fin 5) proc_1
    (exec (getCurrentNetSpeed (Fin 2) proc_1) machine_reset)
  = (Normal {| down := Fin 0; up := Fin 0 |},
     exec (getCurrentNetSpeed (Fin 2) proc_1) machine_reset).
Proof.
  apply (unchanged_table_gives_zero_rate proc_1 machine_reset net_table_1
           (Fin 2) (Fin 5) eq_refl).
  - unfold exact_table. split; vm_compute; repeat split; intro H; discriminate H.
  - reflexivity.
  - reflexivity.
Defined.

(** ** The formatters, for every input *)

Lemma digits_upto_100 :
  forallb (fun n => (String.length (digits (Z.of_nat n)) <=? 3)%nat)
          (seq 0 101) = true.
Proof. vm_compute. reflexivity. Qed.

Lemma digits_short (z : Z) :
  0 <= z <= 100 -> (String.length (digits z) <= 3)%nat.
Proof.
  intros Hz. pose proof digits_upto_100 as H.
  rewrite forallb_forall in H. specialize (H (Z.to_nat z)).
  rewrite Z2Nat.id in H by lia. apply Nat.leb_le, H, in_seq. lia.
Qed.

Lemma plain_notation_upto_100 :
  forallb (fun n => String.eqb (plain_notation (Z.of_nat n))
                               (digits (Z.of_nat n)))
          (seq 0 101) = true.
Proof. vm_compute. reflexivity. Qed.

(** Up to 100, the shortest decimal that reads back as an integer is the
    integer. *)
Lemma plain_notation_small (z : Z) :
  0 <= z <= 100 -> plain_notation z = digits z.
Proof.
  intros Hz. pose proof plain_notation_upto_100 as H.
  rewrite forallb_forall in H. specialize (H (Z.to_nat z)).
  rewrite Z2Nat.id in H by lia. apply String.eqb_eq, H, in_seq. lia.
Qed.

Lemma round_percent (r : Q) :
  (0 <= r)%Q -> (r <= inject_Z 100)%Q ->
  0 <= Qfloor (r + (1 # 2)) <= 100.
Proof.
  intros H0 H1. split.
  - change 0 with (Qfloor 0). apply Qfloor_resp_le.
    destruct r as [a b]. unfold Qle, Qplus in *; simpl in *. lia.
  - change 100 with (Qfloor (201 # 2)). apply Qfloor_resp_le.
    destruct r as [a b]. unfold Qle, Qplus in *; simpl in *. lia.
Qed.

Lemma formatUsage_percent (q : Q) (extra perc : bool) :
  (0 <= q)%Q -> (q <= 1)%Q ->
  exists z,
    0 <= z <= 100
    /\ formatUsage (Fin q) extra perc
       = padStart (digits z) (if extra then 3 else 2)
         ++ (if perc then "%" else "").
Proof.
  intros H0 H1.
  assert (Hs : safe 100) by (apply safe_small; simpl; lia).
  destruct (fl_bounded (q * inject_Z 100) 100) as (r & Hr & Hr0 & Hr1).
  - destruct q as [a b]. unfold Qle, Qmult in *; simpl in *. lia.
  - destruct q as [a b]. unfold Qle, Qmult in *; simpl in *. lia.
  - exact Hs.
  - pose proof (round_percent r Hr0 Hr1) as Hz.
    remember (Qfloor (r + (1 # 2))) as z eqn:Ez.
    exists z. split; [exact Hz|].
    unfold formatUsage. rewrite (of_Z_safe 100 Hs).
    change (mul (Fin q) (Fin (inject_Z 100))) with (fl (q * inject_Z 100)).
    rewrite Hr. unfold Math_round, toString. rewrite Qfloor_Z, <- Ez.
    destruct (Z.ltb_spec z 0) as [E | E]; [lia|].
    unfold nat_toString. change (10 ^ 21) with 1000000000000000000000.
    destruct (Z.ltb_spec z 1000000000000000000000) as [E' | E']; [|lia].
    now rewrite (plain_notation_small z Hz).
Qed.

(** X9.  For a ratio between 0 and 1, [formatUsage] prints a whole number
    of percent between 0 and 100, padded on the left; with the extra
    spaces the text has always the same width, 3 characters and the sign
    if asked for, and without them 2 or 3 characters and the sign. *)
Theorem formatUsage_of_a_ratio (q : Q) (extra perc : bool) :
  (0 <= q)%Q -> (q <= 1)%Q ->
  exists z,
    0 <= z <= 100
    /\ formatUsage (Fin q) extra perc
       = padStart (digits z) (if extra then 3 else 2)
         ++ (if perc then "%" else "")
    /\ let width := String.length (formatUsage (Fin q) extra perc) in
       let sign := if perc then 1%nat else 0%nat in
       if extra then width = (3 + sign)%nat
       else (2 + sign <= width <= 3 + sign)%nat.
Proof.
  intros H0 H1.
  destruct (formatUsage_percent q extra perc H0 H1) as (z & Hz & Hf).
  exists z. split; [exact Hz|]. split; [exact Hf|].
  cbv zeta. rewrite Hf. unfold padStart.
  rewrite !length_append, length_spaces.
  pose proof (digits_short z Hz) as Hd.
  destruct extra, perc; simpl String.length; lia.
Qed.

Lemma formatUsage_of_a_ratio_witness :
  exists z,
    0 <= z <= 100
    /\ formatUsage (Fin (1 # 3)) true true = padStart (digits z) 3 ++ "%"
    /\ String.length (formatUsage (Fin (1 # 3)) true true) = 4%nat.
Proof.
  destruct (formatUsage_of_a_ratio (1 # 3) true true) as (z & Hz & Hf & Hw).
  - unfold Qle; simpl; lia.
  - unfold Qle; simpl; lia.
  - exists z. split; [exact Hz|]. split; [exact Hf | exact Hw].
Defined.

Lemma scale_stops (steps : nat) :
  forall amount ui,
    (ge (fst (scale steps amount ui)) (of_Z 1000) = false
     \/ snd (scale steps amount ui) = (ui + steps)%nat)
    /\ (ge amount (of_Z 1000) = false -> scale steps amount ui = (amount, ui)).
Proof.
  induction steps as [|k IH]; intros amount ui; simpl.
  - split; [right; lia | reflexivity].
  - destruct (ge amount (of_Z 1000)) eqn:E.
    + destruct (IH (div amount (of_Z 1000)) (S ui)) as [[H | H] _].
      * split; [left; exact H | discriminate].
      * split; [right; rewrite H; lia | discriminate].
    + split; [left; exact E | reflexivity].
Qed.

(** X10.  Whatever the amount, the loop of [formatNetSpeed] hands to
    [toFixed] a scaled amount that is not 1000 or more, unless the unit is
    the last one, [Y]; and an amount that is not 1000 or more, a negative
    one or NaN included, is handed over as it is, in [B].  The rounding
    to the decimals comes after the loop, so that the text may still read
    1000: 999.5 is printed as [1000 B] and 999999 as [1000 K]. *)
Theorem formatNetSpeed_scaling (amount : number) (full : bool) :
  (exists a unit,
      formatNetSpeed amount full
      = padStart
          (toFixed a (if ge a (of_Z 100) || lt a (fl (1 # 100)) then 0%nat
                      else if ge a (of_Z 10) then 1%nat else 2%nat)) 4
        ++ " " ++ unit ++ (if full then "/s" else "")
      /\ (ge a (of_Z 1000) = false \/ unit = "Y")
      /\ (ge amount (of_Z 1000) = false -> a = amount /\ unit = "B"))
  /\ formatNetSpeed (fl (1999 # 2)) false = "1000 B"
  /\ formatNetSpeed (of_Z 999999) false = "1000 K".
Proof.
  split; [|split; vm_compute; reflexivity].
  unfold formatNetSpeed.
  destruct (scale_stops (List.length netSpeedUnits - 1) amount 0) as [H1 H2].
  destruct (scale (List.length netSpeedUnits - 1) amount 0) as [a ui] eqn:E.
  exists a, (nth ui netSpeedUnits "undefined"). split; [reflexivity|]. split.
  - destruct H1 as [H1 | H1]; [left; exact H1 | right].
    simpl in H1. subst ui. reflexivity.
  - intros H. specialize (H2 H). injection H2 as -> ->. split; reflexivity.
Qed.

(** The part used of a positive total, printed. *)
Lemma used_part_percent (t a : Z) (extra perc : bool) :
  0 <= a <= t -> 0 < t -> safe t ->
  gt (Fin (inject_Z t)) (Fin 0) = true
  /\ exists z,
       0 <= z <= 100
       /\ formatUsage ((Fin (inject_Z t) - Fin (inject_Z a)) / Fin (inject_Z t))%num
                      extra perc
          = padStart (digits z) (if extra then 3 else 2)
            ++ (if perc then "%" else "").
Proof.
  intros Ha Ht Hs. split.
  - unfold gt, compare, Qcompare, inject_Z; simpl. rewrite Z.mul_1_r.
    destruct (Z.compare_spec t 0); [lia | lia | reflexivity].
  - assert (Hsa : safe (t - a)) by (unfold safe in *; lia).
    assert (H1 : safe 1) by (apply safe_small; simpl; lia).
    rewrite sub_int by exact Hsa.
    destruct (div_int_bounded (t - a) t 1 ltac:(lia) Ht ltac:(lia) H1)
      as (r & _ & Hq & H0 & Hr1).
    rewrite Hq. now apply formatUsage_percent.
Qed.

(** X16.  When the memory table gives an available amount between 0 and a
    positive total, both integers, the memory item of the label is a
    whole number of percent between 0 and 100; and so is the swap item
    for a free amount between 0 and a positive total. *)
Theorem usage_items_show_a_percentage p mem (t a : Z) :
  0 <= a <= t -> 0 < t -> safe t ->
  let shown z :=
    padStart (digits z) (if SHOW_EXTRA_SPACES p then 3 else 2)
    ++ (if SHOW_PERCENT_SIGN p then "%" else "") in
  (total mem = Fin (inject_Z t) -> avail mem = Fin (inject_Z a) ->
   IS_MEMORY_USAGE_ENABLE p = true ->
   exists z, 0 <= z <= 100
             /\ memory_item p mem = [MEMORY_USAGE_TEXT p ++ " " ++ shown z])
  /\ (swTotal mem = Fin (inject_Z t) -> swFree mem = Fin (inject_Z a) ->
      IS_SWAP_USAGE_ENABLE p = true ->
      exists z, 0 <= z <= 100
                /\ swap_item p mem = [SWAP_USAGE_TEXT p ++ " " ++ shown z]).
Proof.
  intros Ha Ht Hs shown.
  destruct (used_part_percent t a (SHOW_EXTRA_SPACES p) (SHOW_PERCENT_SIGN p)
              Ha Ht Hs) as (Hg & z & Hz & Hf).
  split; intros Htot Hav He; exists z; (split; [exact Hz|]).
  - unfold memory_item. rewrite Htot, Hav, He, Hg, Hf. reflexivity.
  - unfold swap_item. rewrite Htot, Hav, He, Hg, Hf. reflexivity.
Qed.

Lemma usage_items_show_a_percentage_witness :
  exists z,
    0 <= z <= 100
    /\ memory_item settings_1
         {| total := Fin 1000; avail := Fin 250;
            swTotal := Fin 0; swFree := Fin 0 |}
       = ["M " ++ padStart (digits z) 2 ++ "%"].
Proof.
  refine (proj1 (usage_items_show_a_percentage settings_1
                   {| total := Fin 1000; avail := Fin 250;
                      swTotal := Fin 0; swFree := Fin 0 |} 1000 250 _ _ _)
                eq_refl eq_refl eq_refl).
  - lia.
  - lia.
  - apply safe_small. simpl. lia.
Defined.

(** ** A tick, metric by metric *)

Ltac reduce_system :=
  cbn [snd fst mach this gsettings sources next_source set_mach set_this
       set_indicator _prefs _indicator _timeout _refresh_interval].

Ltac read_network fs s m :=
  destruct (IS_DOWNLOAD_SPEED_ENABLE (gsettings s)
            || IS_UPLOAD_SPEED_ENABLE (gsettings s));
  [ let r := fresh "r" in
    let m3 := fresh "m" in
    let E3 := fresh "E" in
    destruct (getCurrentNetSpeed_normal (_refresh_interval (this s)) fs m)
      as (r & m3 & E3);
    reduce_system; rewrite E3; cbv [modify]; eexists; reflexivity
  | cbv [modify]; eexists; reflexivity ].

(** While the indicator and the preferences are there, a tick asks for
    another one and changes the label and the machine only. *)
Lemma _refresh_state fs s label :
  _indicator (this s) = Some label -> _prefs (this s) = true ->
  exists text,
    _refresh fs s
    = (Normal SOURCE_CONTINUE,
       set_indicator (Some text) (set_mach (machine_after_tick fs s) s)).
Proof.
  intros Hi Hp. unfold _refresh, machine_after_tick, exec.
  cbv [bind get]. rewrite Hi.
  destruct (getMemoryInfo_normal fs (mach s)) as (mem & m1 & E1).
  cbv [on_machine]. rewrite E1. reduce_system.
  cbv [prefs]. reduce_system. rewrite Hp.
  cbv [cpu_item net_items].
  destruct (IS_CPU_USAGE_ENABLE (gsettings s)).
  - destruct (getCurrentCPUUsage_normal fs m1) as (u & m2 & E2).
    cbv [bind on_machine ret get]. reduce_system. rewrite E2. reduce_system.
    read_network fs s m2.
  - cbv [bind on_machine ret get]. reduce_system.
    read_network fs s m1.
Qed.

(** X11.  A tick does not sample a metric that is switched off: with the
    CPU usage off the two stored CPU counters keep their values, and with
    both speeds off the two stored network totals keep theirs.  The sample
    that follows the switching on is thus compared with counters stored
    before the metric was switched off. *)
Theorem disabled_metric_is_not_sampled fs s label :
  _indicator (this s) = Some label -> _prefs (this s) = true ->
  let g := vars (mach s) in
  let g' := vars (mach (exec (_refresh fs) s)) in
  (IS_CPU_USAGE_ENABLE (gsettings s) = false ->
   lastCPUUsed g' = lastCPUUsed g /\ lastCPUTotal g' = lastCPUTotal g)
  /\ (IS_DOWNLOAD_SPEED_ENABLE (gsettings s) = false ->
      IS_UPLOAD_SPEED_ENABLE (gsettings s) = false ->
      lastTotalNetDownBytes g' = lastTotalNetDownBytes g
      /\ lastTotalNetUpBytes g' = lastTotalNetUpBytes g).
Proof.
  intros Hi Hp g g'. subst g g'.
  destruct (_refresh_state fs s label Hi Hp) as [text E].
  unfold exec. rewrite E. reduce_system. fold (@exec machine).
  unfold machine_after_tick.
  pose proof (getMemoryInfo_vars fs (mach s)) as Hm.
  split.
  - intros Hc. rewrite Hc.
    destruct (IS_DOWNLOAD_SPEED_ENABLE (gsettings s)
              || IS_UPLOAD_SPEED_ENABLE (gsettings s)).
    + destruct (getCurrentNetSpeed_cpu_vars (_refresh_interval (this s)) fs
                  (exec (getMemoryInfo fs) (mach s))) as [H1 H2].
      rewrite H1, H2, Hm. split; reflexivity.
    + rewrite Hm. split; reflexivity.
  - intros Hd Hu. rewrite Hd, Hu. simpl orb. cbv iota.
    destruct (IS_CPU_USAGE_ENABLE (gsettings s)).
    + destruct (getCurrentCPUUsage_net_vars fs
                  (exec (getMemoryInfo fs) (mach s))) as [H1 H2].
      rewrite H1, H2, Hm. split; reflexivity.
    + rewrite Hm. split; reflexivity.
Qed.

Lemma disabled_metric_is_not_sampled_witness :
  let g := vars (mach system_memory_only) in
  let g' := vars (mach (exec (_refresh proc_4) system_memory_only)) in
  (lastCPUUsed g' = lastCPUUsed g /\ lastCPUTotal g' = lastCPUTotal g)
  /\ (lastTotalNetDownBytes g' = lastTotalNetDownBytes g
      /\ lastTotalNetUpBytes g' = lastTotalNetUpBytes g).
Proof.
  edestruct (disabled_metric_is_not_sampled proc_4 system_memory_only)
    as [H1 H2].
  - vm_compute. reflexivity.
  - reflexivity.
  - split; [apply H1; reflexivity | apply H2; reflexivity].
Defined.

(** X12.  The memory table is read at every tick, whichever metrics are
    shown: with the five metrics switched off and a memory table that
    cannot be read, the tick still logs the error; it empties the label
    and touches nothing else. *)
Theorem memory_table_is_always_read fs s label e :
  _indicator (this s) = Some label -> _prefs (this s) = true ->
  failure (meminfo fs) = Some e ->
  IS_CPU_USAGE_ENABLE (gsettings s) = false ->
  IS_MEMORY_USAGE_ENABLE (gsettings s) = false ->
  IS_SWAP_USAGE_ENABLE (gsettings s) = false ->
  IS_DOWNLOAD_SPEED_ENABLE (gsettings s) = false ->
  IS_UPLOAD_SPEED_ENABLE (gsettings s) = false ->
  _refresh fs s
  = (Normal SOURCE_CONTINUE,
     set_indicator (Some EmptyString) (set_mach (logged e (mach s)) s)).
Proof.
  intros Hi Hp Hf Hc Hm Hs Hd Hu. unfold _refresh.
  cbv [bind get]. rewrite Hi.
  cbv [on_machine]. rewrite (getMemoryInfo_failure _ _ e Hf). reduce_system.
  cbv [prefs]. reduce_system. rewrite Hp.
  cbv [cpu_item net_items memory_item swap_item]. rewrite Hc, Hm, Hs, Hd, Hu.
  reflexivity.
Qed.

Lemma memory_table_is_always_read_witness :
  let s := set_gsettings
             {| REFRESH_INTERVAL := Fin 2;
                IS_CPU_USAGE_ENABLE := false;
                IS_MEMORY_USAGE_ENABLE := false;
                IS_SWAP_USAGE_ENABLE := false;
                IS_DOWNLOAD_SPEED_ENABLE := false;
                IS_UPLOAD_SPEED_ENABLE := false;
                CPU_USAGE_TEXT := "C";
                MEMORY_USAGE_TEXT := "M";
                SWAP_USAGE_TEXT := "S";
                DOWNLOAD_SPEED_TEXT := "D";
                UPLOAD_SPEED_TEXT := "U";
                ITEM_SEPARATOR := " ";
                SHOW_EXTRA_SPACES := false;
                SHOW_PERCENT_SIGN := true;
                SHOW_FULL_NET_SPEED_UNIT := true |} system_running in
  let fs := {| net_dev := Contents (Encoded net_table_1);
               stat := Contents (Encoded cpu_table_1);
               meminfo := Missing |} in
  _refresh fs s
  = (Normal SOURCE_CONTINUE,
     set_indicator (Some EmptyString) (set_mach (logged IOError (mach s)) s)).
Proof.
  intros s fs.
  eapply (memory_table_is_always_read fs s _ IOError).
  - vm_compute. reflexivity.
  - reflexivity.
  - reflexivity.
  - reflexivity.
  - reflexivity.
  - reflexivity.
  - reflexivity.
  - reflexivity.
Defined.

Lemma filter_absent (id : positive) (l : list (positive * number)) :
  existsb (fun t => Pos.eqb (fst t) id) l = false ->
  filter (fun t => negb (Pos.eqb (fst t) id)) l = l.
Proof.
  induction l as [|t l IH]; simpl; [reflexivity|].
  intros H. apply orb_false_iff in H. destruct H as [Ht Hl].
  rewrite Ht. simpl. now rewrite IH.
Qed.

(** X13.  Once the indicator is gone, the callback of a timer reads no
    table, changes nothing and asks for the timer to be dropped; the main
    loop then drops that timer and no other, and the field [_timeout] of
    the extension keeps the identifier of the dropped timer. *)
Theorem tick_without_indicator fs s id :
  _indicator (this s) = None ->
  _refresh fs s = (Normal SOURCE_REMOVE, s)
  /\ eval (tick fs id) s = Normal tt
  /\ mach (exec (tick fs id) s) = mach s
  /\ this (exec (tick fs id) s) = this s
  /\ sources (exec (tick fs id) s)
     = filter (fun t => negb (Pos.eqb (fst t) id)) (sources s).
Proof.
  intros Hi.
  assert (Hr : _refresh fs s = (Normal SOURCE_REMOVE, s)).
  { unfold _refresh. cbv [bind get]. rewrite Hi. reflexivity. }
  split; [exact Hr|]. unfold eval, exec, tick. cbv [bind get].
  destruct (existsb (fun t => Pos.eqb (fst t) id) (sources s)) eqn:E.
  - rewrite Hr. repeat split.
  - cbv [ret]. reduce_system. rewrite (filter_absent _ _ E). repeat split.
Qed.

Lemma tick_without_indicator_witness :
  _refresh proc_4 system_no_indicator = (Normal SOURCE_REMOVE, system_no_indicator)
  /\ sources system_no_indicator = [(1%positive, Fin 2)]
  /\ sources (exec (tick proc_4 1%positive) system_no_indicator) = []
  /\ _timeout (this (exec (tick proc_4 1%positive) system_no_indicator))
     = Some 1%positive.
Proof.
  destruct (tick_without_indicator proc_4 system_no_indicator 1%positive eq_refl)
    as (Hr & _ & _ & Ht & Hs).
  split; [exact Hr|]. split; [vm_compute; reflexivity|]. split.
  - rewrite Hs. vm_compute. reflexivity.
  - rewrite Ht. vm_compute. reflexivity.
Defined.

(** ** The timer of the extension *)

Lemma enable_one_timer s : one_timer s -> one_timer (exec enable s).
Proof.
  unfold one_timer. run_system. cbn.
  destruct (_timeout (this s)) as [id|]; cbn.
  - intros (Hs & _ & _). rewrite Hs. cbn. rewrite Pos.eqb_refl. cbn.
    repeat split. discriminate.
  - intros (Hs & _). rewrite Hs. cbn. repeat split. discriminate.
Qed.

Lemma disable_one_timer s : one_timer s -> one_timer (exec disable s).
Proof.
  unfold one_timer. run_system.
  destruct (_timeout (this s)) as [id|]; cbn.
  - intros (Hs & _ & _). rewrite Hs. cbn. rewrite Pos.eqb_refl. cbn.
    split; reflexivity.
  - intros (Hs & _). rewrite Hs. split; reflexivity.
Qed.

Lemma REFRESH_INTERVAL_changed_one_timer v s :
  one_timer s -> one_timer (exec (REFRESH_INTERVAL_changed v) s).
Proof.
  unfold one_timer. run_system. cbn.
  destruct (_timeout (this s)) as [id|] eqn:Et; cbn.
  - intros (Hs & Hp & Hi). rewrite Hp, Hs. cbn. rewrite Pos.eqb_refl. cbn.
    repeat split; assumption.
  - intros (Hs & Hp). rewrite Hp. cbn. rewrite Et. split; assumption.
Qed.

Lemma tick_one_timer fs id s : one_timer s -> one_timer (exec (tick fs id) s).
Proof.
  intros H. unfold tick, exec. cbv [bind get].
  destruct (existsb (fun t => Pos.eqb (fst t) id) (sources s)) eqn:E;
    [|exact H].
  unfold one_timer in H. destruct (_timeout (this s)) as [id0|] eqn:Et.
  - destruct H as (Hs & Hp & Hi).
    destruct (_indicator (this s)) as [label|] eqn:El;
      [|contradiction Hi; reflexivity].
    destruct (_refresh_state fs s label El Hp) as [text ->].
    cbv [when negb SOURCE_CONTINUE ret]. reduce_system.
    unfold one_timer. reduce_system. rewrite Et.
    repeat split; try assumption. discriminate.
  - destruct H as [Hs _]. rewrite Hs in E. discriminate.
Qed.

Lemma setting_changed_one_timer p fs s :
  one_timer s -> one_timer (exec (setting_changed p fs) s).
Proof.
  intros H. unfold setting_changed, exec.
  cbv [bind modify _updateStyles get]. reduce_system.
  set (s0 := set_gsettings _ s).
  assert (H0 : one_timer s0) by exact H.
  change (_indicator (this s0)) with (_indicator (this s)).
  destruct (_indicator (this s)) as [label|] eqn:El; [|exact H0].
  cbv [prefs]. change (_prefs (this s0)) with (_prefs (this s)).
  destruct (_prefs (this s)) eqn:Ep; [|exact H0].
  cbv [ret].
  destruct (_refresh_state fs s0 label El Ep) as [text ->]. reduce_system.
  unfold one_timer in *. reduce_system.
  change (_timeout (this s0)) with (_timeout (this s)) in *.
  destruct (_timeout (this s)) as [id|].
  - destruct H0 as (Hs & _ & _).
    repeat split; try exact Hs; try exact Ep; discriminate.
  - destruct H0 as (_ & Hp). change (_prefs (this s0)) with (_prefs (this s)) in Hp.
    congruence.
Qed.

Lemma run_one_timer events : forall s, one_timer s -> one_timer (run events s).
Proof.
  induction events as [|e events IH]; intros s H; [exact H|].
  apply IH. destruct e as [| |v|p fs|fs id]; simpl handler.
  - now apply enable_one_timer.
  - now apply disable_one_timer.
  - now apply REFRESH_INTERVAL_changed_one_timer.
  - now apply setting_changed_one_timer.
  - now apply tick_one_timer.
Qed.

(** X14.  Whatever the shell, the settings and the main loop call, and in
    whatever order, the extension never has two timers: a timer that is
    registered is the one [_timeout] names, its period is the interval the
    rates are divided by, and the indicator it writes to is there. *)
Theorem at_most_one_timer events s :
  one_timer s ->
  let s' := run events s in
  one_timer s'
  /\ (List.length (sources s') <= 1)%nat
  /\ forall id v,
       In (id, v) (sources s') ->
       _timeout (this s') = Some id
       /\ v = _refresh_interval (this s')
       /\ _indicator (this s') <> None.
Proof.
  intros H s'. pose proof (run_one_timer events s H) as H'. fold s' in H'.
  split; [exact H'|]. unfold one_timer in H'.
  destruct (_timeout (this s')) as [id0|].
  - destruct H' as (Hs & _ & Hi). rewrite Hs. split; [simpl; lia|].
    intros id v [[= <- <-] | []]. repeat split. exact Hi.
  - destruct H' as (Hs & _). rewrite Hs. split; [simpl; lia|].
    intros id v [].
Qed.

Lemma at_most_one_timer_witness :
  let s' := run [Enable; TimerFired proc_1 1%positive; Enable;
                 IntervalChanged (Fin 5); TimerFired proc_3 1%positive;
                 SettingChanged settings_memory_only proc_4;
                 TimerFired proc_3 3%positive]
                system_stopped in
  one_timer s' /\ (List.length (sources s') <= 1)%nat.
Proof.
  intros s'.
  destruct (at_most_one_timer
              [Enable; TimerFired proc_1 1%positive; Enable;
               IntervalChanged (Fin 5); TimerFired proc_3 1%positive;
               SettingChanged settings_memory_only proc_4;
               TimerFired proc_3 3%positive]
              system_stopped) as (H1 & H2 & _).
  - unfold one_timer. simpl. split; reflexivity.
  - split; [exact H1 | exact H2].
Defined.

Lemma disable_stopped s : one_timer s -> stopped (exec disable s).
Proof.
  unfold one_timer, stopped. run_system.
  destruct (_timeout (this s)) as [id|]; cbn.
  - intros (Hs & _ & _). rewrite Hs. cbn. rewrite Pos.eqb_refl.
    split; reflexivity.
  - intros (Hs & _). split; [exact Hs | reflexivity].
Qed.

(** A callback that runs while the extension is stopped changes neither
    the machine, nor the extension, nor the timers. *)
Lemma callback_stopped e s :
  is_callback e = true -> stopped s ->
  mach (exec (handler e) s) = mach s
  /\ this (exec (handler e) s) = this s
  /\ sources (exec (handler e) s) = sources s.
Proof.
  intros He (Hs & Ht).
  assert (Hp : _prefs (this s) = false) by (rewrite Ht; reflexivity).
  assert (Hi : _indicator (this s) = None) by (rewrite Ht; reflexivity).
  assert (Hid : _timeout (this s) = None) by (rewrite Ht; reflexivity).
  destruct e as [| |v|p fs|fs id]; try discriminate; simpl handler.
  - run_system. cbn. rewrite Hid. cbn. rewrite Hp. cbn.
    repeat split; reflexivity.
  - unfold setting_changed, exec. cbv [bind modify _updateStyles get].
    reduce_system. set (s0 := set_gsettings _ s).
    change (_indicator (this s0)) with (_indicator (this s)). rewrite Hi.
    repeat split; reflexivity.
  - assert (E : existsb (fun t => Pos.eqb (fst t) id) (sources s) = false)
      by (rewrite Hs; reflexivity).
    unfold tick, exec. cbv [bind get]. rewrite E.
    repeat split; reflexivity.
Qed.

Lemma run_stopped events :
  forall s, stopped s -> forallb is_callback events = true ->
            mach (run events s) = mach s
            /\ this (run events s) = this s
            /\ sources (run events s) = sources s.
Proof.
  induction events as [|e events IH]; intros s Hs He; [repeat split|].
  simpl in He. apply andb_true_iff in He. destruct He as [He Hr].
  destruct (callback_stopped e s He Hs) as (Hm & Ht & Hso).
  assert (Hs' : stopped (exec (handler e) s)).
  { unfold stopped in *. rewrite Ht, Hso. exact Hs. }
  destruct (IH _ Hs' Hr) as (Hm' & Ht' & Hso').
  simpl run. fold (run events (exec (handler e) s)).
  rewrite Hm', Ht', Hso'. repeat split; assumption.
Qed.

(** X15.  [disable] stops the sampling: it leaves no timer registered,
    and a callback of the extension that runs afterwards, of a timer for
    any identifier or of a change of any setting, reads no table and
    changes neither the stored counters, nor the log, nor the extension,
    nor the timers. *)
Theorem nothing_runs_after_disable s events :
  one_timer s -> forallb is_callback events = true ->
  let s0 := exec disable s in
  sources s0 = []
  /\ mach (run events s0) = mach s0
  /\ this (run events s0) = this s0
  /\ sources (run events s0) = sources s0.
Proof.
  intros H He s0. pose proof (disable_stopped s H) as Hs. fold s0 in Hs.
  split; [exact (proj1 Hs) | now apply run_stopped].
Qed.

Lemma nothing_runs_after_disable_witness :
  let s0 := exec disable system_running in
  let events := [TimerFired proc_4 1%positive;
                 SettingChanged settings_memory_only proc_4;
                 IntervalChanged (Fin 5); TimerFired proc_1 2%positive] in
  sources s0 = []
  /\ mach (run events s0) = mach s0
  /\ this (run events s0) = this s0
  /\ sources (run events s0) = sources s0.
Proof.
  apply (nothing_runs_after_disable system_running
           [TimerFired proc_4 1%positive;
            SettingChanged settings_memory_only proc_4;
            IntervalChanged (Fin 5); TimerFired proc_1 2%positive]).
  - unfold one_timer. vm_compute. repeat split. discriminate.
  - reflexivity.
Defined.

(** ** Failures of the sources *)

(** C8, as stated, fails for a parse failure: a CPU table whose idle
    field is not a number is read without an error, nothing is logged,
    and the usage returned is NaN, not 0; a memory table whose values are
    not numbers gives NaN to their keys, not the all-zero record. *)
Lemma parse_failure_not_zero_snapshot :
  eval (getCurrentCPUUsage proc_bad_cpu) machine_1 = Normal NaN
  /\ eval (getCurrentCPUUsage proc_bad_cpu) machine_1 <> Normal (Fin 0)
  /\ console (exec (getCurrentCPUUsage proc_bad_cpu) machine_1)
     = console machine_1
  /\ getMemoryInfo proc_4 machine_1
     = (Normal {| total := Fin 2000; avail := NaN;
                  swTotal := NaN; swFree := Fin 0 |}, machine_1)
  /\ eval (getMemoryInfo proc_4) machine_1
     <> Normal {| total := Fin 0; avail := Fin 0;
                  swTotal := Fin 0; swFree := Fin 0 |}.
Proof.
  split; [vm_compute; reflexivity|].
  split; [vm_compute; discriminate|].
  split; [vm_compute; reflexivity|].
  split; [vm_compute; reflexivity|].
  vm_compute. discriminate.
Qed.

(** C8, amended.  No failure during a read raises to the caller: the
    three readers complete normally whatever their sources hold.  When a
    source cannot be read or decoded, its reader logs the error and
    returns its zero snapshot ([{down: 0, up: 0}], the usage 0, the
    all-zero record), having changed nothing but the log.  When a source
    is read but does not parse, nothing is logged and the snapshot is not
    zero in general: the network reader skips the lines of fewer than 3
    tokens and those whose field 1 or 9 [Number.parseInt] does not read,
    and takes its rates from the sums of the others; the CPU reader
    returns 0 and stores nothing when the first line does not pass its
    test, and returns NaN when one of the four fields is not read; the
    memory reader gives each key the value of its last line, NaN when it
    is not read.  The other metrics proceed unaffected: no reader depends
    on what was logged, and a tick of a live extension completes and sets
    the label to the fragments of the enabled metrics. *)
Theorem readers_never_raise refreshInterval fs m :
  (exists r m',
      getCurrentNetSpeed refreshInterval fs m = (Normal r, m')
      /\ (forall e, failure (net_dev fs) = Some e ->
                    r = {| down := Fin 0; up := Fin 0 |} /\ m' = logged e m)
      /\ (forall text,
             net_dev fs = Contents (Encoded text) ->
             let down := number_sum 1 (split_lines text) in
             let up := number_sum 9 (split_lines text) in
             console m' = console m
             /\ net_sample text = (down, up)
             /\ r = {| down := rate down (lastTotalNetDownBytes (vars m))
                                    refreshInterval;
                       up := rate up (lastTotalNetUpBytes (vars m))
                                  refreshInterval |}))
  /\ (exists u m',
         getCurrentCPUUsage fs m = (Normal u, m')
         /\ (forall e, failure (stat fs) = Some e ->
                       u = Fin 0 /\ m' = logged e m)
         /\ (forall text,
                stat fs = Contents (Encoded text) ->
                console m' = console m
                /\ (cpu_sample text = None -> u = Fin 0 /\ m' = m)
                /\ (forall used total,
                       cpu_sample text = Some (used, total) ->
                       (exists k,
                           (1 <= k <= 4)%nat
                           /\ numeric (field (fields_of
                                                (hd "undefined" (split_lines text)))
                                             k) = false) ->
                       u = NaN)))
  /\ (exists mem m',
         getMemoryInfo fs m = (Normal mem, m')
         /\ (forall e, failure (meminfo fs) = Some e ->
                       mem = {| total := Fin 0; avail := Fin 0;
                                swTotal := Fin 0; swFree := Fin 0 |}
                       /\ m' = logged e m)
         /\ (forall text,
                meminfo fs = Contents (Encoded text) ->
                m' = m
                /\ mem = {| total := last_value "MemTotal" (split_lines text);
                            avail := last_value "MemAvailable" (split_lines text);
                            swTotal := last_value "SwapTotal" (split_lines text);
                            swFree := last_value "SwapFree" (split_lines text) |}))
  /\ (forall key lines line,
         find (sets_key key) (rev lines) = Some line ->
         numeric (field (fields_of line) 1) = false ->
         last_value key lines = NaN)
  /\ (forall e,
         (eval (getCurrentNetSpeed refreshInterval fs) (logged e m)
          = eval (getCurrentNetSpeed refreshInterval fs) m
          /\ vars (exec (getCurrentNetSpeed refreshInterval fs) (logged e m))
             = vars (exec (getCurrentNetSpeed refreshInterval fs) m))
         /\ (eval (getCurrentCPUUsage fs) (logged e m)
             = eval (getCurrentCPUUsage fs) m
             /\ vars (exec (getCurrentCPUUsage fs) (logged e m))
                = vars (exec (getCurrentCPUUsage fs) m))
         /\ (eval (getMemoryInfo fs) (logged e m)
             = eval (getMemoryInfo fs) m
             /\ vars (exec (getMemoryInfo fs) (logged e m))
                = vars (exec (getMemoryInfo fs) m)))
  /\ (forall s label,
         _indicator (this s) = Some label -> _prefs (this s) = true ->
         let p := gsettings s in
         let s1 := exec (on_machine (getMemoryInfo fs)) s in
         let s2 := exec (cpu_item p fs) s1 in
         exists mem cpu net s',
           eval (getMemoryInfo fs) (mach s) = Normal mem
           /\ eval (cpu_item p fs) s1 = Normal cpu
           /\ eval (net_items p fs) s2 = Normal net
           /\ _refresh fs s = (Normal SOURCE_CONTINUE, s')
           /\ _indicator (this s')
              = Some (join (ITEM_SEPARATOR p)
                        (cpu ++ memory_item p mem ++ swap_item p mem ++ net)%list)).
Proof.
  repeat apply conj.
  - destruct (getCurrentNetSpeed_normal refreshInterval fs m) as (r & m' & E).
    exists r, m'. split; [exact E|]. split.
    + intros e He. rewrite (getCurrentNetSpeed_failure _ _ _ e He) in E.
      injection E as <- <-. split; reflexivity.
    + intros text Ht down up. subst down up.
      rewrite (getCurrentNetSpeed_read _ _ _ text Ht) in E.
      injection E as <- <-.
      assert (Hs : net_sample text
                   = (number_sum 1 (split_lines text),
                      number_sum 9 (split_lines text)))
        by apply net_totals_sums.
      rewrite Hs. repeat split.
  - destruct (getCurrentCPUUsage_normal fs m) as (u & m' & E).
    exists u, m'. split; [exact E|]. split.
    + intros e He. rewrite (getCurrentCPUUsage_failure _ _ e He) in E.
      injection E as <- <-. split; reflexivity.
    + intros text Ht. rewrite (getCurrentCPUUsage_read _ _ text Ht) in E.
      destruct (cpu_sample text) as [[used total]|] eqn:Ec.
      * injection E as <- <-. split; [reflexivity|]. split; [discriminate|].
        intros used' total' [= <- <-] Hbad.
        apply usage_of_NaN. left.
        exact (cpu_sample_bad_field text used total Ec Hbad).
      * injection E as <- <-. split; [reflexivity|]. split.
        -- intros _. split; reflexivity.
        -- intros used total H. discriminate H.
  - destruct (getMemoryInfo_normal fs m) as (mem & m' & E).
    exists mem, m'. split; [exact E|]. split.
    + intros e He. rewrite (getMemoryInfo_failure _ _ e He) in E.
      injection E as <- <-. split; reflexivity.
    + intros text Ht. rewrite (getMemoryInfo_read _ _ text Ht) in E.
      injection E as <- <-. split; [reflexivity|].
      apply mem_fold_last_values.
  - exact last_value_not_numeric.
  - intros e. split; [apply getCurrentNetSpeed_logged|].
    split; [apply getCurrentCPUUsage_logged | apply getMemoryInfo_logged].
  - intros s label Hi Hp. exact (_refresh_live fs s label Hi Hp).
Qed.

Lemma readers_never_raise_witness :
  (exists r m',
      getCurrentNetSpeed (Fin 2) proc_no_net machine_1 = (Normal r, m')
      /\ r = {| down := Fin 0; up := Fin 0 |}
      /\ m' = logged IOError machine_1)
  /\ (exists u m',
         getCurrentCPUUsage proc_bad_cpu machine_1 = (Normal u, m')
         /\ console m' = console machine_1
         /\ u = NaN)
  /\ exists s', _refresh proc_no_net system_running = (Normal SOURCE_CONTINUE, s').
Proof.
  split; [|split].
  - destruct (readers_never_raise (Fin 2) proc_no_net machine_1)
      as ((r & m' & E & H & _) & _).
    exists r, m'. split; [exact E|]. apply (H IOError). reflexivity.
  - destruct (readers_never_raise (Fin 2) proc_bad_cpu machine_1)
      as (_ & (u & m' & E & _ & H) & _).
    destruct (H cpu_table_3 eq_refl) as (Hc & _ & Hn).
    exists u, m'. split; [exact E|]. split; [exact Hc|].
    apply (Hn (Fin 400) NaN); [vm_compute; reflexivity|].
    exists 4%nat. split; [lia | vm_compute; reflexivity].
  - destruct (readers_never_raise (Fin 2) proc_no_net machine_1)
      as (_ & _ & _ & _ & _ & Hr).
    destruct (Hr system_running "C  0% M 75% D  250 B/s U    0 B/s")
      as (_ & _ & _ & s' & _ & _ & _ & E & _).
    + vm_compute. reflexivity.
    + vm_compute. reflexivity.
    + exists s'. exact E.
Defined.
